(** * Zaber X-ADR130 stage adaptor: the [Controller] class of
      [zaber_X_ADR130.py] and its serial protocol

    The Python class keeps its state in attributes of [self] and talks to
    the stage through a [serial.Serial] port.  Here the object, its port
    and the console are one record that every method transforms; a method
    is a function from that record to an outcome (a return value, a
    raised exception, or a loop that ran out of fuel).

    Python numbers are IEEE binary64 floats ([PrimFloat.float]); integer
    arguments such as [65] stand for the float of the same value.  The
    interpreter's builtins [str], [float] and [round(_, 3)] on floats are
    not part of the repository: the methods take them as parameters, and
    the module [CPython] gives executable versions for the examples. *)

From Stdlib Require Import Bool Ascii String List ZArith Lia DecimalString.
From Stdlib Require Import Floats.PrimFloat Floats.FloatOps Floats.SpecFloat.
From Stdlib Require Import Floats.FloatAxioms.
Import ListNotations.

Set Warnings "-inexact-float".

Local Open Scope string_scope.
Local Open Scope list_scope.

(* ================================================================== *)
(** * Python strings and bytes *)
(* ================================================================== *)

Module Py.

Definition CR : ascii := "013"%char.
Definition LF : ascii := "010"%char.

(** The two bytes [b'\r\n']. *)
Definition CRLF : string := String CR (String LF EmptyString).

(** [s.startswith(prefix)] and [s.endswith(suffix)] *)
Fixpoint startswith (prefix s : string) : bool :=
  match prefix, s with
  | EmptyString, _ => true
  | String a p, String b t => Ascii.eqb a b && startswith p t
  | String _ _, EmptyString => false
  end.

Fixpoint rev_string (s acc : string) : string :=
  match s with
  | EmptyString => acc
  | String c t => rev_string t (String c acc)
  end.

Definition endswith (s suffix : string) : bool :=
  startswith (rev_string suffix EmptyString) (rev_string s EmptyString).

(** [bytes.decode('ascii')] succeeds when every byte is below 128. *)
Definition is_ascii_char (c : ascii) : bool := Nat.ltb (nat_of_ascii c) 128.

Fixpoint is_ascii (s : string) : bool :=
  match s with
  | EmptyString => true
  | String c t => is_ascii_char c && is_ascii t
  end.

(** [s.strip('\r\n')]: drop leading and trailing characters that are CR
    or LF. *)
Definition is_crlf (c : ascii) : bool := Ascii.eqb c CR || Ascii.eqb c LF.

Fixpoint lstrip (p : ascii -> bool) (s : string) : string :=
  match s with
  | EmptyString => EmptyString
  | String c t => if p c then lstrip p t else s
  end.

Definition rstrip (p : ascii -> bool) (s : string) : string :=
  rev_string (lstrip p (rev_string s EmptyString)) EmptyString.

Definition strip (p : ascii -> bool) (s : string) : string :=
  rstrip p (lstrip p s).

(** Slices [s[i:]] and [s[i:j]] (they never raise). *)
Fixpoint drop (n : nat) (s : string) : string :=
  match n, s with
  | O, _ => s
  | S _, EmptyString => EmptyString
  | S k, String _ t => drop k t
  end.

Fixpoint take (n : nat) (s : string) : string :=
  match n, s with
  | O, _ => EmptyString
  | S _, EmptyString => EmptyString
  | S k, String c t => String c (take k t)
  end.

Definition slice (i j : nat) (s : string) : string := take (j - i) (drop i s).

(** [str.isspace] on ASCII: TAB, LF, VT, FF, CR, FS, GS, RS, US, space. *)
Definition isspace (c : ascii) : bool :=
  let n := nat_of_ascii c in
  (Nat.leb 9 n && Nat.leb n 13) || (Nat.leb 28 n && Nat.leb n 32).

(** [s.split()]: maximal runs of non-space characters.  [tok] holds the
    characters of the run being read, last one first. *)
Fixpoint split_from (s : string) (tok : string) : list string :=
  match s with
  | EmptyString =>
      match tok with
      | EmptyString => []
      | _ => [rev_string tok EmptyString]
      end
  | String c t =>
      if isspace c then
        match tok with
        | EmptyString => split_from t EmptyString
        | _ => rev_string tok EmptyString :: split_from t EmptyString
        end
      else split_from t (String c tok)
  end.

Definition split (s : string) : list string := split_from s EmptyString.

(** [t in (a, b, ...)] on strings. *)
Definition mem (t : string) (l : list string) : bool :=
  existsb (String.eqb t) l.

End Py.

(* ================================================================== *)
(** * The serial port *)
(* ================================================================== *)

(** [serial.Serial] with a scripted stage behind it.  [tx] is everything
    written so far; [rx] holds the bytes received and not yet read;
    [device] lists what the stage will transmit, one entry per write it
    receives.  The script is arbitrary, so a statement over all ports is
    a statement over every behaviour of the stage. *)
Record Serial : Type := mkSerial {
  tx : list string;
  rx : string;
  device : list string
}.

Module Port.

(** [port.write(cmd)]: the bytes go out and the stage's next transmission
    arrives in the input buffer. *)
Definition write (cmd : string) (p : Serial) : Serial :=
  match device p with
  | [] => mkSerial (tx p ++ [cmd]) (rx p) []
  | r :: rest => mkSerial (tx p ++ [cmd]) (rx p ++ r) rest
  end.

(** The prefix of a buffer up to and including its first LF (all of it
    when there is none: the read times out), and the rest. *)
Fixpoint cut_line (buf : string) : string * string :=
  match buf with
  | EmptyString => (EmptyString, EmptyString)
  | String c t =>
      if Ascii.eqb c Py.LF then (String c EmptyString, t)
      else let (l, r) := cut_line t in (String c l, r)
  end.

(** [port.readline()] *)
Definition readline (p : Serial) : string * Serial :=
  let (l, r) := cut_line (rx p) in (l, mkSerial (tx p) r (device p)).

(** [port.in_waiting] *)
Definition in_waiting (p : Serial) : nat := String.length (rx p).

End Port.

(* ================================================================== *)
(** * Console output and exceptions *)
(* ================================================================== *)

(** One constructor per [print] call of the class, with the values the
    format string is filled with (the [name] prefix is left out). *)
Inductive Msg : Type :=
| opening | opened_done
| getting_device_id
| sending_cmd (cmd : string)
| got_response (response : string)
| show_device_id (device_id : string)
| show_device_name (device_name : string)
| show_device_address (device_address : string)
| command_rejected
| getting_status | show_status (status : string)
| getting_warnings | show_warnings (warnings : string)
| finished_moving
| homing | done_homing
| getting_status_x | show_status_x (status_x : string)
| finished_moving_x
| moving_to_x (x_mm : float) (relative : bool)
| x_out_of_limits
| stopping_x
| done_stopping
| getting_position_x | show_position_x (x_mm : float)
| getting_status_y | show_status_y (status_y : string)
| finished_moving_y
| moving_to_y (y_mm : float) (relative : bool)
| y_out_of_limits
| stopping_y
| getting_position_y | show_position_y (y_mm : float)
| getting_position | show_position (x_mm y_mm : float)
| moving_to_xy | moving_to_xy_args (x_mm y_mm : float) (relative : bool)
| getting_maxspeed | show_maxspeed (x_mmps y_mmps : float)
| setting_maxspeed | setting_maxspeed_args (x_mmps y_mmps : float)
| done_setting_maxspeed
| closing | closed_done.

(** The [assert] statements of the class. *)
Inductive Assertion : Type :=
| x_limit_out_of_range
| x_min_not_below_x_max
| y_limit_out_of_range
| y_min_not_below_y_max
| unexpected_response_terminator
| unexpected_response_character (c : ascii)
| unexpected_device_address (a : string)
| bytes_in_waiting
| home_acknowledgment
| stop_x_acknowledgment
| stop_y_acknowledgment
| maxspeed_out_of_range
| maxspeed_read_back.

Inductive PyError : Type :=
| AssertionError (a : Assertion)
| IndexError
| KeyError (key : string)
| ValueError
| UnicodeDecodeError
| IOError_no_connection
| Exception_no_response
| Exception_device_id_not_recognised (device_id : string)
| Exception_warnings_not_recognised (warnings : string).

(* ================================================================== *)
(** * The controller object *)
(* ================================================================== *)

(** The attributes of [self], and the console the object prints to.
    [__init__] assigns every attribute before anything reads it and the
    other methods run on constructed objects, so no attribute is ever
    missing when it is read. *)
Record Controller : Type := mkController {
  name : string;
  verbose : bool;
  very_verbose : bool;
  x_min_mm : float;
  x_max_mm : float;
  y_min_mm : float;
  y_max_mm : float;
  port : Serial;
  device_id : string;
  device_name : string;
  device_address : string;
  _moving : bool;
  _moving_x : bool;
  _moving_y : bool;
  x_mm : float;
  y_mm : float;
  x_mmps : float;
  y_mmps : float;
  stdout : list Msg
}.

(** Attribute assignments [self.attr = v]. *)
Definition set_port (p : Serial) (c : Controller) : Controller :=
  mkController (name c) (verbose c) (very_verbose c) (x_min_mm c) (x_max_mm c)
    (y_min_mm c) (y_max_mm c) p (device_id c) (device_name c)
    (device_address c) (_moving c) (_moving_x c) (_moving_y c) (x_mm c)
    (y_mm c) (x_mmps c) (y_mmps c) (stdout c).

Definition set_stdout (o : list Msg) (c : Controller) : Controller :=
  mkController (name c) (verbose c) (very_verbose c) (x_min_mm c) (x_max_mm c)
    (y_min_mm c) (y_max_mm c) (port c) (device_id c) (device_name c)
    (device_address c) (_moving c) (_moving_x c) (_moving_y c) (x_mm c)
    (y_mm c) (x_mmps c) (y_mmps c) o.

Definition set_moving (b : bool) (c : Controller) : Controller :=
  mkController (name c) (verbose c) (very_verbose c) (x_min_mm c) (x_max_mm c)
    (y_min_mm c) (y_max_mm c) (port c) (device_id c) (device_name c)
    (device_address c) b (_moving_x c) (_moving_y c) (x_mm c)
    (y_mm c) (x_mmps c) (y_mmps c) (stdout c).

Definition set_moving_x (b : bool) (c : Controller) : Controller :=
  mkController (name c) (verbose c) (very_verbose c) (x_min_mm c) (x_max_mm c)
    (y_min_mm c) (y_max_mm c) (port c) (device_id c) (device_name c)
    (device_address c) (_moving c) b (_moving_y c) (x_mm c)
    (y_mm c) (x_mmps c) (y_mmps c) (stdout c).

Definition set_moving_y (b : bool) (c : Controller) : Controller :=
  mkController (name c) (verbose c) (very_verbose c) (x_min_mm c) (x_max_mm c)
    (y_min_mm c) (y_max_mm c) (port c) (device_id c) (device_name c)
    (device_address c) (_moving c) (_moving_x c) b (x_mm c)
    (y_mm c) (x_mmps c) (y_mmps c) (stdout c).

Definition set_x_mm (v : float) (c : Controller) : Controller :=
  mkController (name c) (verbose c) (very_verbose c) (x_min_mm c) (x_max_mm c)
    (y_min_mm c) (y_max_mm c) (port c) (device_id c) (device_name c)
    (device_address c) (_moving c) (_moving_x c) (_moving_y c) v
    (y_mm c) (x_mmps c) (y_mmps c) (stdout c).

Definition set_y_mm (v : float) (c : Controller) : Controller :=
  mkController (name c) (verbose c) (very_verbose c) (x_min_mm c) (x_max_mm c)
    (y_min_mm c) (y_max_mm c) (port c) (device_id c) (device_name c)
    (device_address c) (_moving c) (_moving_x c) (_moving_y c) (x_mm c)
    v (x_mmps c) (y_mmps c) (stdout c).

Definition set_x_mmps (v : float) (c : Controller) : Controller :=
  mkController (name c) (verbose c) (very_verbose c) (x_min_mm c) (x_max_mm c)
    (y_min_mm c) (y_max_mm c) (port c) (device_id c) (device_name c)
    (device_address c) (_moving c) (_moving_x c) (_moving_y c) (x_mm c)
    (y_mm c) v (y_mmps c) (stdout c).

Definition set_y_mmps (v : float) (c : Controller) : Controller :=
  mkController (name c) (verbose c) (very_verbose c) (x_min_mm c) (x_max_mm c)
    (y_min_mm c) (y_max_mm c) (port c) (device_id c) (device_name c)
    (device_address c) (_moving c) (_moving_x c) (_moving_y c) (x_mm c)
    (y_mm c) (x_mmps c) v (stdout c).

Definition set_device_id (v : string) (c : Controller) : Controller :=
  mkController (name c) (verbose c) (very_verbose c) (x_min_mm c) (x_max_mm c)
    (y_min_mm c) (y_max_mm c) (port c) v (device_name c) (device_address c)
    (_moving c) (_moving_x c) (_moving_y c) (x_mm c) (y_mm c) (x_mmps c)
    (y_mmps c) (stdout c).

Definition set_device_name (v : string) (c : Controller) : Controller :=
  mkController (name c) (verbose c) (very_verbose c) (x_min_mm c) (x_max_mm c)
    (y_min_mm c) (y_max_mm c) (port c) (device_id c) v (device_address c)
    (_moving c) (_moving_x c) (_moving_y c) (x_mm c) (y_mm c) (x_mmps c)
    (y_mmps c) (stdout c).

Definition set_device_address (v : string) (c : Controller) : Controller :=
  mkController (name c) (verbose c) (very_verbose c) (x_min_mm c) (x_max_mm c)
    (y_min_mm c) (y_max_mm c) (port c) (device_id c) (device_name c) v
    (_moving c) (_moving_x c) (_moving_y c) (x_mm c) (y_mm c) (x_mmps c)
    (y_mmps c) (stdout c).

Definition set_limits (x y : float * float) (c : Controller) : Controller :=
  mkController (name c) (verbose c) (very_verbose c) (fst x) (snd x)
    (fst y) (snd y) (port c) (device_id c) (device_name c) (device_address c)
    (_moving c) (_moving_x c) (_moving_y c) (x_mm c) (y_mm c) (x_mmps c)
    (y_mmps c) (stdout c).

(** An assignment is carried out once the object is known. *)
Arguments set_port p !c /.
Arguments set_stdout o !c /.
Arguments set_moving b !c /.
Arguments set_moving_x b !c /.
Arguments set_moving_y b !c /.
Arguments set_x_mm v !c /.
Arguments set_y_mm v !c /.
Arguments set_x_mmps v !c /.
Arguments set_y_mmps v !c /.
Arguments set_device_id v !c /.
Arguments set_device_name v !c /.
Arguments set_device_address v !c /.
Arguments set_limits x y !c /.

(* ================================================================== *)
(** * Methods as state transformers *)
(* ================================================================== *)

(** What a call does: it returns, it raises, or (only for the
    [while self._moving] loops) it is cut off after [fuel] iterations. *)
Inductive Outcome (A : Type) : Type :=
| Return (a : A) (self : Controller)
| Raise (e : PyError) (self : Controller)
| OutOfFuel.

Arguments Return {A} a self.
Arguments Raise {A} e self.
Arguments OutOfFuel {A}.

Definition M (A : Type) : Type := Controller -> Outcome A.

Definition ret {A} (a : A) : M A := fun self => Return a self.

Definition bind {A B} (m : M A) (k : A -> M B) : M B :=
  fun self =>
    match m self with
    | Return a self' => k a self'
    | Raise e self' => Raise e self'
    | OutOfFuel => OutOfFuel
    end.

Declare Scope py_scope.
Delimit Scope py_scope with py.
Notation "x <- m ;; k" := (bind m (fun x => k))
  (at level 61, m at next level, right associativity) : py_scope.
Notation "m ;; k" := (bind m (fun _ => k))
  (at level 61, right associativity) : py_scope.
Local Open Scope py_scope.

Definition raise {A} (e : PyError) : M A := fun self => Raise e self.
Definition get : M Controller := fun self => Return self self.
Definition modify (f : Controller -> Controller) : M unit :=
  fun self => Return tt (f self).

Definition print (m : Msg) : M unit :=
  modify (fun self => set_stdout (stdout self ++ [m]) self).

Definition when (b : bool) (m : M unit) : M unit := if b then m else ret tt.

(** [assert b, msg] *)
Definition assert (b : bool) (a : Assertion) : M unit :=
  if b then ret tt else raise (AssertionError a).

(** A partial builtin: [None] is the exception [e]. *)
Definition try {A} (o : option A) (e : PyError) : M A :=
  match o with
  | Some a => ret a
  | None => raise e
  end.

(** [bytes.decode('ascii')] *)
Definition decode_ascii (b : string) : M string :=
  if Py.is_ascii b then ret b else raise UnicodeDecodeError.

(** [self.port.write(cmd)], [self.port.readline()], [self.port.in_waiting] *)
Definition port_write (cmd : string) : M unit :=
  modify (fun self => set_port (Port.write cmd (port self)) self).

Definition port_readline : M string :=
  fun self =>
    let (l, p) := Port.readline (port self) in Return l (set_port p self).

Definition port_in_waiting : M nat :=
  fun self => Return (Port.in_waiting (port self)) self.

(** ** [_send] *)

Definition response_type_to_char : list (string * ascii) :=
  [("reply", "@"%char); ("info", "#"%char); ("alert", "!"%char)].

Fixpoint lookup (key : string) (d : list (string * ascii)) : option ascii :=
  match d with
  | [] => None
  | (k, v) :: rest => if String.eqb k key then Some v else lookup key rest
  end.

(** The command line [bytes('/' + address + ' ' + cmd + '\n', 'ascii')].
    Its text is ASCII in every run (the address was decoded from ASCII,
    the rest is literals and [str] of floats), so the encoding is total. *)
Definition frame (address cmd : string) : string :=
  "/" ++ address ++ " " ++ cmd ++ String Py.LF EmptyString.

Definition _send (cmd : string) (response_type : string) : M string :=
  self <- get ;;
  let cmd := frame (device_address self) cmd in
  when (very_verbose self) (print (sending_cmd cmd)) ;;
  port_write cmd ;;
  response <- port_readline ;;
  when (very_verbose self) (print (got_response response)) ;;
  assert (Py.endswith response Py.CRLF) unexpected_response_terminator ;;
  response <- decode_ascii response ;;
  let response := Py.strip Py.is_crlf response in
  c <- try (String.get 0 response) IndexError ;;
  expected <- try (lookup response_type response_type_to_char)
                  (KeyError response_type) ;;
  assert (Ascii.eqb c expected) (unexpected_response_character c) ;;
  assert (String.eqb (Py.slice 1 3 response) (device_address self))
         (unexpected_device_address (Py.slice 1 3 response)) ;;
  (if verbose self then
     status <- try (nth_error (Py.split response) 2) IndexError ;;
     when (negb (String.eqb status "OK")) (print command_rejected)
   else ret tt) ;;
  n <- port_in_waiting ;;
  assert (Nat.eqb n 0) bytes_in_waiting ;;
  ret (Py.drop 4 response).

(** ** Status, warnings, homing *)

Definition _get_status : M string :=
  self <- get ;;
  when (very_verbose self) (print getting_status) ;;
  status <- _send "" "reply" ;;
  when (very_verbose self) (print (show_status status)) ;;
  modify (set_moving false) ;;
  state <- try (nth_error (Py.split status) 2) IndexError ;;
  when (String.eqb state "BUSY") (modify (set_moving true)) ;;
  ret status.

Definition _get_warnings : M string :=
  self <- get ;;
  when (very_verbose self) (print getting_warnings) ;;
  warnings <- _send "warnings" "reply" ;;
  when (very_verbose self) (print (show_warnings warnings)) ;;
  ret warnings.

(** [while self._moving: self._get_status()], one unit of fuel per
    iteration. *)
Fixpoint _finish_moving (fuel : nat) : M unit :=
  fun self =>
    if _moving self then
      match fuel with
      | O => OutOfFuel
      | S fuel' => (_get_status ;; _finish_moving fuel') self
      end
    else when (verbose self) (print finished_moving) self.

Definition _home (fuel : nat) : M unit :=
  self <- get ;;
  when (verbose self) (print homing) ;;
  ack <- _send "home" "reply" ;;
  assert (String.eqb ack "0 OK BUSY WR 0") home_acknowledgment ;;
  modify (set_moving true) ;;
  _finish_moving fuel ;;
  when (verbose self) (print done_homing).

(** ** The x axis *)

Definition _get_status_x : M string :=
  self <- get ;;
  when (very_verbose self) (print getting_status_x) ;;
  status_x <- _send "1" "reply" ;;
  when (very_verbose self) (print (show_status_x status_x)) ;;
  modify (set_moving_x false) ;;
  state <- try (nth_error (Py.split status_x) 2) IndexError ;;
  when (String.eqb state "BUSY") (modify (set_moving_x true)) ;;
  ret status_x.

Fixpoint _finish_moving_x (fuel : nat) : M unit :=
  fun self =>
    if _moving_x self then
      match fuel with
      | O => OutOfFuel
      | S fuel' => (_get_status_x ;; _finish_moving_x fuel') self
      end
    else when (very_verbose self) (print finished_moving_x) self.

Definition _stop_x : M unit :=
  self <- get ;;
  when (very_verbose self) (print stopping_x) ;;
  ack <- _send "1 stop" "reply" ;;
  assert (Py.mem ack ["1 OK BUSY -- 0"; "1 OK BUSY NI 0"])
         stop_x_acknowledgment ;;
  when (very_verbose self) (print done_stopping).

(** ** The y axis *)

Definition _get_status_y : M string :=
  self <- get ;;
  when (very_verbose self) (print getting_status_y) ;;
  status_y <- _send "2" "reply" ;;
  when (very_verbose self) (print (show_status_y status_y)) ;;
  modify (set_moving_y false) ;;
  state <- try (nth_error (Py.split status_y) 2) IndexError ;;
  when (String.eqb state "BUSY") (modify (set_moving_y true)) ;;
  ret status_y.

Fixpoint _finish_moving_y (fuel : nat) : M unit :=
  fun self =>
    if _moving_y self then
      match fuel with
      | O => OutOfFuel
      | S fuel' => (_get_status_y ;; _finish_moving_y fuel') self
      end
    else when (very_verbose self) (print finished_moving_y) self.

Definition _stop_y : M unit :=
  self <- get ;;
  when (very_verbose self) (print stopping_y) ;;
  ack <- _send "2 stop" "reply" ;;
  assert (Py.mem ack ["2 OK BUSY -- 0"; "2 OK BUSY NI 0"])
         stop_y_acknowledgment ;;
  when (very_verbose self) (print done_stopping).

(** ** Methods that convert numbers *)

Section Builtins.

(** [str(x)], [float(s)] ([None]: [ValueError]) and [round(x, 3)] of the
    interpreter. *)
Variable py_str : float -> string.
Variable py_float : string -> option float.
Variable py_round3 : float -> float.

(** [x_min <= x <= x_max] *)
Definition within (lo x hi : float) : bool :=
  PrimFloat.leb lo x && PrimFloat.leb x hi.

Definition _move_x (fuel : nat) (x_mm' : float) (relative block : bool)
  : M unit :=
  self <- get ;;
  when (_moving_x self) (_finish_moving_x fuel) ;;
  when (very_verbose self) (print (moving_to_x x_mm' relative)) ;;
  self <- get ;;
  let x_mm' := if relative then (x_mm self + x_mm')%float else x_mm' in
  if negb (within (x_min_mm self) x_mm' (x_max_mm self)) then
    when (verbose self) (print x_out_of_limits)
  else
    _send ("1 move abs " ++ py_str (1e6 * x_mm')%float) "reply" ;;
    modify (set_moving_x true) ;;
    modify (set_x_mm x_mm') ;;
    when block (_finish_moving_x fuel).

Definition _get_position_x : M float :=
  self <- get ;;
  when (very_verbose self) (print getting_position_x) ;;
  reply <- _send "1 get pos" "reply" ;;
  field <- try (nth_error (Py.split reply) 4) IndexError ;;
  nm <- try (py_float field) ValueError ;;
  modify (set_x_mm (1e-6 * nm)%float) ;;
  when (very_verbose self) (print (show_position_x (1e-6 * nm)%float)) ;;
  ret (1e-6 * nm)%float.

Definition _move_y (fuel : nat) (y_mm' : float) (relative block : bool)
  : M unit :=
  self <- get ;;
  when (_moving_y self) (_finish_moving_y fuel) ;;
  when (very_verbose self) (print (moving_to_y y_mm' relative)) ;;
  self <- get ;;
  let y_mm' := if relative then (y_mm self + y_mm')%float else y_mm' in
  if negb (within (y_min_mm self) y_mm' (y_max_mm self)) then
    when (verbose self) (print y_out_of_limits)
  else
    _send ("2 move abs " ++ py_str (1e6 * y_mm')%float) "reply" ;;
    modify (set_moving_y true) ;;
    modify (set_y_mm y_mm') ;;
    when block (_finish_moving_y fuel).

Definition _get_position_y : M float :=
  self <- get ;;
  when (very_verbose self) (print getting_position_y) ;;
  reply <- _send "2 get pos" "reply" ;;
  field <- try (nth_error (Py.split reply) 4) IndexError ;;
  nm <- try (py_float field) ValueError ;;
  modify (set_y_mm (1e-6 * nm)%float) ;;
  when (very_verbose self) (print (show_position_y (1e-6 * nm)%float)) ;;
  ret (1e-6 * nm)%float.

(** [[f(float(p)) for p in fields]]: the first field that does not parse
    raises [ValueError]. *)
Fixpoint floats_of (f : float -> float) (fields : list string) : M (list float) :=
  match fields with
  | [] => ret []
  | p :: rest =>
      v <- try (py_float p) ValueError ;;
      vs <- floats_of f rest ;;
      ret (f v :: vs)
  end.

(** [a, b = values]: anything but two values raises [ValueError]. *)
Definition unpack2 (values : list float) : M (float * float) :=
  match values with
  | [a; b] => ret (a, b)
  | _ => raise ValueError
  end.

Definition get_position_mm : M (float * float) :=
  self <- get ;;
  when (verbose self) (print getting_position) ;;
  reply <- _send "get pos" "reply" ;;
  values <- floats_of (fun p => 1e-6 * p)%float
              (firstn 2 (skipn 4 (Py.split reply))) ;;
  xy <- unpack2 values ;;
  modify (set_x_mm (fst xy)) ;;
  modify (set_y_mm (snd xy)) ;;
  when (verbose self) (print (show_position (fst xy) (snd xy))) ;;
  ret xy.

Definition move_mm (fuel : nat) (x_mm' y_mm' : float) (relative block : bool)
  : M unit :=
  self <- get ;;
  when (verbose self)
    (print moving_to_xy ;; print (moving_to_xy_args x_mm' y_mm' relative)) ;;
  _move_x fuel x_mm' relative false ;;
  _move_y fuel y_mm' relative false ;;
  modify (set_moving true) ;;
  when block
    (_finish_moving fuel ;;
     modify (set_moving_x false) ;;
     modify (set_moving_y false)).

Definition get_maxspeed : M (float * float) :=
  self <- get ;;
  when (verbose self) (print getting_maxspeed) ;;
  reply <- _send "get maxspeed" "reply" ;;
  values <- floats_of (fun s => py_round3 (1e-6 * s / 1.6384))%float
              (firstn 2 (skipn 4 (Py.split reply))) ;;
  xy <- unpack2 values ;;
  modify (set_x_mmps (fst xy)) ;;
  modify (set_y_mmps (snd xy)) ;;
  when (verbose self) (print (show_maxspeed (fst xy) (snd xy))) ;;
  ret xy.

Definition set_maxspeed (x_mmps' y_mmps' : option float) : M unit :=
  self <- get ;;
  let x_mmps' := match x_mmps' with None => x_mmps self | Some v => v end in
  let y_mmps' := match y_mmps' with None => y_mmps self | Some v => v end in
  when (verbose self)
    (print setting_maxspeed ;; print (setting_maxspeed_args x_mmps' y_mmps')) ;;
  assert (within 0.01 x_mmps' 750 && within 0.01 y_mmps' 750)
         maxspeed_out_of_range ;;
  _send ("1 set maxspeed " ++ py_str (1e6 * 1.6384 * x_mmps')%float) "reply" ;;
  _send ("2 set maxspeed " ++ py_str (1e6 * 1.6384 * y_mmps')%float) "reply" ;;
  back <- get_maxspeed ;;
  assert (PrimFloat.eqb (fst back) x_mmps' && PrimFloat.eqb (snd back) y_mmps')
         maxspeed_read_back ;;
  when (verbose self) (print done_setting_maxspeed).

(** ** [__init__]

    The constructor, block by block as the comments of the source divide
    it.  [which_port] is what opening the named port gives: a port, or
    [None] when [serial.Serial] raises [SerialException]. *)

(** [# legalize axis limits:] *)
Definition legalize_axis_limits (x_limits_mm y_limits_mm : float * float)
  : M unit :=
  assert (within 0 (fst x_limits_mm) 130) x_limit_out_of_range ;;
  assert (within 0 (snd x_limits_mm) 130) x_limit_out_of_range ;;
  assert (PrimFloat.ltb (fst x_limits_mm) (snd x_limits_mm))
         x_min_not_below_x_max ;;
  assert (within 0 (fst y_limits_mm) 100) y_limit_out_of_range ;;
  assert (within 0 (snd y_limits_mm) 100) y_limit_out_of_range ;;
  assert (PrimFloat.ltb (fst y_limits_mm) (snd y_limits_mm))
         y_min_not_below_y_max ;;
  modify (set_limits x_limits_mm y_limits_mm).

(** [# open serial port:] *)
Definition open_serial_port (which_port : option Serial) : M unit :=
  self <- get ;;
  when (verbose self) (print opening) ;;
  match which_port with
  | None => raise IOError_no_connection
  | Some p => modify (set_port p)
  end ;;
  when (verbose self) (print opened_done).

(** [l[-1]] *)
Definition last_item (l : list string) : option string :=
  match l with
  | [] => None
  | a :: t => Some (last t a)
  end.

(** [# check device id and address:] *)
Definition check_device_id_and_address : M unit :=
  self <- get ;;
  let cmd := ("/get device.id" ++ String Py.LF EmptyString)%string in
  when (verbose self) (print getting_device_id) ;;
  when (very_verbose self) (print (sending_cmd cmd)) ;;
  port_write cmd ;;
  response <- port_readline ;;
  when (very_verbose self) (print (got_response response)) ;;
  (if Nat.eqb (String.length response) 0 then raise Exception_no_response
   else ret tt) ;;
  text <- decode_ascii response ;;
  id <- try (last_item (Py.split text)) IndexError ;;
  modify (set_device_id id) ;;
  when (verbose self) (print (show_device_id id)) ;;
  (if String.eqb id "50998" then
     modify (set_device_name "X-ADR130B100B-SAE53D12") ;;
     when (verbose self) (print (show_device_name "X-ADR130B100B-SAE53D12"))
   else raise (Exception_device_id_not_recognised id)) ;;
  modify (set_device_address (Py.slice 1 3 text)) ;;
  when (verbose self) (print (show_device_address (Py.slice 1 3 text))).

(** [# get status, check warnings and home if needed:] *)
Definition check_warnings_and_home (fuel : nat) : M unit :=
  _get_status ;;
  first <- _get_warnings ;;
  when (String.eqb first "0 OK IDLE WR 01 WR") (_home fuel) ;;
  warnings <- _get_warnings ;;
  if negb (Py.mem warnings ["0 OK IDLE -- 00"; "0 OK IDLE NI 01 NI"]) then
    raise (Exception_warnings_not_recognised warnings)
  else ret tt.

(** [# get x and y status, position and set maxspeed:] *)
Definition get_status_position_and_set_maxspeed (maxspeed_mmps : float * float)
  : M unit :=
  _get_status_x ;;
  _get_status_y ;;
  get_position_mm ;;
  set_maxspeed (Some (fst maxspeed_mmps)) (Some (snd maxspeed_mmps)).

(** The object before any attribute of the device is known. *)
Definition fresh (name' : string) (verbose' very_verbose' : bool) : Controller :=
  mkController name' verbose' very_verbose' 0 0 0 0 (mkSerial [] "" [])
    "" "" "" false false false 0 0 0 0 [].

Definition __init__ (fuel : nat) (which_port : option Serial) (name' : string)
    (verbose' very_verbose' : bool) (x_limits_mm y_limits_mm : float * float)
    (maxspeed_mmps : float * float) : Outcome unit :=
  (legalize_axis_limits x_limits_mm y_limits_mm ;;
   open_serial_port which_port ;;
   check_device_id_and_address ;;
   check_warnings_and_home fuel ;;
   get_status_position_and_set_maxspeed maxspeed_mmps)
    (fresh name' verbose' very_verbose').

End Builtins.

(* ================================================================== *)
(** * The interpreter's builtins, executable *)
(* ================================================================== *)

(** [float(s)], [round(x, 3)] and [str(x)] as CPython computes them on
    binary64 floats, by exact integer arithmetic.  The theorems below
    hold for any builtins; these versions run the examples. *)
Module CPython.

Local Open Scope Z_scope.

(** The float nearest to [(-1)^s * a / b], ties to even. *)
Definition of_ratio (s : bool) (a : Z) (b : positive) : float :=
  match a with
  | Zpos p =>
      SF2Prim (SFdiv prec emax (S754_finite s p 0) (S754_finite false b 0))
  | _ => if s then neg_zero else zero
  end.

(** The float nearest to [(-1)^s * n * 10^e]. *)
Definition of_decimal (s : bool) (n : Z) (e : Z) : float :=
  if 0 <=? e then of_ratio s (n * 10 ^ e) 1
  else of_ratio s n (Z.to_pos (10 ^ (- e))).

(** ** [float(s)] *)

Definition digit_of (c : ascii) : option Z :=
  let n := Z.of_nat (nat_of_ascii c) in
  if (48 <=? n) && (n <=? 57) then Some (n - 48) else None.

Definition is_digit (c : ascii) : bool :=
  match digit_of c with Some _ => true | None => false end.

(** A run of digits (single underscores may sit between two digits): its
    value, its number of digits, and what follows it. *)
Fixpoint digits (s : string) (acc : Z) (count : Z) : Z * Z * string :=
  match s with
  | String c t =>
      match digit_of c with
      | Some d => digits t (10 * acc + d) (count + 1)
      | None =>
          match t with
          | String c' _ =>
              if Ascii.eqb c "_" && (0 <? count) && is_digit c'
              then digits t acc count
              else (acc, count, s)
          | EmptyString => (acc, count, s)
          end
      end
  | EmptyString => (acc, count, s)
  end.

Definition lower (c : ascii) : ascii :=
  let n := nat_of_ascii c in
  if (Nat.leb 65 n && Nat.leb n 90)%bool then ascii_of_nat (n + 32) else c.

Fixpoint lowercase (s : string) : string :=
  match s with
  | EmptyString => EmptyString
  | String c t => String (lower c) (lowercase t)
  end.

Definition sign_of (s : string) : bool * string :=
  match s with
  | String "-" t => (true, t)
  | String "+" t => (false, t)
  | _ => (false, s)
  end.

(** The optional exponent [e], [e+dd] or [e-dd]; [None] when malformed. *)
Definition exponent (s : string) : option Z :=
  match s with
  | EmptyString => Some 0
  | String c t =>
      if Ascii.eqb (lower c) "e" then
        let (neg, t) := sign_of t in
        match digits t 0 0 with
        | (v, n, EmptyString) =>
            if 0 <? n then Some (if neg then - v else v) else None
        | _ => None
        end
      else None
  end.

Definition py_float (text : string) : option float :=
  let (neg, body) := sign_of (Py.strip Py.isspace text) in
  let word := lowercase body in
  if String.eqb word "inf" || String.eqb word "infinity" then
    Some (if neg then neg_infinity else infinity)
  else if String.eqb word "nan" then Some nan
  else
    let '(ip, ni, rest) := digits body 0 0 in
    let '(fp, nf, rest) :=
      match rest with
      | String "." t => digits t 0 0
      | _ => (0, 0, rest)
      end in
    if ni + nf =? 0 then None
    else
      match exponent rest with
      | Some e => Some (of_decimal neg (ip * 10 ^ nf + fp) (e - nf))
      | None => None
      end.

(** ** [round(x, 3)] *)

(** The integer nearest to [n / d], ties to even. *)
Definition nearest_even (n d : Z) : Z :=
  let q := n / d in
  match 2 * (n mod d) ?= d with
  | Lt => q
  | Gt => q + 1
  | Eq => if Z.even q then q else q + 1
  end.

(** The decimal with three places nearest to [x], read back as a float;
    NaN, infinities and zeros are returned as they are. *)
Definition py_round3 (x : float) : float :=
  match Prim2SF x with
  | S754_finite s m e =>
      let n := if 0 <=? e then Zpos m * 2 ^ e * 1000
               else nearest_even (Zpos m * 1000) (2 ^ (- e)) in
      of_ratio s n 1000
  | _ => x
  end.

(** ** [str(x)] *)

(** The [k] with [10^(k-1) <= num/den < 10^k]. *)
Fixpoint decpt_up (fuel : nat) (num den k : Z) : Z * Z :=
  match fuel with
  | O => (den, k)
  | S f => if num <? den then (den, k) else decpt_up f num (10 * den) (k + 1)
  end.

Fixpoint decpt_down (fuel : nat) (num den k : Z) : Z :=
  match fuel with
  | O => k
  | S f => if 10 * num <? den then decpt_down f (10 * num) den (k - 1) else k
  end.

Definition decpt (num den : Z) : Z :=
  let (den', k) := decpt_up 400 num den 0 in
  if 0 <? k then k else decpt_down 400 num den 0.

(** The shortest digit string that reads back as [x = num/den > 0], tried
    with [p], [p+1], ... digits: of the two [p]-digit decimals around
    [x], the nearer one that reads back. *)
Fixpoint shortest (fuel : nat) (x : float) (num den k p : Z) : Z * Z :=
  let e := k - p in
  let n := if 0 <=? e then num else num * 10 ^ (- e) in
  let d := if 0 <=? e then den * 10 ^ e else den in
  let lo := n / d in
  let hi := lo + 1 in
  let ok_lo := PrimFloat.eqb (of_decimal false lo e) x in
  let ok_hi := PrimFloat.eqb (of_decimal false hi e) x in
  let pick := if ok_lo && ok_hi then Some (nearest_even n d)
              else if ok_lo then Some lo
              else if ok_hi then Some hi else None in
  match pick, fuel with
  | Some v, _ => (v, e)
  | None, O => (nearest_even n d, e)
  | None, S f => shortest f x num den k (p + 1)
  end.

Fixpoint strip_zeros (fuel : nat) (v e : Z) : Z * Z :=
  match fuel with
  | O => (v, e)
  | S f => if (v mod 10 =? 0) && negb (v =? 0)
           then strip_zeros f (v / 10) (e + 1) else (v, e)
  end.

Definition decimal_of (v : Z) : string :=
  DecimalString.NilZero.string_of_uint (N.to_uint (Z.to_N v)).

Fixpoint zeros (n : nat) : string :=
  match n with
  | O => EmptyString
  | S k => String "0" (zeros k)
  end.

(** [repr] of the digits [ds] with the decimal point after [k] of them:
    fixed notation when [-4 < k <= 16], exponent notation otherwise. *)
Definition layout (ds : string) (k : Z) : string :=
  let p := Z.of_nat (String.length ds) in
  if (-4 <? k) && (k <=? 16) then
    if k <=? 0 then ("0." ++ zeros (Z.to_nat (- k)) ++ ds)%string
    else if p <=? k then (ds ++ zeros (Z.to_nat (k - p)) ++ ".0")%string
    else (Py.take (Z.to_nat k) ds ++ "." ++ Py.drop (Z.to_nat k) ds)%string
  else
    let x := k - 1 in
    let mant := match ds with
                | String c EmptyString => ds
                | String c t => String c (String "." t)
                | EmptyString => ds
                end in
    let sign := if x <? 0 then "-" else "+" in
    let pad := if Z.abs x <? 10 then "0" else "" in
    (mant ++ "e" ++ sign ++ pad ++ decimal_of (Z.abs x))%string.

Definition py_str (x : float) : string :=
  match Prim2SF x with
  | S754_nan => "nan"
  | S754_infinity s => if s then "-inf" else "inf"
  | S754_zero s => if s then "-0.0" else "0.0"
  | S754_finite s m e =>
      let num := if 0 <=? e then Zpos m * 2 ^ e else Zpos m in
      let den := if 0 <=? e then 1 else 2 ^ (- e) in
      let k := decpt num den in
      let (v, e10) := shortest 17 (abs x) num den k 1 in
      let (v, e10) := strip_zeros 20 v e10 in
      let ds := decimal_of v in
      let k := e10 + Z.of_nat (String.length ds) in
      ((if s then "-" else "") ++ layout ds k)%string
  end.

End CPython.

(* ================================================================== *)
(** * Words for the statements *)
(* ================================================================== *)

Local Open Scope py_scope.

(** ** One exchange with the stage *)

(** The port after [_send] has written its command and read one line,
    and the line it read. *)
Definition exchanged (cmd : string) (self : Controller) : string * Serial :=
  Port.readline (Port.write (frame (device_address self) cmd) (port self)).

Definition received (cmd : string) (self : Controller) : string :=
  fst (exchanged cmd self).

(** The text [_send] works on: the line without its CR and LF. *)
Definition text_of (response : string) : string :=
  Py.strip Py.is_crlf response.

(** The status token of a response: [response.split()[2]]. *)
Definition status_of (response : string) : option string :=
  nth_error (Py.split (text_of response)) 2.

(** What [_send] hands back: the text after marker, address and space. *)
Definition payload (response : string) : string :=
  Py.drop 4 (text_of response).

(** The object once the command is written and the line read and echoed
    (lines 75 to 82 of the source). *)
Definition after_io (cmd : string) (self : Controller) : Controller :=
  set_stdout
    (stdout self ++
     if very_verbose self
     then [sending_cmd (frame (device_address self) cmd);
           got_response (received cmd self)]
     else [])
    (set_port (snd (exchanged cmd self)) self).

(** Lines 83 to 94 of [_send] in direct style: what becomes of a response
    line, for the object [self] as it is once the line is read. *)
Definition decode (response_type response : string) (self : Controller)
  : Outcome string :=
  if negb (Py.endswith response Py.CRLF) then
    Raise (AssertionError unexpected_response_terminator) self
  else if negb (Py.is_ascii response) then Raise UnicodeDecodeError self
  else
    match String.get 0 (text_of response) with
    | None => Raise IndexError self
    | Some c =>
        match lookup response_type response_type_to_char with
        | None => Raise (KeyError response_type) self
        | Some expected =>
            if negb (Ascii.eqb c expected) then
              Raise (AssertionError (unexpected_response_character c)) self
            else if negb (String.eqb (Py.slice 1 3 (text_of response))
                                     (device_address self)) then
              Raise (AssertionError
                       (unexpected_device_address
                          (Py.slice 1 3 (text_of response)))) self
            else
              let finish (self' : Controller) :=
                if Nat.eqb (Port.in_waiting (port self')) 0
                then Return (Py.drop 4 (text_of response)) self'
                else Raise (AssertionError bytes_in_waiting) self' in
              if verbose self then
                match status_of response with
                | None => Raise IndexError self
                | Some status =>
                    if negb (String.eqb status "OK")
                    then finish (set_stdout (stdout self ++ [command_rejected])
                                            self)
                    else finish self
                end
              else finish self
        end
    end.

(** The checks of lines 83 to 90 pass on a response line: terminator,
    ASCII, marker of the expected kind, device address; with [verbose]
    the status token must be there to be looked at. *)
Definition accepted (self : Controller) (response_type response : string)
  : bool :=
  Py.endswith response Py.CRLF &&
  Py.is_ascii response &&
  match String.get 0 (text_of response),
        lookup response_type response_type_to_char with
  | Some c, Some expected => Ascii.eqb c expected
  | _, _ => false
  end &&
  String.eqb (Py.slice 1 3 (text_of response)) (device_address self) &&
  (if verbose self
   then match status_of response with Some _ => true | None => false end
   else true).

(** The rejection notice of line 91. *)
Definition notice (self : Controller) (response : string) : list Msg :=
  if verbose self then
    match status_of response with
    | Some status => if String.eqb status "OK" then [] else [command_rejected]
    | None => []
    end
  else [].

(** Everything [_send] prints for a command and the line read back. *)
Definition send_log (self : Controller) (cmd response : string) : list Msg :=
  (if very_verbose self
   then [sending_cmd (frame (device_address self) cmd); got_response response]
   else []) ++ notice self response.

(** The object after a successful exchange. *)
Definition after_send (cmd : string) (self : Controller) : Controller :=
  set_stdout (stdout self ++ send_log self cmd (received cmd self))
    (set_port (snd (exchanged cmd self)) self).

(** ** A stage that answers each command with one line *)

(** The object with [msgs] printed. *)
Definition says (msgs : list Msg) (self : Controller) : Controller :=
  set_stdout (stdout self ++ msgs) self.

(** The port once [cmds] were written and answered, [rest] still to be
    transmitted. *)
Definition answered (cmds : list string) (rest : list string)
    (self : Controller) : Controller :=
  set_port (mkSerial (tx (port self) ++ cmds) "" rest) self.

(** A transmission that is one whole line. *)
Definition whole_line (l : string) : bool :=
  let (a, b) := Port.cut_line l in String.eqb a l && String.eqb b "".

(** A reply of the stage that [_send] takes. *)
Definition reply (self : Controller) (l : string) : bool :=
  whole_line l && accepted self "reply" l.

(** The state token of a status reply: [status.split()[2]]. *)
Definition state_of (l : string) : option string :=
  nth_error (Py.split (payload l)) 2.

Definition says_busy (self : Controller) (l : string) : bool :=
  reply self l &&
  match state_of l with Some t => String.eqb t "BUSY" | None => false end.

Definition says_idle (self : Controller) (l : string) : bool :=
  reply self l &&
  match state_of l with Some t => negb (String.eqb t "BUSY") | None => false end.

(** [reply], [says_busy] and [says_idle] look at the address and at
    [verbose] only. *)
Definition same_link (a b : Controller) : Prop :=
  device_address a = device_address b /\ verbose a = verbose b.

(** What the stage transmits during a wait, and the polls the wait
    writes: [N] busy answers and the idle one, [N + 1] polls. *)
Definition wait_script (waiting : bool) (busy : list string) (idle : string)
  : list string :=
  if waiting then busy ++ [idle] else [].

Definition wait_polls (waiting : bool) (address axis : string)
    (busy : list string) : list string :=
  if waiting then repeat (frame address axis) (S (length busy)) else [].

(** The answers [busy], [idle] are what a wait needs, when there is one:
    busy replies, then an idle one, and fuel for a poll each. *)
Definition waits (waiting : bool) (self : Controller) (busy : list string)
    (idle : string) (fuel : nat) : bool :=
  negb waiting ||
  (forallb (says_busy self) busy && says_idle self idle &&
   Nat.ltb (length busy) fuel).

(** ** Moves *)

(** The absolute target of a move: [self.x_mm + x_mm] when [relative]. *)
Definition target (relative : bool) (current x : float) : float :=
  if relative then (current + x)%float else x.

(** What an out-of-limits move on x prints. *)
Definition x_refusal (self : Controller) (x : float) (relative : bool)
  : list Msg :=
  (if very_verbose self then [moving_to_x x relative] else []) ++
  (if verbose self then [x_out_of_limits] else []).

(** What an out-of-limits move on y prints. *)
Definition y_refusal (self : Controller) (y : float) (relative : bool)
  : list Msg :=
  (if very_verbose self then [moving_to_y y relative] else []) ++
  (if verbose self then [y_out_of_limits] else []).

(** ** Maximum speed *)

(** The wire value [set_maxspeed] writes for the speed [v]. *)
Definition wire_of_speed (v : float) : float := (1e6 * 1.6384 * v)%float.

(** The two speed fields of a reply to [get maxspeed]. *)
Definition speed_fields (l : string) : list string :=
  firstn 2 (skipn 4 (Py.split (payload l))).

(** [x_mmps if x_mmps is not None else self.x_mmps] *)
Definition or_cached (v : option float) (cached : float) : float :=
  match v with
  | Some a => a
  | None => cached
  end.

(** What [set_maxspeed] prints before its checks. *)
Definition speed_notice (self : Controller) (x y : float) : list Msg :=
  if verbose self
  then [setting_maxspeed; setting_maxspeed_args x y]
  else [].

Section Wire.

Variable py_str : float -> string.
Variable py_float : string -> option float.
Variable py_round3 : float -> float.

(** The speed [get_maxspeed] reports for the wire value [w]. *)
Definition speed_of_wire (w : float) : float :=
  py_round3 (1e-6 * w / 1.6384)%float.

(** The speed read back from a stage that returns the wire value as it
    was written. *)
Definition round_trip (v : float) : option float :=
  option_map speed_of_wire (py_float (py_str (wire_of_speed v))).

End Wire.

(** ** Startup *)

(** The warning string that asks for homing, and the two that are
    accepted afterwards. *)
Definition needs_homing (warnings : string) : bool :=
  String.eqb warnings "0 OK IDLE WR 01 WR".

Definition healthy (warnings : string) : bool :=
  Py.mem warnings ["0 OK IDLE -- 00"; "0 OK IDLE NI 01 NI"].

(** What the stage transmits during homing, and what homing writes. *)
Definition home_script (homing' : bool) (home : string) (busy : list string)
    (idle : string) : list string :=
  if homing' then home :: busy ++ [idle] else [].

Definition home_commands (homing' : bool) (address : string)
    (busy : list string) : list string :=
  if homing' then frame address "home"
                  :: repeat (frame address "") (S (length busy))
  else [].

(** ** A stage on the bench *)

(** A response line as the stage transmits it: [text] and CR LF. *)
Definition line (text : string) : string := text ++ Py.CRLF.

(** A controller as [__init__] leaves one (address [01], the default
    limits, at (66, 51) mm, 100 mm/s), on a port whose stage will transmit
    [script]. *)
Definition bench (verbose' very_verbose' : bool) (script : list string)
  : Controller :=
  mkController "X-ADR130" verbose' very_verbose' 0 130 0 100
    (mkSerial [] "" script) "50998" "X-ADR130B100B-SAE53D12" "01"
    false false false 66 51 100 100 [].

(** The answers of a stage that needs no homing, sits at (66, 51) mm and
    runs at 100 mm/s: to the startup of [__init__], to an absolute move to
    (65, 50) that is busy for one poll, and to the position query. *)
Definition session : list string :=
  [line "@01 0 OK IDLE -- 50998";
   line "@01 0 OK IDLE -- 0"; line "@01 0 OK IDLE -- 00";
   line "@01 0 OK IDLE -- 00";
   line "@01 1 OK IDLE -- 0"; line "@01 2 OK IDLE -- 0";
   line "@01 0 OK IDLE -- 66000000 51000000";
   line "@01 1 OK IDLE -- 0"; line "@01 2 OK IDLE -- 0";
   line "@01 0 OK IDLE -- 163840000 163840000";
   line "@01 1 OK BUSY -- 0"; line "@01 2 OK BUSY -- 0";
   line "@01 0 OK BUSY -- 0"; line "@01 0 OK IDLE -- 0";
   line "@01 0 OK IDLE -- 65000000 50000000"].

(** [Controller('COM15')], [move_mm(65, 50, relative=False)] and
    [get_position_mm()], then a move of x to 131 mm. *)
Definition run_session : Outcome (float * float) :=
  match __init__ CPython.py_str CPython.py_float CPython.py_round3 2
          (Some (mkSerial [] "" session)) "X-ADR130" true false
          (0, 130)%float (0, 100)%float (100, 100)%float with
  | Return _ self =>
      (move_mm CPython.py_str 2 65 50 false true ;;
       position <- get_position_mm CPython.py_float ;;
       _move_x CPython.py_str 2 131 false true ;;
       ret position) self
  | Raise e self => Raise e self
  | OutOfFuel => OutOfFuel
  end.

(** ** What a call does to the object, however it ends *)

(** [R] relates the object [self] a call of [m] starts from to the object
    it ends with, whether the call returns or raises. *)
Definition ends_in {A} (R : Controller -> Controller -> Prop) (m : M A)
    (self : Controller) : Prop :=
  match m self with
  | Return _ self' => R self self'
  | Raise _ self' => R self self'
  | OutOfFuel => True
  end.

Definition always {A} (R : Controller -> Controller -> Prop) (m : M A)
  : Prop :=
  forall self, ends_in R m self.

(** The attributes that [__init__] fixes: name, verbosity, axis limits
    and the identity of the device. *)
Definition same_config (a b : Controller) : Prop :=
  name a = name b /\ verbose a = verbose b /\
  very_verbose a = very_verbose b /\
  x_min_mm a = x_min_mm b /\ x_max_mm a = x_max_mm b /\
  y_min_mm a = y_min_mm b /\ y_max_mm a = y_max_mm b /\
  device_id a = device_id b /\ device_name a = device_name b /\
  device_address a = device_address b.

(** Between [a] and [b] the configuration is kept and the commands
    written, in order, are [cmds] (each framed with the device
    address), all of them among those [ok] allows for [a]. *)
Definition wrote (ok : Controller -> string -> Prop) (a b : Controller)
  : Prop :=
  same_config a b /\
  exists cmds,
    tx (port b) = tx (port a) ++ map (frame (device_address a)) cmds /\
    Forall (ok a) cmds.

(** The one command [cmd], whatever the object. *)
Definition only (cmd : string) (_ : Controller) (c : string) : Prop :=
  c = cmd.

(** One of two sets of commands. *)
Definition either (p q : Controller -> string -> Prop) (self : Controller)
    (c : string) : Prop :=
  p self c \/ q self c.

(** The cached position of an axis is within the limits of the axis. *)
Definition x_legal (self : Controller) : bool :=
  within (x_min_mm self) (x_mm self) (x_max_mm self).

Definition y_legal (self : Controller) : bool :=
  within (y_min_mm self) (y_mm self) (y_max_mm self).

(** The configuration is kept, and a cached position that was within
    limits still is. *)
Definition keeps_legal (a b : Controller) : Prop :=
  same_config a b /\
  (x_legal a = true -> x_legal b = true) /\
  (y_legal a = true -> y_legal b = true).

(** The commands written are allowed, and legal positions stay legal. *)
Definition safely (ok : Controller -> string -> Prop) (a b : Controller)
  : Prop :=
  wrote ok a b /\ keeps_legal a b.

(** A set of commands that depends on the configuration alone. *)
Definition by_config (ok : Controller -> string -> Prop) : Prop :=
  forall a b c, same_config a b -> ok a c -> ok b c.

(** The limits [__init__] accepts: both ends within the travel of the
    axis, and the lower end below the upper one. *)
Definition legal_limits (travel : float) (limits : float * float) : bool :=
  within 0 (fst limits) travel && within 0 (snd limits) travel &&
  PrimFloat.ltb (fst limits) (snd limits).

Section Commands.

Variable py_str : float -> string.

(** A move command of an axis with a target within the limits [lo],
    [hi]. *)
Definition legal_move (axis : string) (lo hi : float) (c : string) : Prop :=
  exists t : float,
    within lo t hi = true /\
    c = (axis ++ " move abs " ++ py_str (1e6 * t)%float)%string.

(** What a move on x may write: polls of x and legal moves of x. *)
Definition x_commands (self : Controller) (c : string) : Prop :=
  c = "1" \/ legal_move "1" (x_min_mm self) (x_max_mm self) c.

Definition y_commands (self : Controller) (c : string) : Prop :=
  c = "2" \/ legal_move "2" (y_min_mm self) (y_max_mm self) c.

(** What [set_maxspeed] may write: the speed of an axis, within
    [0.01, 750] mm/s, and the query that reads the speeds back. *)
Definition speed_commands (_ : Controller) (c : string) : Prop :=
  c = "get maxspeed" \/
  exists v : float,
    within 0.01 v 750 = true /\
    (c = ("1 set maxspeed " ++ py_str (wire_of_speed v))%string \/
     c = ("2 set maxspeed " ++ py_str (wire_of_speed v))%string).

End Commands.

(** ** Identification *)

(** The query [__init__] identifies the device with (it carries no
    address), and what the port gives back for it: the line read and the
    port afterwards. *)
Definition id_query : string :=
  ("/get device.id" ++ String Py.LF EmptyString)%string.

Definition identified (self : Controller) : string * Serial :=
  Port.readline (Port.write id_query (port self)).

(** What [__init__] prints while it identifies the device. *)
Definition id_echo (self : Controller) : list Msg :=
  (if verbose self then [getting_device_id] else []) ++
  (if very_verbose self
   then [sending_cmd id_query; got_response (fst (identified self))]
   else []).

(** The object with the line read and echoed. *)
Definition after_id (self : Controller) : Controller :=
  says (id_echo self) (set_port (snd (identified self)) self).

(** ** What a call leaves alone *)

(** The attribute (or tuple of attributes) [f] is the same in [b] as in
    [a]. *)
Definition keeps {T} (f : Controller -> T) (a b : Controller) : Prop :=
  f b = f a.

(** The cached position, the cached speeds, and both. *)
Definition position (self : Controller) : float * float :=
  (x_mm self, y_mm self).

Definition speeds (self : Controller) : float * float :=
  (x_mmps self, y_mmps self).

Definition cached (self : Controller) : float * float * (float * float) :=
  (position self, speeds self).

(** The three moving flags. *)
Definition flags (self : Controller) : bool * bool * bool :=
  (_moving self, _moving_x self, _moving_y self).

(** The axis limits. *)
Definition limits (self : Controller) : float * float * float * float :=
  (x_min_mm self, x_max_mm self, y_min_mm self, y_max_mm self).

(** What a call on the x axis has no business with: the position and the
    flag of y, the flag of the stage and the speeds; and the same for a
    call on the y axis. *)
Definition beside_x (self : Controller)
  : float * bool * bool * (float * float) :=
  (y_mm self, _moving_y self, _moving self, speeds self).

Definition beside_y (self : Controller)
  : float * bool * bool * (float * float) :=
  (x_mm self, _moving_x self, _moving self, speeds self).

(** ** Position *)

(** The two position fields of a reply to [get pos]: [split()[4:6]]. *)
Definition position_fields (l : string) : list string :=
  firstn 2 (skipn 4 (Py.split (payload l))).

(** The position field of a reply to [1 get pos]: [split()[4]]. *)
Definition position_field (l : string) : option string :=
  nth_error (Py.split (payload l)) 4.

(** From nm. *)
Definition mm_of_wire (nm : float) : float := (1e-6 * nm)%float.

(** ** What the trace changes *)

(** The object with the trace ([very_verbose]) switched off and the
    console wiped. *)
Definition hush (self : Controller) : Controller :=
  mkController (name self) (verbose self) false (x_min_mm self)
    (x_max_mm self) (y_min_mm self) (y_max_mm self) (port self)
    (device_id self) (device_name self) (device_address self)
    (_moving self) (_moving_x self) (_moving_y self) (x_mm self) (y_mm self)
    (x_mmps self) (y_mmps self) [].

(** Two objects that differ at most in [very_verbose] and in what they
    have printed. *)
Definition alike (a b : Controller) : Prop := hush a = hush b.

(** Two outcomes of the same kind, with the same value or exception and
    objects that are alike. *)
Definition alike_outcome {A} (x y : Outcome A) : Prop :=
  match x, y with
  | Return a s, Return b t => a = b /\ alike s t
  | Raise e s, Raise e' t => e = e' /\ alike s t
  | OutOfFuel, OutOfFuel => True
  | _, _ => False
  end.

(** [m1] run on [s] and [m2] run on [t] end alike. *)
Definition agrees {A} (m1 m2 : M A) (s t : Controller) : Prop :=
  alike_outcome (m1 s) (m2 t).

(** A call that the trace does not influence: on objects that are alike
    it ends alike. *)
Definition traced_only {A} (m : M A) : Prop :=
  forall s t, alike s t -> agrees m m s t.

(* ================================================================== *)
(** * Proof automation *)
(* ================================================================== *)

(** Unfold the sequencing of a method down to its tests. *)
Ltac run :=
  cbv beta iota delta
    [bind ret get modify print when assert try raise decode_ascii
     port_write port_readline port_in_waiting].

(** Reduce attribute reads and assignments on an explicit object. *)
Ltac fields :=
  cbn [name verbose very_verbose x_min_mm x_max_mm y_min_mm y_max_mm port
       device_id device_name device_address _moving _moving_x _moving_y
       x_mm y_mm x_mmps y_mmps stdout fst snd tx rx device
       set_port set_stdout set_moving set_moving_x set_moving_y
       set_x_mm set_y_mm set_x_mmps set_y_mmps set_device_id
       set_device_name set_device_address set_limits] in *.

(** The test a stuck program is waiting for: the scrutinee under the
    nested [match]es at the head of a term. *)
Ltac match_headed t :=
  lazymatch t with
  | match _ with _ => _ end => constr:(true)
  | ?f _ => match_headed f
  | _ => constr:(false)
  end.

Ltac scrutinee t :=
  lazymatch t with
  | match ?y with _ => _ end => scrutinee y
  | ?f _ =>
      lazymatch match_headed f with
      | true => scrutinee f
      | false => t
      end
  | _ => t
  end.

(** Split on the test the outcome on the left of the goal waits for. *)
Ltac step :=
  lazymatch goal with
  | |- match ?y with _ => _ end = _ =>
      let z := scrutinee y in destruct z eqn:?
  end; cbv beta iota; fields.

Ltac assoc := rewrite <- ?app_assoc; cbn [app].

(** Rewrite the next [_send] of the program with the reply the stage
    gives, by the lemma [lem] on one exchange. *)
Ltac send_by lem l rest :=
  match goal with
  | |- context [_send ?cmd "reply" ?s] =>
      rewrite (lem cmd l rest s)
        by (fields; first [assumption | reflexivity])
  end; cbv beta iota; unfold says, answered; fields.

(** Run the wait loop [loop] the program has reached against the
    answers [busy], [idle], by the lemma [lem] on that loop. *)
Ltac wait_by lem loop busy idle rest :=
  match goal with
  | |- context [loop ?f ?s] =>
      let E := fresh "E" in
      destruct (lem busy idle rest f s) as [? E];
      [ reflexivity
      | fields; cbn [app]; rewrite <- ?app_assoc; reflexivity
      | assumption | assumption | reflexivity | assumption
      | rewrite E; clear E ]
  end; cbv beta iota; unfold says, answered; fields.

(** An attribute that a setter does not write. *)
Ltac untouched := intros ? []; reflexivity.

(** The facts that close the steps of a method. *)
Create HintDb ends.

(** Follow the sequencing of a method, one [ends_in] goal per step, by
    the rule [get_rule] for reading [self] and [bind_rule] for the other
    steps. *)
Ltac chain get_rule bind_rule :=
  repeat lazymatch goal with
         | |- ends_in _ (bind get _) _ => apply get_rule
         | |- ends_in _ (bind _ _) _ => apply bind_rule; [ | intros ? ? ? ]
         | |- ends_in _ (let _ := _ in _) _ => cbv zeta
         | |- ends_in _ (if ?b then _ else _) _ => destruct b eqn:?
         | |- ends_in _ (match ?o with _ => _ end) _ => destruct o eqn:?
         end.

(* ================================================================== *)
(** * One exchange with the stage *)
(* ================================================================== *)

Lemma _send_eq (cmd response_type : string) (self : Controller) :
  _send cmd response_type self =
  decode response_type (received cmd self) (after_io cmd self).
Proof.
  unfold _send, decode, after_io, received, exchanged, status_of, text_of.
  destruct self as [nm vb vv ? ? ? ? p ? ? addr ? ? ? ? ? ? ? out].
  run. fields.
  destruct vv, vb; cbv beta iota; fields;
    destruct (Port.readline (Port.write (frame addr cmd) p)) as [l p'];
    cbv beta iota zeta; fields; rewrite <- ?app_assoc, ?app_nil_r;
    cbn [app negb];
    repeat (step; cbn [negb]; try reflexivity);
    rewrite <- ?app_assoc; reflexivity.
Qed.

Lemma decode_returns (response_type response v : string)
    (self self' : Controller) :
  decode response_type response self = Return v self' ->
  accepted self response_type response = true /\
  Port.in_waiting (port self) = 0%nat /\
  v = payload response /\
  self' = set_stdout (stdout self ++ notice self response) self.
Proof.
  unfold decode, accepted, notice, payload.
  destruct self as [nm vb vv ? ? ? ? p ? ? addr ? ? ? ? ? ? ? out]; fields.
  destruct (Py.endswith response Py.CRLF); cbn [negb andb]; try discriminate.
  destruct (Py.is_ascii response); cbn [negb andb]; try discriminate.
  destruct (String.get 0 (text_of response)) as [c|]; try discriminate.
  destruct (lookup response_type response_type_to_char) as [e|];
    try discriminate.
  destruct (Ascii.eqb c e); cbn [negb andb]; try discriminate.
  destruct (String.eqb (Py.slice 1 3 (text_of response)) addr);
    cbn [negb andb]; try discriminate.
  destruct vb.
  - destruct (status_of response) as [st|]; try discriminate.
    destruct (String.eqb st "OK"); cbn [negb]; fields;
      destruct (Nat.eqb (Port.in_waiting p) 0) eqn:W; try discriminate;
      intros H; injection H as <- <-; apply Nat.eqb_eq in W;
      rewrite ?app_nil_r; auto.
  - destruct (Nat.eqb (Port.in_waiting p) 0) eqn:W; try discriminate.
    intros H; injection H as <- <-. apply Nat.eqb_eq in W.
    rewrite app_nil_r. auto.
Qed.

Lemma decode_accepted (response_type response : string) (self : Controller) :
  accepted self response_type response = true ->
  Port.in_waiting (port self) = 0%nat ->
  decode response_type response self =
  Return (payload response)
         (set_stdout (stdout self ++ notice self response) self).
Proof.
  unfold decode, accepted, notice, payload.
  destruct self as [nm vb vv ? ? ? ? p ? ? addr ? ? ? ? ? ? ? out]; fields.
  intros A W. rewrite W.
  repeat (apply andb_prop in A; destruct A as [A ?]).
  rewrite A. cbn [negb].
  match goal with H : Py.is_ascii _ = true |- _ => rewrite H end.
  cbn [negb].
  destruct (String.get 0 (text_of response)) as [c|]; try discriminate.
  destruct (lookup response_type response_type_to_char) as [e|];
    try discriminate.
  match goal with H : Ascii.eqb _ _ = true |- _ => rewrite H end.
  match goal with H : String.eqb _ _ = true |- _ => rewrite H end.
  cbn [negb Nat.eqb].
  destruct vb; [|rewrite app_nil_r; reflexivity].
  destruct (status_of response) as [st|]; try discriminate.
  destruct (String.eqb st "OK"); cbn [negb]; fields;
    rewrite ?app_nil_r; reflexivity.
Qed.

Lemma decode_unread (response_type response : string) (self : Controller) :
  accepted self response_type response = true ->
  Port.in_waiting (port self) <> 0%nat ->
  decode response_type response self =
  Raise (AssertionError bytes_in_waiting)
        (set_stdout (stdout self ++ notice self response) self).
Proof.
  unfold decode, accepted, notice, payload.
  destruct self as [nm vb vv ? ? ? ? p ? ? addr ? ? ? ? ? ? ? out]; fields.
  intros A W. apply Nat.eqb_neq in W. rewrite W.
  repeat (apply andb_prop in A; destruct A as [A ?]).
  rewrite A. cbn [negb].
  match goal with H : Py.is_ascii _ = true |- _ => rewrite H end.
  cbn [negb].
  destruct (String.get 0 (text_of response)) as [c|]; try discriminate.
  destruct (lookup response_type response_type_to_char) as [e|];
    try discriminate.
  match goal with H : Ascii.eqb _ _ = true |- _ => rewrite H end.
  match goal with H : String.eqb _ _ = true |- _ => rewrite H end.
  cbn [negb Nat.eqb].
  destruct vb; [|rewrite app_nil_r; reflexivity].
  destruct (status_of response) as [st|]; try discriminate.
  destruct (String.eqb st "OK"); cbn [negb]; fields;
    rewrite ?app_nil_r; reflexivity.
Qed.

Lemma send_log_after_io (cmd : string) (self : Controller) :
  set_stdout (stdout (after_io cmd self) ++
              notice (after_io cmd self) (received cmd self))
             (after_io cmd self) = after_send cmd self.
Proof.
  unfold after_send, after_io, send_log, notice, received, exchanged.
  destruct self. fields. rewrite <- app_assoc. reflexivity.
Qed.

(** [_send] returns exactly when the line it reads passes the checks and
    leaves nothing unread. *)
Lemma _send_returns (cmd response_type v : string) (self self' : Controller) :
  _send cmd response_type self = Return v self' ->
  accepted self response_type (received cmd self) = true /\
  Port.in_waiting (snd (exchanged cmd self)) = 0%nat /\
  v = payload (received cmd self) /\
  self' = after_send cmd self.
Proof.
  rewrite _send_eq. intros H. apply decode_returns in H.
  destruct H as (A & W & -> & ->).
  rewrite send_log_after_io. auto.
Qed.

Lemma _send_accepted (cmd response_type : string) (self : Controller) :
  accepted self response_type (received cmd self) = true ->
  Port.in_waiting (snd (exchanged cmd self)) = 0%nat ->
  _send cmd response_type self =
  Return (payload (received cmd self)) (after_send cmd self).
Proof.
  intros A W. rewrite _send_eq, decode_accepted; auto.
  rewrite send_log_after_io. reflexivity.
Qed.

(* ================================================================== *)
(** * Decoding a response *)
(* ================================================================== *)

(** C3. Whatever line [_send] reads back: a line that does not end in
    CR LF raises the terminator assertion; an ASCII line that ends in
    CR LF and whose first character is not the marker of the expected
    kind ([@] for reply, [#] for info, [!] for alert) raises the
    response-character assertion; and one with the right marker whose
    characters 1 and 2 are not the stored device address raises the
    device-address assertion.  Each is decided by its own fault alone. *)
Theorem C3_decode_failures (cmd response_type : string) (self : Controller)
    (expected : ascii) :
  lookup response_type response_type_to_char = Some expected ->
  let response := received cmd self in
  (lookup "reply" response_type_to_char = Some "@"%char /\
   lookup "info" response_type_to_char = Some "#"%char /\
   lookup "alert" response_type_to_char = Some "!"%char) /\
  (Py.endswith response Py.CRLF = false ->
   _send cmd response_type self =
   Raise (AssertionError unexpected_response_terminator)
         (after_io cmd self)) /\
  (forall c : ascii,
     Py.endswith response Py.CRLF = true ->
     Py.is_ascii response = true ->
     String.get 0 (text_of response) = Some c ->
     c <> expected ->
     _send cmd response_type self =
     Raise (AssertionError (unexpected_response_character c))
           (after_io cmd self)) /\
  (Py.endswith response Py.CRLF = true ->
   Py.is_ascii response = true ->
   String.get 0 (text_of response) = Some expected ->
   Py.slice 1 3 (text_of response) <> device_address self ->
   _send cmd response_type self =
   Raise (AssertionError
            (unexpected_device_address (Py.slice 1 3 (text_of response))))
         (after_io cmd self)).
Proof.
  intros L response. split; [repeat split|].
  rewrite _send_eq. fold response. unfold decode. rewrite L.
  change (device_address (after_io cmd self)) with (device_address self).
  repeat split.
  - intros ->. reflexivity.
  - intros c -> -> -> Hc. cbn [negb].
    apply Ascii.eqb_neq in Hc. rewrite Hc. reflexivity.
  - intros -> -> -> Ha. cbn [negb]. rewrite Ascii.eqb_refl. cbn [negb].
    apply String.eqb_neq in Ha. rewrite Ha. reflexivity.
Qed.

(** A reply without terminator, an info line where a reply is expected,
    and a reply from device [02], each read by the controller of
    device [01]. *)
Lemma C3_decode_failures_witness :
  _send "1" "reply" (bench true false ["@01 1 OK IDLE -- 0"]) =
    Raise (AssertionError unexpected_response_terminator)
          (after_io "1" (bench true false ["@01 1 OK IDLE -- 0"])) /\
  _send "1" "reply" (bench true false [line "#01 1 OK IDLE -- 0"]) =
    Raise (AssertionError (unexpected_response_character "#"))
          (after_io "1" (bench true false [line "#01 1 OK IDLE -- 0"])) /\
  _send "1" "reply" (bench true false [line "@02 1 OK IDLE -- 0"]) =
    Raise (AssertionError (unexpected_device_address "02"))
          (after_io "1" (bench true false [line "@02 1 OK IDLE -- 0"])).
Proof.
  split; [|split].
  - apply (C3_decode_failures "1" "reply"
             (bench true false ["@01 1 OK IDLE -- 0"]) "@" eq_refl).
    reflexivity.
  - apply (C3_decode_failures "1" "reply"
             (bench true false [line "#01 1 OK IDLE -- 0"]) "@" eq_refl);
      try reflexivity.
    discriminate.
  - apply (C3_decode_failures "1" "reply"
             (bench true false [line "@02 1 OK IDLE -- 0"]) "@" eq_refl);
      try reflexivity.
    discriminate.
Defined.

(** C4. When [_send] returns, the port has no unread byte: the count is
    read after the checks on the line, and a line that passes them while
    bytes are left over raises the [in_waiting] assertion. *)
Theorem C4_no_unread_bytes (cmd response_type : string) (self : Controller) :
  (forall (v : string) (self' : Controller),
     _send cmd response_type self = Return v self' ->
     Port.in_waiting (port self') = 0%nat /\ rx (port self') = "") /\
  (accepted self response_type (received cmd self) = true ->
   Port.in_waiting (snd (exchanged cmd self)) <> 0%nat ->
   _send cmd response_type self =
   Raise (AssertionError bytes_in_waiting) (after_send cmd self)).
Proof.
  split.
  - intros v self' H. apply _send_returns in H.
    destruct H as (_ & W & _ & ->).
    change (port (after_send cmd self)) with (snd (exchanged cmd self)).
    split; [exact W|].
    unfold Port.in_waiting in W.
    destruct (rx (snd (exchanged cmd self))); [reflexivity|discriminate].
  - intros A W. rewrite _send_eq, decode_unread; auto.
    rewrite send_log_after_io. reflexivity.
Qed.

(** A stage that sends two replies at once leaves one unread. *)
Lemma C4_no_unread_bytes_witness :
  _send "1" "reply"
    (bench true false [(line "@01 1 OK IDLE -- 0" ++ line "@01 1 OK IDLE -- 0")%string]) =
  Raise (AssertionError bytes_in_waiting)
    (after_send "1"
       (bench true false
          [(line "@01 1 OK IDLE -- 0" ++ line "@01 1 OK IDLE -- 0")%string])).
Proof.
  apply (C4_no_unread_bytes "1" "reply"
           (bench true false
              [(line "@01 1 OK IDLE -- 0" ++ line "@01 1 OK IDLE -- 0")%string])).
  - reflexivity.
  - discriminate.
Defined.

(** The claim of C7 fails for a quiet controller: with [verbose] off the
    rejected command [RJ] is handed back and nothing at all is printed. *)
Lemma C7_rejection_unnoticed :
  status_of (line "@01 0 RJ IDLE -- BADDATA") = Some "RJ" /\
  _send "1 move abs x" "reply"
    (bench false false [line "@01 0 RJ IDLE -- BADDATA"]) =
  Return "0 RJ IDLE -- BADDATA"
    (set_port (mkSerial [frame "01" "1 move abs x"] "" [])
       (bench false false [line "@01 0 RJ IDLE -- BADDATA"])) /\
  stdout (set_port (mkSerial [frame "01" "1 move abs x"] "" [])
            (bench false false [line "@01 0 RJ IDLE -- BADDATA"])) = [].
Proof. repeat split. Qed.

(** C7 (as the code has it). A response that passes the checks, leaves
    nothing unread and carries a status token other than [OK] makes
    [_send] return its payload; no exception is raised.  The rejection is
    printed when [verbose] is set, and only then. *)
Theorem C7_rejection_is_returned (cmd response_type status : string)
    (self : Controller) :
  accepted self response_type (received cmd self) = true ->
  Port.in_waiting (snd (exchanged cmd self)) = 0%nat ->
  status_of (received cmd self) = Some status ->
  status <> "OK" ->
  _send cmd response_type self =
    Return (payload (received cmd self)) (after_send cmd self) /\
  stdout (after_send cmd self) =
    stdout self ++
    (if very_verbose self
     then [sending_cmd (frame (device_address self) cmd);
           got_response (received cmd self)]
     else []) ++
    (if verbose self then [command_rejected] else []).
Proof.
  intros A W S N. split.
  - apply _send_accepted; assumption.
  - unfold after_send, send_log, notice. fields. rewrite S.
    apply String.eqb_neq in N. rewrite N. reflexivity.
Qed.

Lemma C7_rejection_is_returned_witness :
  _send "1 move abs x" "reply"
    (bench true false [line "@01 0 RJ IDLE -- BADDATA"]) =
    Return "0 RJ IDLE -- BADDATA"
      (after_send "1 move abs x"
         (bench true false [line "@01 0 RJ IDLE -- BADDATA"])) /\
  stdout (after_send "1 move abs x"
            (bench true false [line "@01 0 RJ IDLE -- BADDATA"])) =
    [command_rejected].
Proof.
  apply (C7_rejection_is_returned "1 move abs x" "reply" "RJ"
           (bench true false [line "@01 0 RJ IDLE -- BADDATA"]));
    [reflexivity | reflexivity | reflexivity | discriminate].
Defined.

(* ================================================================== *)
(** * A stage that answers each command with one line *)
(* ================================================================== *)

Lemma exchanged_whole_line (cmd l : string) (rest : list string)
    (self : Controller) :
  rx (port self) = "" ->
  device (port self) = l :: rest ->
  whole_line l = true ->
  exchanged cmd self =
  (l, mkSerial (tx (port self) ++ [frame (device_address self) cmd]) "" rest).
Proof.
  unfold exchanged, Port.write, Port.readline, whole_line.
  intros R D W. rewrite D, R. cbn [rx tx device String.append].
  destruct (Port.cut_line l) as [a b].
  apply andb_prop in W. destruct W as [Wa Wb].
  apply String.eqb_eq in Wa, Wb. subst. reflexivity.
Qed.

(** One exchange with a stage that answers [l]. *)
Lemma _send_reply (cmd l : string) (rest : list string) (self : Controller) :
  rx (port self) = "" ->
  device (port self) = l :: rest ->
  reply self l = true ->
  _send cmd "reply" self =
  Return (payload l)
    (says (send_log self cmd l)
       (answered [frame (device_address self) cmd] rest self)).
Proof.
  intros R D W. apply andb_prop in W. destruct W as [W A].
  pose proof (exchanged_whole_line cmd l rest self R D W) as E.
  rewrite _send_accepted; unfold received; rewrite E; cbn [fst snd]; auto.
  unfold after_send, received. rewrite E. reflexivity.
Qed.

Lemma _get_status_reply (l t : string) (rest : list string)
    (self : Controller) :
  rx (port self) = "" ->
  device (port self) = l :: rest ->
  reply self l = true ->
  state_of l = Some t ->
  exists out,
    _get_status self =
    Return (payload l)
      (says out
         (set_moving (String.eqb t "BUSY")
            (answered [frame (device_address self) ""] rest self))).
Proof.
  unfold state_of, _get_status.
  destruct self as [nm vb vv ? ? ? ? p ? ? addr ? ? ? ? ? ? ? out].
  intros R D W T. run. fields.
  destruct vv; cbv beta iota; fields; send_by _send_reply l rest; rewrite T;
    cbv beta iota; destruct (String.eqb t "BUSY"); cbv beta iota; fields;
    assoc; eexists; reflexivity.
Qed.

Lemma _get_status_x_reply (l t : string) (rest : list string)
    (self : Controller) :
  rx (port self) = "" ->
  device (port self) = l :: rest ->
  reply self l = true ->
  state_of l = Some t ->
  exists out,
    _get_status_x self =
    Return (payload l)
      (says out
         (set_moving_x (String.eqb t "BUSY")
            (answered [frame (device_address self) "1"] rest self))).
Proof.
  unfold state_of, _get_status_x.
  destruct self as [nm vb vv ? ? ? ? p ? ? addr ? ? ? ? ? ? ? out].
  intros R D W T. run. fields.
  destruct vv; cbv beta iota; fields; send_by _send_reply l rest; rewrite T;
    cbv beta iota; destruct (String.eqb t "BUSY"); cbv beta iota; fields;
    assoc; eexists; reflexivity.
Qed.

Lemma _get_status_y_reply (l t : string) (rest : list string)
    (self : Controller) :
  rx (port self) = "" ->
  device (port self) = l :: rest ->
  reply self l = true ->
  state_of l = Some t ->
  exists out,
    _get_status_y self =
    Return (payload l)
      (says out
         (set_moving_y (String.eqb t "BUSY")
            (answered [frame (device_address self) "2"] rest self))).
Proof.
  unfold state_of, _get_status_y.
  destruct self as [nm vb vv ? ? ? ? p ? ? addr ? ? ? ? ? ? ? out].
  intros R D W T. run. fields.
  destruct vv; cbv beta iota; fields; send_by _send_reply l rest; rewrite T;
    cbv beta iota; destruct (String.eqb t "BUSY"); cbv beta iota; fields;
    assoc; eexists; reflexivity.
Qed.

Lemma says_busy_inv (self : Controller) (l : string) :
  says_busy self l = true -> reply self l = true /\ state_of l = Some "BUSY".
Proof.
  unfold says_busy. intros H. apply andb_prop in H. destruct H as [H T].
  split; [exact H|].
  destruct (state_of l) as [t|]; [|discriminate].
  apply String.eqb_eq in T. congruence.
Qed.

Lemma says_idle_inv (self : Controller) (l : string) :
  says_idle self l = true ->
  reply self l = true /\
  exists t, state_of l = Some t /\ String.eqb t "BUSY" = false.
Proof.
  unfold says_idle. intros H. apply andb_prop in H. destruct H as [H T].
  split; [exact H|].
  destruct (state_of l) as [t|]; [|discriminate].
  exists t. split; [reflexivity|]. now apply negb_true_iff in T.
Qed.

Lemma says_busy_same_link (a b : Controller) (l : string) :
  same_link a b -> says_busy a l = says_busy b l.
Proof.
  intros [A V]. unfold says_busy, reply, accepted. rewrite A, V. reflexivity.
Qed.

Lemma says_idle_same_link (a b : Controller) (l : string) :
  same_link a b -> says_idle a l = says_idle b l.
Proof.
  intros [A V]. unfold says_idle, reply, accepted. rewrite A, V. reflexivity.
Qed.

Lemma forallb_same_link (a b : Controller) (ls : list string) :
  same_link a b -> forallb (says_busy a) ls = forallb (says_busy b) ls.
Proof.
  intros L. induction ls as [|l ls IH]; cbn [forallb]; [reflexivity|].
  rewrite IH, (says_busy_same_link a b l L). reflexivity.
Qed.

(* ================================================================== *)
(** * Waiting until the stage is idle *)
(* ================================================================== *)

Lemma bind_Return {A B} (m : M A) (k : A -> M B) (self self' : Controller)
    (a : A) :
  m self = Return a self' -> bind m k self = k a self'.
Proof. unfold bind. intros ->. reflexivity. Qed.

Lemma _finish_moving_polls (busy : list string) :
  forall (idle : string) (rest : list string) (fuel : nat) (self : Controller),
    rx (port self) = "" ->
    device (port self) = busy ++ idle :: rest ->
    forallb (says_busy self) busy = true ->
    says_idle self idle = true ->
    _moving self = true ->
    length busy < fuel ->
    exists out,
      _finish_moving fuel self =
      Return tt
        (says out
           (set_moving false
              (answered (repeat (frame (device_address self) "")
                                (S (length busy))) rest self))).
Proof.
  induction busy as [|l busy IH]; intros idle rest fuel self R D B I Mv F;
    (destruct fuel as [|fuel]; [cbn in F; lia|]);
    cbn [_finish_moving]; rewrite Mv; cbn [app] in D.
  - apply says_idle_inv in I. destruct I as (W & t & T & Tb).
    destruct (_get_status_reply idle t rest self R D W T) as [out E].
    rewrite (bind_Return _ _ _ _ _ E), Tb.
    destruct self as [nm vb vv ? ? ? ? p ? ? addr ? ? ? ? ? ? ? o].
    unfold says, answered. fields.
    destruct fuel; cbn [_finish_moving]; fields;
      unfold when, print, modify, ret; destruct vb;
      fields; assoc; eexists; reflexivity.
  - cbn [forallb] in B. apply andb_prop in B. destruct B as [Bl B].
    apply says_busy_inv in Bl. destruct Bl as (W & T).
    destruct (_get_status_reply l "BUSY" (busy ++ idle :: rest) self R D W T)
      as [out E].
    rewrite (bind_Return _ _ _ _ _ E).
    change (String.eqb "BUSY" "BUSY") with true.
    match goal with |- context [_finish_moving fuel ?s] =>
      destruct (IH idle rest fuel s) as [out' E'];
        [reflexivity | reflexivity
        | rewrite <- B; apply forallb_same_link; split; reflexivity
        | rewrite <- I; apply says_idle_same_link; split; reflexivity
        | reflexivity | cbn in F; lia | rewrite E']
    end.
    destruct self as [nm vb vv ? ? ? ? p ? ? addr ? ? ? ? ? ? ? o].
    unfold says, answered. fields. assoc.
    exists (out ++ out'). reflexivity.
Qed.

Lemma _finish_moving_x_polls (busy : list string) :
  forall (idle : string) (rest : list string) (fuel : nat) (self : Controller),
    rx (port self) = "" ->
    device (port self) = busy ++ idle :: rest ->
    forallb (says_busy self) busy = true ->
    says_idle self idle = true ->
    _moving_x self = true ->
    length busy < fuel ->
    exists out,
      _finish_moving_x fuel self =
      Return tt
        (says out
           (set_moving_x false
              (answered (repeat (frame (device_address self) "1")
                                (S (length busy))) rest self))).
Proof.
  induction busy as [|l busy IH]; intros idle rest fuel self R D B I Mv F;
    (destruct fuel as [|fuel]; [cbn in F; lia|]);
    cbn [_finish_moving_x]; rewrite Mv; cbn [app] in D.
  - apply says_idle_inv in I. destruct I as (W & t & T & Tb).
    destruct (_get_status_x_reply idle t rest self R D W T) as [out E].
    rewrite (bind_Return _ _ _ _ _ E), Tb.
    destruct self as [nm vb vv ? ? ? ? p ? ? addr ? ? ? ? ? ? ? o].
    unfold says, answered. fields.
    destruct fuel; cbn [_finish_moving_x]; fields;
      unfold when, print, modify, ret; destruct vv;
      fields; assoc; eexists; reflexivity.
  - cbn [forallb] in B. apply andb_prop in B. destruct B as [Bl B].
    apply says_busy_inv in Bl. destruct Bl as (W & T).
    destruct (_get_status_x_reply l "BUSY" (busy ++ idle :: rest) self R D W T)
      as [out E].
    rewrite (bind_Return _ _ _ _ _ E).
    change (String.eqb "BUSY" "BUSY") with true.
    match goal with |- context [_finish_moving_x fuel ?s] =>
      destruct (IH idle rest fuel s) as [out' E'];
        [reflexivity | reflexivity
        | rewrite <- B; apply forallb_same_link; split; reflexivity
        | rewrite <- I; apply says_idle_same_link; split; reflexivity
        | reflexivity | cbn in F; lia | rewrite E']
    end.
    destruct self as [nm vb vv ? ? ? ? p ? ? addr ? ? ? ? ? ? ? o].
    unfold says, answered. fields. assoc.
    exists (out ++ out'). reflexivity.
Qed.

Lemma _finish_moving_y_polls (busy : list string) :
  forall (idle : string) (rest : list string) (fuel : nat) (self : Controller),
    rx (port self) = "" ->
    device (port self) = busy ++ idle :: rest ->
    forallb (says_busy self) busy = true ->
    says_idle self idle = true ->
    _moving_y self = true ->
    length busy < fuel ->
    exists out,
      _finish_moving_y fuel self =
      Return tt
        (says out
           (set_moving_y false
              (answered (repeat (frame (device_address self) "2")
                                (S (length busy))) rest self))).
Proof.
  induction busy as [|l busy IH]; intros idle rest fuel self R D B I Mv F;
    (destruct fuel as [|fuel]; [cbn in F; lia|]);
    cbn [_finish_moving_y]; rewrite Mv; cbn [app] in D.
  - apply says_idle_inv in I. destruct I as (W & t & T & Tb).
    destruct (_get_status_y_reply idle t rest self R D W T) as [out E].
    rewrite (bind_Return _ _ _ _ _ E), Tb.
    destruct self as [nm vb vv ? ? ? ? p ? ? addr ? ? ? ? ? ? ? o].
    unfold says, answered. fields.
    destruct fuel; cbn [_finish_moving_y]; fields;
      unfold when, print, modify, ret; destruct vv;
      fields; assoc; eexists; reflexivity.
  - cbn [forallb] in B. apply andb_prop in B. destruct B as [Bl B].
    apply says_busy_inv in Bl. destruct Bl as (W & T).
    destruct (_get_status_y_reply l "BUSY" (busy ++ idle :: rest) self R D W T)
      as [out E].
    rewrite (bind_Return _ _ _ _ _ E).
    change (String.eqb "BUSY" "BUSY") with true.
    match goal with |- context [_finish_moving_y fuel ?s] =>
      destruct (IH idle rest fuel s) as [out' E'];
        [reflexivity | reflexivity
        | rewrite <- B; apply forallb_same_link; split; reflexivity
        | rewrite <- I; apply says_idle_same_link; split; reflexivity
        | reflexivity | cbn in F; lia | rewrite E']
    end.
    destruct self as [nm vb vv ? ? ? ? p ? ? addr ? ? ? ? ? ? ? o].
    unfold says, answered. fields. assoc.
    exists (out ++ out'). reflexivity.
Qed.

(** C9. A stage that answers the first [N] status polls with BUSY and
    the next one with another state: the waiting loop, entered with its
    flag set, polls exactly [N + 1] times, clears the flag and returns,
    whatever fuel above [N] it is given.  This holds for the loop on the
    combined status and for the loops of the two axes. *)
Theorem C9_wait_until_idle (busy : list string) (idle : string)
    (rest : list string) (fuel : nat) (self : Controller) :
  rx (port self) = "" ->
  device (port self) = busy ++ idle :: rest ->
  forallb (says_busy self) busy = true ->
  says_idle self idle = true ->
  length busy < fuel ->
  (_moving self = true ->
   exists out,
     _finish_moving fuel self =
     Return tt
       (says out
          (set_moving false
             (answered (repeat (frame (device_address self) "")
                               (S (length busy))) rest self)))) /\
  (_moving_x self = true ->
   exists out,
     _finish_moving_x fuel self =
     Return tt
       (says out
          (set_moving_x false
             (answered (repeat (frame (device_address self) "1")
                               (S (length busy))) rest self)))) /\
  (_moving_y self = true ->
   exists out,
     _finish_moving_y fuel self =
     Return tt
       (says out
          (set_moving_y false
             (answered (repeat (frame (device_address self) "2")
                               (S (length busy))) rest self)))).
Proof.
  intros R D B I F. repeat split; intros Mv.
  - apply (_finish_moving_polls busy idle rest fuel self); assumption.
  - apply (_finish_moving_x_polls busy idle rest fuel self); assumption.
  - apply (_finish_moving_y_polls busy idle rest fuel self); assumption.
Qed.

(** A loop of two busy polls on the x axis. *)
Lemma C9_wait_until_idle_witness :
  exists out,
    _finish_moving_x 3
      (set_moving_x true
         (bench true false
            [line "@01 1 OK BUSY -- 0"; line "@01 1 OK BUSY -- 0";
             line "@01 1 OK IDLE -- 0"])) =
    Return tt
      (says out
         (set_moving_x false
            (answered [frame "01" "1"; frame "01" "1"; frame "01" "1"] []
               (set_moving_x true
                  (bench true false
                     [line "@01 1 OK BUSY -- 0"; line "@01 1 OK BUSY -- 0";
                      line "@01 1 OK IDLE -- 0"]))))).
Proof.
  apply (C9_wait_until_idle
           [line "@01 1 OK BUSY -- 0"; line "@01 1 OK BUSY -- 0"]
           (line "@01 1 OK IDLE -- 0") [] 3
           (set_moving_x true
              (bench true false
                 [line "@01 1 OK BUSY -- 0"; line "@01 1 OK BUSY -- 0";
                  line "@01 1 OK IDLE -- 0"])));
    try reflexivity.
  cbn. lia.
Defined.

(* ================================================================== *)
(** * Stopping an axis *)
(* ================================================================== *)

Lemma mem_two (t a b : string) :
  Py.mem t [a; b] = true <-> t = a \/ t = b.
Proof.
  unfold Py.mem. cbn [existsb]. rewrite orb_false_r, orb_true_iff.
  now rewrite !String.eqb_eq.
Qed.

(** C8. Once the stage has acknowledged the stop command of an axis,
    [_stop_x] and [_stop_y] return when the acknowledgment is one of the
    two busy-stop strings of that axis and raise their assertion on every
    other acknowledgment. *)
Theorem C8_stop_acknowledgment (l : string) (rest : list string)
    (self : Controller) :
  rx (port self) = "" ->
  device (port self) = l :: rest ->
  reply self l = true ->
  (exists out,
     _stop_x self =
     (if Py.mem (payload l) ["1 OK BUSY -- 0"; "1 OK BUSY NI 0"]
      then Return tt
      else Raise (AssertionError stop_x_acknowledgment))
       (says out (answered [frame (device_address self) "1 stop"] rest self)))
  /\
  (exists out,
     _stop_y self =
     (if Py.mem (payload l) ["2 OK BUSY -- 0"; "2 OK BUSY NI 0"]
      then Return tt
      else Raise (AssertionError stop_y_acknowledgment))
       (says out (answered [frame (device_address self) "2 stop"] rest self)))
  /\
  (Py.mem (payload l) ["1 OK BUSY -- 0"; "1 OK BUSY NI 0"] = true <->
   payload l = "1 OK BUSY -- 0" \/ payload l = "1 OK BUSY NI 0") /\
  (Py.mem (payload l) ["2 OK BUSY -- 0"; "2 OK BUSY NI 0"] = true <->
   payload l = "2 OK BUSY -- 0" \/ payload l = "2 OK BUSY NI 0").
Proof.
  intros R D W. split; [|split; [|split; apply mem_two]].
  - unfold _stop_x.
    destruct self as [nm vb vv ? ? ? ? p ? ? addr ? ? ? ? ? ? ? out].
    run. fields.
    destruct vv; cbv beta iota; fields; send_by _send_reply l rest;
      destruct (Py.mem (payload l) _); cbv beta iota; fields; assoc;
      eexists; reflexivity.
  - unfold _stop_y.
    destruct self as [nm vb vv ? ? ? ? p ? ? addr ? ? ? ? ? ? ? out].
    run. fields.
    destruct vv; cbv beta iota; fields; send_by _send_reply l rest;
      destruct (Py.mem (payload l) _); cbv beta iota; fields; assoc;
      eexists; reflexivity.
Qed.

(** The x axis acknowledges with the NI flag; the y axis answers IDLE. *)
Lemma C8_stop_acknowledgment_witness :
  (exists out,
     _stop_x (bench true false [line "@01 1 OK BUSY NI 0"]) =
     Return tt
       (says out
          (answered [frame "01" "1 stop"] []
             (bench true false [line "@01 1 OK BUSY NI 0"])))) /\
  (exists out,
     _stop_y (bench true false [line "@01 2 OK IDLE -- 0"]) =
     Raise (AssertionError stop_y_acknowledgment)
       (says out
          (answered [frame "01" "2 stop"] []
             (bench true false [line "@01 2 OK IDLE -- 0"])))).
Proof.
  split.
  - apply (C8_stop_acknowledgment (line "@01 1 OK BUSY NI 0") []
             (bench true false [line "@01 1 OK BUSY NI 0"]));
      reflexivity.
  - apply (C8_stop_acknowledgment (line "@01 2 OK IDLE -- 0") []
             (bench true false [line "@01 2 OK IDLE -- 0"]));
      reflexivity.
Defined.

(* ================================================================== *)
(** * Moves *)
(* ================================================================== *)

Lemma exchanged_tx (cmd : string) (self : Controller) :
  tx (snd (exchanged cmd self)) =
  tx (port self) ++ [frame (device_address self) cmd].
Proof.
  unfold exchanged, Port.readline, Port.write.
  destruct (device (port self)); cbn [rx tx device];
    match goal with |- context [Port.cut_line ?b] =>
      destruct (Port.cut_line b) end; reflexivity.
Qed.

Lemma _get_status_x_returns (v : string) (self self' : Controller) :
  _get_status_x self = Return v self' ->
  exists out b,
    self' = says out (set_moving_x b (set_port (snd (exchanged "1" self)) self)).
Proof.
  unfold _get_status_x.
  destruct self as [nm vb vv ? ? ? ? p ? ? addr ? ? ? ? ? ? ? out].
  run. fields.
  destruct vv; cbv beta iota; fields;
    match goal with |- context [_send ?c ?r ?s] =>
      destruct (_send c r s) as [w s1|e s1|] eqn:E; try discriminate;
      apply _send_returns in E; destruct E as (_ & _ & -> & ->)
    end;
    unfold after_send, exchanged; fields;
    match goal with |- context [nth_error ?l 2] =>
      destruct (nth_error l 2) as [t|]; try discriminate end;
    cbv beta iota; destruct (String.eqb t "BUSY"); cbv beta iota; fields;
    intros H; injection H as <- <-; unfold says; fields; assoc;
    eexists; eexists; reflexivity.
Qed.

(** When the wait on the x axis returns, only status polls were written,
    the flag is clear and nothing else has changed. *)
Lemma _finish_moving_x_returns (fuel : nat) :
  forall self self' : Controller,
    _finish_moving_x fuel self = Return tt self' ->
    exists out k p',
      self' = says out (set_moving_x false (set_port p' self)) /\
      tx p' = tx (port self) ++ repeat (frame (device_address self) "1") k.
Proof.
  induction fuel as [|fuel IH]; intros self self'; cbn [_finish_moving_x];
    destruct (_moving_x self) eqn:Mv; try discriminate.
  - intros H. exists (if very_verbose self then [finished_moving_x] else []).
    exists 0, (port self). cbn [repeat]. rewrite app_nil_r.
    split; [|reflexivity]. revert H. unfold when, print, modify, ret, says.
    destruct self as [nm vb vv ? ? ? ? p ? ? addr ? ? ? ? ? ? ? o].
    fields; subst. destruct vv; intros H;
      injection H as <-; rewrite ?app_nil_r; reflexivity.
  - unfold bind.
    destruct (_get_status_x self) as [v s1|e s1|] eqn:E; try discriminate.
    apply _get_status_x_returns in E. destruct E as (out & b & ->).
    intros H. apply IH in H. destruct H as (out' & k & p' & -> & T).
    exists (out ++ out'), (S k), p'. split.
    + unfold says. destruct self; fields. assoc. reflexivity.
    + rewrite T. unfold says.
      destruct self as [nm vb vv ? ? ? ? p ? ? addr ? ? ? ? ? ? ? o]. fields.
      rewrite exchanged_tx. fields. rewrite <- app_assoc. reflexivity.
  - intros H. exists (if very_verbose self then [finished_moving_x] else []).
    exists 0, (port self). cbn [repeat]. rewrite app_nil_r.
    split; [|reflexivity]. revert H. unfold when, print, modify, ret, says.
    destruct self as [nm vb vv ? ? ? ? p ? ? addr ? ? ? ? ? ? ? o].
    fields; subst. destruct vv; intros H;
      injection H as <-; rewrite ?app_nil_r; reflexivity.
Qed.

Lemma _get_status_y_returns (v : string) (self self' : Controller) :
  _get_status_y self = Return v self' ->
  exists out b,
    self' = says out (set_moving_y b (set_port (snd (exchanged "2" self)) self)).
Proof.
  unfold _get_status_y.
  destruct self as [nm vb vv ? ? ? ? p ? ? addr ? ? ? ? ? ? ? out].
  run. fields.
  destruct vv; cbv beta iota; fields;
    match goal with |- context [_send ?c ?r ?s] =>
      destruct (_send c r s) as [w s1|e s1|] eqn:E; try discriminate;
      apply _send_returns in E; destruct E as (_ & _ & -> & ->)
    end;
    unfold after_send, exchanged; fields;
    match goal with |- context [nth_error ?l 2] =>
      destruct (nth_error l 2) as [t|]; try discriminate end;
    cbv beta iota; destruct (String.eqb t "BUSY"); cbv beta iota; fields;
    intros H; injection H as <- <-; unfold says; fields; assoc;
    eexists; eexists; reflexivity.
Qed.

(** When the wait on the y axis returns, only status polls were written,
    the flag is clear and nothing else has changed. *)
Lemma _finish_moving_y_returns (fuel : nat) :
  forall self self' : Controller,
    _finish_moving_y fuel self = Return tt self' ->
    exists out k p',
      self' = says out (set_moving_y false (set_port p' self)) /\
      tx p' = tx (port self) ++ repeat (frame (device_address self) "2") k.
Proof.
  induction fuel as [|fuel IH]; intros self self'; cbn [_finish_moving_y];
    destruct (_moving_y self) eqn:Mv; try discriminate.
  - intros H. exists (if very_verbose self then [finished_moving_y] else []).
    exists 0, (port self). cbn [repeat]. rewrite app_nil_r.
    split; [|reflexivity]. revert H. unfold when, print, modify, ret, says.
    destruct self as [nm vb vv ? ? ? ? p ? ? addr ? ? ? ? ? ? ? o].
    fields; subst. destruct vv; intros H;
      injection H as <-; rewrite ?app_nil_r; reflexivity.
  - unfold bind.
    destruct (_get_status_y self) as [v s1|e s1|] eqn:E; try discriminate.
    apply _get_status_y_returns in E. destruct E as (out & b & ->).
    intros H. apply IH in H. destruct H as (out' & k & p' & -> & T).
    exists (out ++ out'), (S k), p'. split.
    + unfold says. destruct self; fields. assoc. reflexivity.
    + rewrite T. unfold says.
      destruct self as [nm vb vv ? ? ? ? p ? ? addr ? ? ? ? ? ? ? o]. fields.
      rewrite exchanged_tx. fields. rewrite <- app_assoc. reflexivity.
  - intros H. exists (if very_verbose self then [finished_moving_y] else []).
    exists 0, (port self). cbn [repeat]. rewrite app_nil_r.
    split; [|reflexivity]. revert H. unfold when, print, modify, ret, says.
    destruct self as [nm vb vv ? ? ? ? p ? ? addr ? ? ? ? ? ? ? o].
    fields; subst. destruct vv; intros H;
      injection H as <-; rewrite ?app_nil_r; reflexivity.
Qed.

Section Moves.

Variable py_str : float -> string.

Lemma _move_x_idle_out_of_limits (fuel : nat) (x : float)
    (relative block : bool) (self : Controller) :
  _moving_x self = false ->
  within (x_min_mm self) (target relative (x_mm self) x) (x_max_mm self)
    = false ->
  _move_x py_str fuel x relative block self =
  Return tt (says (x_refusal self x relative) self).
Proof.
  unfold _move_x, target, x_refusal, says.
  destruct self as [nm vb vv ? ? ? ? p ? ? addr ? mx ? ? ? ? ? out].
  fields. intros -> W. run. fields.
  destruct vv; cbv beta iota; fields; rewrite W; cbn [negb];
    destruct vb; cbv beta iota; fields; assoc; rewrite ?app_nil_r;
    reflexivity.
Qed.

Lemma _move_x_out_of_limits_returns (fuel : nat) (x : float)
    (relative block : bool) (self self' : Controller) :
  within (x_min_mm self) (target relative (x_mm self) x) (x_max_mm self)
    = false ->
  _move_x py_str fuel x relative block self = Return tt self' ->
  exists out k p',
    self' = says out (set_moving_x false (set_port p' self)) /\
    tx p' = tx (port self) ++ repeat (frame (device_address self) "1") k.
Proof.
  intros W. destruct (_moving_x self) eqn:Mv.
  - unfold _move_x. unfold bind at 1. unfold get at 1.
    unfold bind at 1. rewrite Mv. unfold when at 1.
    destruct (_finish_moving_x fuel self) as [[] s1|e s1|] eqn:E;
      try discriminate.
    apply _finish_moving_x_returns in E.
    destruct E as (out & k & p' & -> & T).
    revert W. unfold target, says.
    destruct self as [nm vb vv ? ? ? ? p ? ? addr ? mx ? ? ? ? ? o].
    fields. intros W. run. fields.
    destruct vv; cbv beta iota; fields; rewrite W; cbn [negb];
      destruct vb; cbv beta iota; fields; intros H; injection H as <-;
      assoc; eexists; exists k, p'; (split; [reflexivity|exact T]).
  - rewrite _move_x_idle_out_of_limits by assumption.
    intros H. injection H as <-.
    exists (x_refusal self x relative), 0, (port self).
    cbn [repeat]. rewrite app_nil_r. split; [|reflexivity].
    unfold says. destruct self; fields. subst. reflexivity.
Qed.

Lemma _move_y_idle_out_of_limits (fuel : nat) (y : float)
    (relative block : bool) (self : Controller) :
  _moving_y self = false ->
  within (y_min_mm self) (target relative (y_mm self) y) (y_max_mm self)
    = false ->
  _move_y py_str fuel y relative block self =
  Return tt (says (y_refusal self y relative) self).
Proof.
  unfold _move_y, target, y_refusal, says.
  destruct self as [nm vb vv ? ? ? ? p ? ? addr ? ? my ? ? ? ? out].
  fields. intros -> W. run. fields.
  destruct vv; cbv beta iota; fields; rewrite W; cbn [negb];
    destruct vb; cbv beta iota; fields; assoc; rewrite ?app_nil_r;
    reflexivity.
Qed.

Lemma _move_y_out_of_limits_returns (fuel : nat) (y : float)
    (relative block : bool) (self self' : Controller) :
  within (y_min_mm self) (target relative (y_mm self) y) (y_max_mm self)
    = false ->
  _move_y py_str fuel y relative block self = Return tt self' ->
  exists out k p',
    self' = says out (set_moving_y false (set_port p' self)) /\
    tx p' = tx (port self) ++ repeat (frame (device_address self) "2") k.
Proof.
  intros W. destruct (_moving_y self) eqn:Mv.
  - unfold _move_y. unfold bind at 1. unfold get at 1.
    unfold bind at 1. rewrite Mv. unfold when at 1.
    destruct (_finish_moving_y fuel self) as [[] s1|e s1|] eqn:E;
      try discriminate.
    apply _finish_moving_y_returns in E.
    destruct E as (out & k & p' & -> & T).
    revert W. unfold target, says.
    destruct self as [nm vb vv ? ? ? ? p ? ? addr ? ? my ? ? ? ? o].
    fields. intros W. run. fields.
    destruct vv; cbv beta iota; fields; rewrite W; cbn [negb];
      destruct vb; cbv beta iota; fields; intros H; injection H as <-;
      assoc; eexists; exists k, p'; (split; [reflexivity|exact T]).
  - rewrite _move_y_idle_out_of_limits by assumption.
    intros H. injection H as <-.
    exists (y_refusal self y relative), 0, (port self).
    cbn [repeat]. rewrite app_nil_r. split; [|reflexivity].
    unfold says. destruct self; fields. subst. reflexivity.
Qed.

Lemma waits_true (self : Controller) (busy : list string) (idle : string)
    (fuel : nat) :
  waits true self busy idle fuel = true ->
  forallb (says_busy self) busy = true /\ says_idle self idle = true /\
  length busy < fuel.
Proof.
  unfold waits. cbn [negb orb]. intros H.
  apply andb_prop in H. destruct H as [H F].
  apply andb_prop in H. destruct H as [B I].
  apply Nat.ltb_lt in F. auto.
Qed.

Lemma _move_x_in_limits (fuel : nat) (x : float) (relative block : bool)
    (busy0 busy1 : list string) (idle0 idle1 l : string)
    (rest : list string) (self : Controller) :
  let t := target relative (x_mm self) x in
  rx (port self) = "" ->
  device (port self) =
    wait_script (_moving_x self) busy0 idle0 ++
    l :: wait_script block busy1 idle1 ++ rest ->
  waits (_moving_x self) self busy0 idle0 fuel = true ->
  reply self l = true ->
  waits block self busy1 idle1 fuel = true ->
  within (x_min_mm self) t (x_max_mm self) = true ->
  exists out,
    _move_x py_str fuel x relative block self =
    Return tt
      (says out
         (set_x_mm t
            (set_moving_x (negb block)
               (answered
                  (wait_polls (_moving_x self) (device_address self) "1" busy0
                   ++ [frame (device_address self)
                             ("1 move abs " ++ py_str (1e6 * t)%float)]
                   ++ wait_polls block (device_address self) "1" busy1)
                  rest self)))).
Proof.
  unfold target, _move_x, wait_script, wait_polls.
  destruct self as [nm vb vv ? ? ? ? [t0 r0 d0] ? ? addr ? mx ? cx ? ? ? o].
  intros R D W0 W W1 L. fields. subst r0 d0. run. fields.
  destruct mx, block; cbv beta iota; fields;
    try (apply waits_true in W0; destruct W0 as (B0 & I0 & F0));
    try (apply waits_true in W1; destruct W1 as (B1 & I1 & F1)).
  - wait_by _finish_moving_x_polls _finish_moving_x busy0 idle0 (l :: (busy1 ++ [idle1]) ++ rest).
    destruct vv; cbv beta iota; fields; rewrite L; cbn [negb];
      send_by _send_reply l ((busy1 ++ [idle1]) ++ rest);
      wait_by _finish_moving_x_polls _finish_moving_x busy1 idle1 rest; assoc; eexists; reflexivity.
  - wait_by _finish_moving_x_polls _finish_moving_x busy0 idle0 (l :: rest).
    destruct vv; cbv beta iota; fields; rewrite L; cbn [negb];
      send_by _send_reply l rest; assoc; eexists; reflexivity.
  - destruct vv; cbv beta iota; fields; rewrite L; cbn [negb];
      send_by _send_reply l ((busy1 ++ [idle1]) ++ rest);
      wait_by _finish_moving_x_polls _finish_moving_x busy1 idle1 rest; assoc; eexists; reflexivity.
  - destruct vv; cbv beta iota; fields; rewrite L; cbn [negb];
      send_by _send_reply l rest; assoc; rewrite ?app_nil_r; eexists; reflexivity.
Qed.

Lemma _move_y_in_limits (fuel : nat) (y : float) (relative block : bool)
    (busy0 busy1 : list string) (idle0 idle1 l : string)
    (rest : list string) (self : Controller) :
  let t := target relative (y_mm self) y in
  rx (port self) = "" ->
  device (port self) =
    wait_script (_moving_y self) busy0 idle0 ++
    l :: wait_script block busy1 idle1 ++ rest ->
  waits (_moving_y self) self busy0 idle0 fuel = true ->
  reply self l = true ->
  waits block self busy1 idle1 fuel = true ->
  within (y_min_mm self) t (y_max_mm self) = true ->
  exists out,
    _move_y py_str fuel y relative block self =
    Return tt
      (says out
         (set_y_mm t
            (set_moving_y (negb block)
               (answered
                  (wait_polls (_moving_y self) (device_address self) "2" busy0
                   ++ [frame (device_address self)
                             ("2 move abs " ++ py_str (1e6 * t)%float)]
                   ++ wait_polls block (device_address self) "2" busy1)
                  rest self)))).
Proof.
  unfold target, _move_y, wait_script, wait_polls.
  destruct self as [nm vb vv ? ? ? ? [t0 r0 d0] ? ? addr ? ? my ? cy ? ? o].
  intros R D W0 W W1 L. fields. subst r0 d0. run. fields.
  destruct my, block; cbv beta iota; fields;
    try (apply waits_true in W0; destruct W0 as (B0 & I0 & F0));
    try (apply waits_true in W1; destruct W1 as (B1 & I1 & F1)).
  - wait_by _finish_moving_y_polls _finish_moving_y busy0 idle0 (l :: (busy1 ++ [idle1]) ++ rest).
    destruct vv; cbv beta iota; fields; rewrite L; cbn [negb];
      send_by _send_reply l ((busy1 ++ [idle1]) ++ rest);
      wait_by _finish_moving_y_polls _finish_moving_y busy1 idle1 rest; assoc; eexists; reflexivity.
  - wait_by _finish_moving_y_polls _finish_moving_y busy0 idle0 (l :: rest).
    destruct vv; cbv beta iota; fields; rewrite L; cbn [negb];
      send_by _send_reply l rest; assoc; eexists; reflexivity.
  - destruct vv; cbv beta iota; fields; rewrite L; cbn [negb];
      send_by _send_reply l ((busy1 ++ [idle1]) ++ rest);
      wait_by _finish_moving_y_polls _finish_moving_y busy1 idle1 rest; assoc; eexists; reflexivity.
  - destruct vv; cbv beta iota; fields; rewrite L; cbn [negb];
      send_by _send_reply l rest; assoc; rewrite ?app_nil_r; eexists; reflexivity.
Qed.

(** A two-axis move whose x target is out of limits: the y move goes
    ahead alone. *)
Lemma move_mm_x_refused (fuel : nat) (x y : float) (relative block : bool)
    (busy0 busy1 : list string) (idle0 idle1 l : string)
    (rest : list string) (self : Controller) :
  let t := target relative (y_mm self) y in
  _moving_x self = false ->
  within (x_min_mm self) (target relative (x_mm self) x) (x_max_mm self)
    = false ->
  rx (port self) = "" ->
  device (port self) =
    wait_script (_moving_y self) busy0 idle0 ++
    l :: wait_script block busy1 idle1 ++ rest ->
  waits (_moving_y self) self busy0 idle0 fuel = true ->
  reply self l = true ->
  waits block self busy1 idle1 fuel = true ->
  within (y_min_mm self) t (y_max_mm self) = true ->
  exists out,
    move_mm py_str fuel x y relative block self =
    Return tt
      (says out
         (set_moving (negb block)
            (set_moving_y (negb block)
               (set_y_mm t
                  (answered
                     (wait_polls (_moving_y self) (device_address self) "2"
                                 busy0
                      ++ [frame (device_address self)
                                ("2 move abs " ++ py_str (1e6 * t)%float)]
                      ++ wait_polls block (device_address self) "" busy1)
                     rest self))))).
Proof.
  unfold move_mm.
  destruct self as [nm vb vv ? ? ? ? [t0 r0 d0] ? ? addr ? mx my cx cy ? ? o].
  intros Mx Lx R D W0 W W1 Ly. fields. subst r0 d0 mx.
  run. fields.
  destruct vb; cbv beta iota; fields;
    (match goal with |- context [_move_x py_str ?f ?a ?r ?b ?s] =>
       rewrite (_move_x_idle_out_of_limits f a r b s) by (fields; first [assumption | reflexivity])
     end; cbv beta iota; unfold says, x_refusal; fields;
     match goal with |- context [_move_y py_str ?f ?a ?r false ?s] =>
       let E := fresh "E" in
       destruct (_move_y_in_limits f a r false busy0 [] idle0 "" l
                   (wait_script block busy1 idle1 ++ rest) s) as [? E];
       [ reflexivity | reflexivity | assumption | assumption | reflexivity
       | assumption | rewrite E; clear E ]
     end; cbv beta iota; unfold says, answered; fields;
     destruct block; cbv beta iota; unfold wait_script, wait_polls in *;
     [ apply waits_true in W1; destruct W1 as (B1 & I1 & F1);
       wait_by _finish_moving_polls _finish_moving busy1 idle1 rest
     | ];
     assoc; rewrite ?app_nil_r; eexists; reflexivity).
Qed.

(** A two-axis move whose y target is out of limits: the x move has gone
    ahead. *)
Lemma move_mm_y_refused (fuel : nat) (x y : float) (relative block : bool)
    (busy0 busy1 : list string) (idle0 idle1 l : string)
    (rest : list string) (self : Controller) :
  let t := target relative (x_mm self) x in
  _moving_y self = false ->
  within (y_min_mm self) (target relative (y_mm self) y) (y_max_mm self)
    = false ->
  rx (port self) = "" ->
  device (port self) =
    wait_script (_moving_x self) busy0 idle0 ++
    l :: wait_script block busy1 idle1 ++ rest ->
  waits (_moving_x self) self busy0 idle0 fuel = true ->
  reply self l = true ->
  waits block self busy1 idle1 fuel = true ->
  within (x_min_mm self) t (x_max_mm self) = true ->
  exists out,
    move_mm py_str fuel x y relative block self =
    Return tt
      (says out
         (set_moving (negb block)
            (set_moving_x (negb block)
               (set_x_mm t
                  (answered
                     (wait_polls (_moving_x self) (device_address self) "1"
                                 busy0
                      ++ [frame (device_address self)
                                ("1 move abs " ++ py_str (1e6 * t)%float)]
                      ++ wait_polls block (device_address self) "" busy1)
                     rest self))))).
Proof.
  unfold move_mm.
  destruct self as [nm vb vv ? ? ? ? [t0 r0 d0] ? ? addr ? mx my cx cy ? ? o].
  intros My Ly R D W0 W W1 Lx. fields. subst r0 d0 my.
  run. fields.
  destruct vb; cbv beta iota; fields;
    (match goal with |- context [_move_x py_str ?f ?a ?r false ?s] =>
       let E := fresh "E" in
       destruct (_move_x_in_limits f a r false busy0 [] idle0 "" l
                   (wait_script block busy1 idle1 ++ rest) s) as [? E];
       [ reflexivity | reflexivity | assumption | assumption | reflexivity
       | assumption | rewrite E; clear E ]
     end; cbv beta iota; unfold says, answered; fields;
     match goal with |- context [_move_y py_str ?f ?a ?r ?b ?s] =>
       rewrite (_move_y_idle_out_of_limits f a r b s) by (fields; first [assumption | reflexivity])
     end; cbv beta iota; unfold says, y_refusal; fields;
     destruct block; cbv beta iota; unfold wait_script, wait_polls in *;
     [ apply waits_true in W1; destruct W1 as (B1 & I1 & F1);
       wait_by _finish_moving_polls _finish_moving busy1 idle1 rest
     | ];
     assoc; rewrite ?app_nil_r; eexists; reflexivity).
Qed.

End Moves.

Section MoveClaims.

Variable py_str : float -> string.

(** C1 (as the code has it). A move whose target lies outside the limits
    of its axis writes no move command and keeps the cached position.  On
    an axis that is idle on entry it writes nothing at all and returns
    with the object unchanged but for the console.  On an axis that is
    busy on entry the pending wait runs first, so whenever the move
    returns only status polls of that axis were written and its moving
    flag is clear.  In [move_mm] the refused axis (idle on entry) leaves
    the move of the other axis, whose target is within limits, to go
    ahead: its command is written and its position cached. *)
Theorem C1_out_of_limits (fuel : nat) (x y : float) (relative block : bool)
    (busy0 busy1 : list string) (idle0 idle1 l : string)
    (rest : list string) (self : Controller) :
  let x_target := target relative (x_mm self) x in
  let y_target := target relative (y_mm self) y in
  (within (x_min_mm self) x_target (x_max_mm self) = false ->
   (_moving_x self = false ->
    _move_x py_str fuel x relative block self =
    Return tt (says (x_refusal self x relative) self)) /\
   (forall self',
      _move_x py_str fuel x relative block self = Return tt self' ->
      exists out k p',
        self' = says out (set_moving_x false (set_port p' self)) /\
        tx p' = tx (port self) ++ repeat (frame (device_address self) "1") k))
  /\
  (within (y_min_mm self) y_target (y_max_mm self) = false ->
   (_moving_y self = false ->
    _move_y py_str fuel y relative block self =
    Return tt (says (y_refusal self y relative) self)) /\
   (forall self',
      _move_y py_str fuel y relative block self = Return tt self' ->
      exists out k p',
        self' = says out (set_moving_y false (set_port p' self)) /\
        tx p' = tx (port self) ++ repeat (frame (device_address self) "2") k))
  /\
  (within (x_min_mm self) x_target (x_max_mm self) = false ->
   _moving_x self = false ->
   within (y_min_mm self) y_target (y_max_mm self) = true ->
   rx (port self) = "" ->
   device (port self) =
     wait_script (_moving_y self) busy0 idle0 ++
     l :: wait_script block busy1 idle1 ++ rest ->
   waits (_moving_y self) self busy0 idle0 fuel = true ->
   reply self l = true ->
   waits block self busy1 idle1 fuel = true ->
   exists out,
     move_mm py_str fuel x y relative block self =
     Return tt
       (says out
          (set_moving (negb block)
             (set_moving_y (negb block)
                (set_y_mm y_target
                   (answered
                      (wait_polls (_moving_y self) (device_address self) "2"
                                  busy0
                       ++ [frame (device_address self)
                                 ("2 move abs "
                                  ++ py_str (1e6 * y_target)%float)]
                       ++ wait_polls block (device_address self) "" busy1)
                      rest self))))))
  /\
  (within (y_min_mm self) y_target (y_max_mm self) = false ->
   _moving_y self = false ->
   within (x_min_mm self) x_target (x_max_mm self) = true ->
   rx (port self) = "" ->
   device (port self) =
     wait_script (_moving_x self) busy0 idle0 ++
     l :: wait_script block busy1 idle1 ++ rest ->
   waits (_moving_x self) self busy0 idle0 fuel = true ->
   reply self l = true ->
   waits block self busy1 idle1 fuel = true ->
   exists out,
     move_mm py_str fuel x y relative block self =
     Return tt
       (says out
          (set_moving (negb block)
             (set_moving_x (negb block)
                (set_x_mm x_target
                   (answered
                      (wait_polls (_moving_x self) (device_address self) "1"
                                  busy0
                       ++ [frame (device_address self)
                                 ("1 move abs "
                                  ++ py_str (1e6 * x_target)%float)]
                       ++ wait_polls block (device_address self) "" busy1)
                      rest self)))))).
Proof.
  intros x_target y_target. repeat split.
  - intros Mv. now apply _move_x_idle_out_of_limits.
  - intros self'. now apply _move_x_out_of_limits_returns.
  - intros Mv. now apply _move_y_idle_out_of_limits.
  - intros self'. now apply _move_y_out_of_limits_returns.
  - intros.
    now apply (move_mm_x_refused py_str fuel x y relative block busy0 busy1
                 idle0 idle1 l rest self).
  - intros.
    now apply (move_mm_y_refused py_str fuel x y relative block busy0 busy1
                 idle0 idle1 l rest self).
Qed.

(** C2. A move whose target is within the limits of its axis: a pending
    wait on that axis is run to its end; the target is the argument, plus
    the cached position when [relative]; the command written is
    [move abs] with [str(1e6 * target)]; the moving flag is set and the
    target cached; with [block] the axis is polled until it is idle, which
    leaves the flag clear.  The same holds on both axes. *)
Theorem C2_in_limits (fuel : nat) (v : float) (relative block : bool)
    (busy0 busy1 : list string) (idle0 idle1 l : string)
    (rest : list string) (self : Controller) :
  rx (port self) = "" ->
  reply self l = true ->
  waits block self busy1 idle1 fuel = true ->
  (let t := target relative (x_mm self) v in
   device (port self) =
     wait_script (_moving_x self) busy0 idle0 ++
     l :: wait_script block busy1 idle1 ++ rest ->
   waits (_moving_x self) self busy0 idle0 fuel = true ->
   within (x_min_mm self) t (x_max_mm self) = true ->
   exists out,
     _move_x py_str fuel v relative block self =
     Return tt
       (says out
          (set_x_mm t
             (set_moving_x (negb block)
                (answered
                   (wait_polls (_moving_x self) (device_address self) "1"
                               busy0
                    ++ [frame (device_address self)
                              ("1 move abs " ++ py_str (1e6 * t)%float)]
                    ++ wait_polls block (device_address self) "1" busy1)
                   rest self)))))
  /\
  (let t := target relative (y_mm self) v in
   device (port self) =
     wait_script (_moving_y self) busy0 idle0 ++
     l :: wait_script block busy1 idle1 ++ rest ->
   waits (_moving_y self) self busy0 idle0 fuel = true ->
   within (y_min_mm self) t (y_max_mm self) = true ->
   exists out,
     _move_y py_str fuel v relative block self =
     Return tt
       (says out
          (set_y_mm t
             (set_moving_y (negb block)
                (answered
                   (wait_polls (_moving_y self) (device_address self) "2"
                               busy0
                    ++ [frame (device_address self)
                              ("2 move abs " ++ py_str (1e6 * t)%float)]
                    ++ wait_polls block (device_address self) "2" busy1)
                   rest self))))).
Proof.
  intros R W W1. split; intros t D W0 L.
  - now apply (_move_x_in_limits py_str fuel v relative block busy0 busy1
                 idle0 idle1 l rest self).
  - now apply (_move_y_in_limits py_str fuel v relative block busy0 busy1
                 idle0 idle1 l rest self).
Qed.

End MoveClaims.

(** The claim of C1 fails on the moving flag: a refused move on an axis
    that is busy on entry first waits for it, and returns with the flag
    clear.  Here x is asked to go to 131 mm, beyond its limit of 130. *)
Lemma C1_refused_move_clears_flag :
  let self := set_moving_x true (bench true false [line "@01 1 OK IDLE -- 0"]) in
  let self' := says [x_out_of_limits]
                 (set_moving_x false (answered [frame "01" "1"] [] self)) in
  within (x_min_mm self) 131 (x_max_mm self) = false /\
  _move_x CPython.py_str 1 131 false true self = Return tt self' /\
  _moving_x self = true /\
  _moving_x self' = false.
Proof. vm_compute. repeat split. Qed.

(** [move_mm(131, 50, relative=False, block=False)] on the idle bench: x
    is refused, y is sent to 50 mm. *)
Lemma C1_out_of_limits_witness :
  exists out,
    move_mm CPython.py_str 1 131 50 false false
      (bench true false [line "@01 2 OK BUSY -- 0"]) =
    Return tt
      (says out
         (set_moving true
            (set_moving_y true
               (set_y_mm 50
                  (answered [frame "01" "2 move abs 50000000.0"] []
                     (bench true false [line "@01 2 OK BUSY -- 0"])))))).
Proof.
  destruct
    (proj1 (proj2 (proj2
       (C1_out_of_limits CPython.py_str 1 131 50 false false [] [] "" ""
          (line "@01 2 OK BUSY -- 0") []
          (bench true false [line "@01 2 OK BUSY -- 0"]))))
       eq_refl eq_refl eq_refl eq_refl eq_refl eq_refl eq_refl eq_refl)
    as [out E].
  exists out. rewrite E. vm_compute. reflexivity.
Defined.

(** [_move_x(65, relative=False, block=True)] on the idle bench, with a
    stage that is busy for one poll: the command carries 65000000.0 nm and
    two polls follow. *)
Lemma C2_in_limits_witness :
  exists out,
    _move_x CPython.py_str 2 65 false true
      (bench true false
         [line "@01 1 OK BUSY -- 0"; line "@01 1 OK BUSY -- 0";
          line "@01 1 OK IDLE -- 0"]) =
    Return tt
      (says out
         (set_x_mm 65
            (set_moving_x false
               (answered
                  [frame "01" "1 move abs 65000000.0"; frame "01" "1";
                   frame "01" "1"] []
                  (bench true false
                     [line "@01 1 OK BUSY -- 0"; line "@01 1 OK BUSY -- 0";
                      line "@01 1 OK IDLE -- 0"]))))).
Proof.
  destruct
    (proj1
       (C2_in_limits CPython.py_str 2 65 false true []
          [line "@01 1 OK BUSY -- 0"] "" (line "@01 1 OK IDLE -- 0")
          (line "@01 1 OK BUSY -- 0") []
          (bench true false
             [line "@01 1 OK BUSY -- 0"; line "@01 1 OK BUSY -- 0";
              line "@01 1 OK IDLE -- 0"])
          eq_refl eq_refl eq_refl)
       eq_refl eq_refl eq_refl)
    as [out E].
  exists out. rewrite E. vm_compute. reflexivity.
Defined.

(* ================================================================== *)
(** * Maximum speed *)
(* ================================================================== *)

Section Speed.

Variable py_str : float -> string.
Variable py_float : string -> option float.
Variable py_round3 : float -> float.

Lemma get_maxspeed_reply (l sx sy : string) (fx fy : float)
    (rest : list string) (self : Controller) :
  rx (port self) = "" ->
  device (port self) = l :: rest ->
  reply self l = true ->
  speed_fields l = [sx; sy] ->
  py_float sx = Some fx ->
  py_float sy = Some fy ->
  exists out,
    get_maxspeed py_float py_round3 self =
    Return (speed_of_wire py_round3 fx, speed_of_wire py_round3 fy)
      (says out
         (set_y_mmps (speed_of_wire py_round3 fy)
            (set_x_mmps (speed_of_wire py_round3 fx)
               (answered [frame (device_address self) "get maxspeed"]
                         rest self)))).
Proof.
  unfold speed_fields, get_maxspeed, speed_of_wire.
  destruct self as [nm vb vv ? ? ? ? p ? ? addr ? ? ? ? ? ? ? o].
  intros R D W S Fx Fy. fields. run. fields.
  destruct vb; cbv beta iota; fields; send_by _send_reply l rest; rewrite S;
    cbn [floats_of]; run; rewrite Fx, Fy; cbv beta iota;
    cbn [unpack2]; run; fields; assoc; eexists; reflexivity.
Qed.

Lemma set_maxspeed_out_of_range (x y : option float) (self : Controller) :
  let vx := or_cached x (x_mmps self) in
  let vy := or_cached y (y_mmps self) in
  within 0.01 vx 750 && within 0.01 vy 750 = false ->
  set_maxspeed py_str py_float py_round3 x y self =
  Raise (AssertionError maxspeed_out_of_range)
        (says (speed_notice self vx vy) self).
Proof.
  unfold set_maxspeed, or_cached, speed_notice, says.
  destruct self as [nm vb vv ? ? ? ? p ? ? addr ? ? ? ? ? sx sy o].
  fields. intros H. run. fields.
  destruct vb; cbv beta iota; fields; rewrite H; cbv beta iota;
    rewrite ?app_nil_r; assoc; reflexivity.
Qed.

Lemma set_maxspeed_in_range (x y : option float) (l1 l2 l3 sx sy : string)
    (fx fy : float) (rest : list string) (self : Controller) :
  let vx := or_cached x (x_mmps self) in
  let vy := or_cached y (y_mmps self) in
  within 0.01 vx 750 && within 0.01 vy 750 = true ->
  rx (port self) = "" ->
  device (port self) = l1 :: l2 :: l3 :: rest ->
  reply self l1 = true -> reply self l2 = true -> reply self l3 = true ->
  speed_fields l3 = [sx; sy] ->
  py_float sx = Some fx ->
  py_float sy = Some fy ->
  exists out,
    set_maxspeed py_str py_float py_round3 x y self =
    (if PrimFloat.eqb (speed_of_wire py_round3 fx) vx &&
        PrimFloat.eqb (speed_of_wire py_round3 fy) vy
     then Return tt
     else Raise (AssertionError maxspeed_read_back))
      (says out
         (set_y_mmps (speed_of_wire py_round3 fy)
            (set_x_mmps (speed_of_wire py_round3 fx)
               (answered
                  [frame (device_address self)
                         ("1 set maxspeed " ++ py_str (wire_of_speed vx));
                   frame (device_address self)
                         ("2 set maxspeed " ++ py_str (wire_of_speed vy));
                   frame (device_address self) "get maxspeed"]
                  rest self)))).
Proof.
  unfold set_maxspeed, or_cached, wire_of_speed.
  destruct self as [nm vb vv ? ? ? ? [t0 r0 d0] ? ? addr ? ? ? ? ? cx cy o].
  fields. intros H R D W1 W2 W3 S Fx Fy. subst r0 d0. run. fields.
  destruct vb; cbv beta iota; fields; rewrite H; cbv beta iota;
    send_by _send_reply l1 (l2 :: l3 :: rest); send_by _send_reply l2 (l3 :: rest);
    (match goal with |- context [get_maxspeed py_float py_round3 ?s] =>
       let E := fresh "E" in
       destruct (get_maxspeed_reply l3 sx sy fx fy rest s) as [? E];
       [ reflexivity | reflexivity | assumption | assumption | assumption
       | assumption | rewrite E; clear E ]
     end; cbv beta iota; unfold says, answered; fields;
     match goal with |- context [if ?b then _ else _] => destruct b end;
     cbv beta iota; fields; assoc; eexists; reflexivity).
Qed.

(** C5 (as the code has it). [set_maxspeed] raises its range assertion,
    with nothing written to the port, when a requested speed (or the
    cached one standing in for an omitted argument) is outside
    [0.01, 750].  Otherwise it writes the two [set maxspeed] commands with
    [str(1e6 * 1.6384 * v)], then [get maxspeed], and once the three
    exchanges have gone through it raises its read-back assertion exactly
    when a speed read back, rounded to three places, is not equal to the
    value requested, as it was passed in. *)
Theorem C5_set_maxspeed (x y : option float) (l1 l2 l3 sx sy : string)
    (fx fy : float) (rest : list string) (self : Controller) :
  let vx := or_cached x (x_mmps self) in
  let vy := or_cached y (y_mmps self) in
  (within 0.01 vx 750 && within 0.01 vy 750 = false ->
   set_maxspeed py_str py_float py_round3 x y self =
   Raise (AssertionError maxspeed_out_of_range)
         (says (speed_notice self vx vy) self) /\
   port (says (speed_notice self vx vy) self) = port self) /\
  (within 0.01 vx 750 && within 0.01 vy 750 = true ->
   rx (port self) = "" ->
   device (port self) = l1 :: l2 :: l3 :: rest ->
   reply self l1 = true -> reply self l2 = true -> reply self l3 = true ->
   speed_fields l3 = [sx; sy] ->
   py_float sx = Some fx ->
   py_float sy = Some fy ->
   exists out,
     set_maxspeed py_str py_float py_round3 x y self =
     (if PrimFloat.eqb (speed_of_wire py_round3 fx) vx &&
         PrimFloat.eqb (speed_of_wire py_round3 fy) vy
      then Return tt
      else Raise (AssertionError maxspeed_read_back))
       (says out
          (set_y_mmps (speed_of_wire py_round3 fy)
             (set_x_mmps (speed_of_wire py_round3 fx)
                (answered
                   [frame (device_address self)
                          ("1 set maxspeed " ++ py_str (wire_of_speed vx));
                    frame (device_address self)
                          ("2 set maxspeed " ++ py_str (wire_of_speed vy));
                    frame (device_address self) "get maxspeed"]
                   rest self))))).
Proof.
  intros vx vy. split.
  - intros H. split; [now apply set_maxspeed_out_of_range | reflexivity].
  - intros. now apply (set_maxspeed_in_range x y l1 l2 l3 sx sy fx fy rest self).
Qed.

End Speed.

(** The claim of C5 fails on what the read-back is compared with.  The
    speed 100.0004 mm/s goes out as 163840655.35999998; the stage returns
    that very value; the speed read back is 100.0, which is the request
    after its round trip; and [set_maxspeed] still raises, because 100.0
    is not the 100.0004 that was passed in. *)
Lemma C5_round_trip_value_refused :
  let self := bench true false
                [line "@01 1 OK IDLE -- 0"; line "@01 2 OK IDLE -- 0";
                 line "@01 0 OK IDLE -- 163840655.35999998 163840000.0"] in
  let self' :=
    says [setting_maxspeed; setting_maxspeed_args 100.0004 100;
          getting_maxspeed; show_maxspeed 100 100]
      (set_y_mmps 100
         (set_x_mmps 100
            (answered
               [frame "01" "1 set maxspeed 163840655.35999998";
                frame "01" "2 set maxspeed 163840000.0";
                frame "01" "get maxspeed"] [] self))) in
  round_trip CPython.py_str CPython.py_float CPython.py_round3 100.0004
    = Some 100%float /\
  round_trip CPython.py_str CPython.py_float CPython.py_round3 100
    = Some 100%float /\
  set_maxspeed CPython.py_str CPython.py_float CPython.py_round3
    (Some 100.0004%float) (Some 100%float) self =
  Raise (AssertionError maxspeed_read_back) self'.
Proof. vm_compute. repeat split. Qed.

(** On the bench: 800 mm/s is refused with nothing written; 100 mm/s on
    both axes is written, read back as 100.0 and accepted. *)
Lemma C5_set_maxspeed_witness :
  (set_maxspeed CPython.py_str CPython.py_float CPython.py_round3
     (Some 800%float) None (bench true false []) =
   Raise (AssertionError maxspeed_out_of_range)
     (says [setting_maxspeed; setting_maxspeed_args 800 100]
        (bench true false []))) /\
  (exists out,
     set_maxspeed CPython.py_str CPython.py_float CPython.py_round3
       (Some 100%float) (Some 100%float)
       (bench true false
          [line "@01 1 OK IDLE -- 0"; line "@01 2 OK IDLE -- 0";
           line "@01 0 OK IDLE -- 163840000 163840000"]) =
     Return tt
       (says out
          (answered
             [frame "01" "1 set maxspeed 163840000.0";
              frame "01" "2 set maxspeed 163840000.0";
              frame "01" "get maxspeed"] []
             (bench true false
                [line "@01 1 OK IDLE -- 0"; line "@01 2 OK IDLE -- 0";
                 line "@01 0 OK IDLE -- 163840000 163840000"])))).
Proof.
  split.
  - apply (proj1 (C5_set_maxspeed CPython.py_str CPython.py_float
                    CPython.py_round3 (Some 800%float) None "" "" "" "" ""
                    0%float 0%float [] (bench true false []))).
    reflexivity.
  - destruct
      (proj2 (C5_set_maxspeed CPython.py_str CPython.py_float
                CPython.py_round3 (Some 100%float) (Some 100%float)
                (line "@01 1 OK IDLE -- 0") (line "@01 2 OK IDLE -- 0")
                (line "@01 0 OK IDLE -- 163840000 163840000")
                "163840000" "163840000" 163840000%float 163840000%float []
                (bench true false
                   [line "@01 1 OK IDLE -- 0"; line "@01 2 OK IDLE -- 0";
                    line "@01 0 OK IDLE -- 163840000 163840000"]))
         eq_refl eq_refl eq_refl eq_refl eq_refl eq_refl eq_refl
         eq_refl eq_refl)
      as [out E].
    exists out. rewrite E. vm_compute. reflexivity.
Defined.

Section CachedSpeed.

Variable py_str : float -> string.
Variable py_float : string -> option float.
Variable py_round3 : float -> float.

Lemma bind_returns {A B} (m : M A) (k : A -> M B) (self self' : Controller)
    (b : B) :
  bind m k self = Return b self' ->
  exists a s, m self = Return a s /\ k a s = Return b self'.
Proof.
  unfold bind. destruct (m self) as [a s|e s|]; try discriminate.
  intros H. exists a, s. auto.
Qed.

Lemma get_then_set_maxspeed (l0 l1 l2 l3 s0x s0y sx sy : string)
    (f0x f0y fx fy : float) (rest : list string) (self : Controller) :
  let v0x := speed_of_wire py_round3 f0x in
  let v0y := speed_of_wire py_round3 f0y in
  within 0.01 v0x 750 && within 0.01 v0y 750 = true ->
  rx (port self) = "" ->
  device (port self) = l0 :: l1 :: l2 :: l3 :: rest ->
  reply self l0 = true -> reply self l1 = true ->
  reply self l2 = true -> reply self l3 = true ->
  speed_fields l0 = [s0x; s0y] ->
  py_float s0x = Some f0x -> py_float s0y = Some f0y ->
  speed_fields l3 = [sx; sy] ->
  py_float sx = Some fx -> py_float sy = Some fy ->
  exists out,
    (get_maxspeed py_float py_round3 ;;
     set_maxspeed py_str py_float py_round3 None None) self =
    (if PrimFloat.eqb (speed_of_wire py_round3 fx) v0x &&
        PrimFloat.eqb (speed_of_wire py_round3 fy) v0y
     then Return tt
     else Raise (AssertionError maxspeed_read_back))
      (says out
         (set_y_mmps (speed_of_wire py_round3 fy)
            (set_x_mmps (speed_of_wire py_round3 fx)
               (answered
                  [frame (device_address self) "get maxspeed";
                   frame (device_address self)
                         ("1 set maxspeed " ++ py_str (wire_of_speed v0x));
                   frame (device_address self)
                         ("2 set maxspeed " ++ py_str (wire_of_speed v0y));
                   frame (device_address self) "get maxspeed"]
                  rest self)))).
Proof.
  intros v0x v0y Rg R D W0 W1 W2 W3 S0 F0x F0y S Fx Fy.
  destruct (get_maxspeed_reply py_float py_round3 l0 s0x s0y f0x f0y
              (l1 :: l2 :: l3 :: rest) self R D W0 S0 F0x F0y) as [o0 E0].
  unfold bind at 1. rewrite E0. clear E0.
  revert Rg W1 W2 W3. subst v0x v0y. unfold says, answered.
  destruct self as [nm vb vv ? ? ? ? [t0 r0 d0] ? ? addr ? ? ? ? ? cx cy o].
  fields. intros Rg W1 W2 W3.
  match goal with |- context [set_maxspeed py_str py_float py_round3 None None ?s] =>
    destruct (set_maxspeed_in_range py_str py_float py_round3 None None
                l1 l2 l3 sx sy fx fy rest s) as [o1 E1];
    [ exact Rg | reflexivity | reflexivity | exact W1 | exact W2 | exact W3
    | exact S | exact Fx | exact Fy | rewrite E1; clear E1 ]
  end.
  cbn [or_cached]. unfold says, answered. fields.
  match goal with |- context [if ?b then _ else _] => destruct b end;
    cbv beta iota; assoc; eexists; reflexivity.
Qed.

(** C10. An omitted ([None]) argument of [set_maxspeed] stands for the
    cached speed of its axis.  With a stage that answers, the two
    [set maxspeed] commands written carry [str(1e6 * 1.6384 * v)] with [v]
    the argument of the axis, or the cached speed of the axis where the
    argument is omitted, and the read-back is compared with the same
    values.  The cached speed is what [get_maxspeed] read back last: a
    call that returns a pair has stored it in [x_mmps] and [y_mmps]; and
    [get_maxspeed()] followed by [set_maxspeed()] writes the speeds just
    read back to the stage again, returning when the stage reports them
    once more. *)
Theorem C10_omitted_speed_is_cached (x y : option float)
    (l0 l1 l2 l3 s0x s0y sx sy : string) (f0x f0y fx fy : float)
    (rest : list string) (self : Controller) :
  (let vx := or_cached x (x_mmps self) in
   let vy := or_cached y (y_mmps self) in
   within 0.01 vx 750 && within 0.01 vy 750 = true ->
   rx (port self) = "" ->
   device (port self) = l1 :: l2 :: l3 :: rest ->
   reply self l1 = true -> reply self l2 = true -> reply self l3 = true ->
   speed_fields l3 = [sx; sy] ->
   py_float sx = Some fx -> py_float sy = Some fy ->
   exists out,
     set_maxspeed py_str py_float py_round3 x y self =
     (if PrimFloat.eqb (speed_of_wire py_round3 fx) vx &&
         PrimFloat.eqb (speed_of_wire py_round3 fy) vy
      then Return tt
      else Raise (AssertionError maxspeed_read_back))
       (says out
          (set_y_mmps (speed_of_wire py_round3 fy)
             (set_x_mmps (speed_of_wire py_round3 fx)
                (answered
                   [frame (device_address self)
                          ("1 set maxspeed " ++ py_str (wire_of_speed vx));
                    frame (device_address self)
                          ("2 set maxspeed " ++ py_str (wire_of_speed vy));
                    frame (device_address self) "get maxspeed"]
                   rest self)))))
  /\
  (let v0x := speed_of_wire py_round3 f0x in
   let v0y := speed_of_wire py_round3 f0y in
   within 0.01 v0x 750 && within 0.01 v0y 750 = true ->
   rx (port self) = "" ->
   device (port self) = l0 :: l1 :: l2 :: l3 :: rest ->
   reply self l0 = true -> reply self l1 = true ->
   reply self l2 = true -> reply self l3 = true ->
   speed_fields l0 = [s0x; s0y] ->
   py_float s0x = Some f0x -> py_float s0y = Some f0y ->
   speed_fields l3 = [sx; sy] ->
   py_float sx = Some fx -> py_float sy = Some fy ->
   exists out,
     (get_maxspeed py_float py_round3 ;;
      set_maxspeed py_str py_float py_round3 None None) self =
     (if PrimFloat.eqb (speed_of_wire py_round3 fx) v0x &&
         PrimFloat.eqb (speed_of_wire py_round3 fy) v0y
      then Return tt
      else Raise (AssertionError maxspeed_read_back))
       (says out
          (set_y_mmps (speed_of_wire py_round3 fy)
             (set_x_mmps (speed_of_wire py_round3 fx)
                (answered
                   [frame (device_address self) "get maxspeed";
                    frame (device_address self)
                          ("1 set maxspeed " ++ py_str (wire_of_speed v0x));
                    frame (device_address self)
                          ("2 set maxspeed " ++ py_str (wire_of_speed v0y));
                    frame (device_address self) "get maxspeed"]
                   rest self)))))
  /\
  (forall (back : float * float) (self' : Controller),
     get_maxspeed py_float py_round3 self = Return back self' ->
     x_mmps self' = fst back /\ y_mmps self' = snd back).
Proof.
  split; [|split].
  - intros vx vy Rg R D W1 W2 W3 S Fx Fy.
    now apply (set_maxspeed_in_range py_str py_float py_round3 x y
                 l1 l2 l3 sx sy fx fy rest self).
  - intros v0x v0y Rg R D W0 W1 W2 W3 S0 F0x F0y S Fx Fy.
    now apply (get_then_set_maxspeed l0 l1 l2 l3 s0x s0y sx sy
                 f0x f0y fx fy rest self).
  - intros back self' H. unfold get_maxspeed in H.
    apply bind_returns in H. destruct H as (s0 & s0' & G & H).
    apply bind_returns in H. destruct H as (? & s1 & _ & H).
    apply bind_returns in H. destruct H as (r & s2 & _ & H).
    apply bind_returns in H. destruct H as (values & s3 & _ & H).
    apply bind_returns in H. destruct H as (xy & s4 & _ & H).
    apply bind_returns in H. destruct H as (? & s5 & E1 & H).
    apply bind_returns in H. destruct H as (? & s6 & E2 & H).
    apply bind_returns in H. destruct H as (? & s7 & E3 & H).
    unfold ret in H. injection H as <- <-.
    unfold modify in E1, E2. injection E1 as _ <-. injection E2 as _ <-.
    unfold when, print, modify, ret in E3.
    destruct (verbose s0); injection E3 as _ <-; destruct s4; split;
      reflexivity.
Qed.

End CachedSpeed.

(** The stage runs at 200 mm/s on both axes: [get_maxspeed()] reads that
    back and [set_maxspeed()] writes it again, to both axes. *)
Lemma C10_omitted_speed_is_cached_witness :
  exists out,
    (get_maxspeed CPython.py_float CPython.py_round3 ;;
     set_maxspeed CPython.py_str CPython.py_float CPython.py_round3
       None None)
      (bench true false
         [line "@01 0 OK IDLE -- 327680000 327680000";
          line "@01 1 OK IDLE -- 0"; line "@01 2 OK IDLE -- 0";
          line "@01 0 OK IDLE -- 327680000 327680000"]) =
    Return tt
      (says out
         (set_y_mmps 200
            (set_x_mmps 200
               (answered
                  [frame "01" "get maxspeed";
                   frame "01" "1 set maxspeed 327680000.0";
                   frame "01" "2 set maxspeed 327680000.0";
                   frame "01" "get maxspeed"]
                  [] (bench true false []))))).
Proof.
  destruct (proj1 (proj2
              (C10_omitted_speed_is_cached CPython.py_str CPython.py_float
                 CPython.py_round3 None None
                 (line "@01 0 OK IDLE -- 327680000 327680000")
                 (line "@01 1 OK IDLE -- 0") (line "@01 2 OK IDLE -- 0")
                 (line "@01 0 OK IDLE -- 327680000 327680000")
                 "327680000" "327680000" "327680000" "327680000"
                 327680000 327680000 327680000 327680000 []
                 (bench true false
                    [line "@01 0 OK IDLE -- 327680000 327680000";
                     line "@01 1 OK IDLE -- 0"; line "@01 2 OK IDLE -- 0";
                     line "@01 0 OK IDLE -- 327680000 327680000"])))
              eq_refl eq_refl eq_refl eq_refl eq_refl eq_refl eq_refl
              eq_refl eq_refl eq_refl eq_refl eq_refl eq_refl)
    as [out E].
  exists out. rewrite E. vm_compute. reflexivity.
Defined.

(* ================================================================== *)
(** * Startup: warnings and homing *)
(* ================================================================== *)

Lemma _get_warnings_reply (l : string) (rest : list string)
    (self : Controller) :
  rx (port self) = "" ->
  device (port self) = l :: rest ->
  reply self l = true ->
  exists out,
    _get_warnings self =
    Return (payload l)
      (says out (answered [frame (device_address self) "warnings"] rest self)).
Proof.
  unfold _get_warnings.
  destruct self as [nm vb vv ? ? ? ? p ? ? addr ? ? ? ? ? ? ? o].
  intros R D W. run. fields.
  destruct vv; cbv beta iota; fields; send_by _send_reply l rest; assoc;
    eexists; reflexivity.
Qed.

Lemma _home_reply (l idle : string) (busy rest : list string) (fuel : nat)
    (self : Controller) :
  rx (port self) = "" ->
  device (port self) = l :: busy ++ idle :: rest ->
  reply self l = true ->
  payload l = "0 OK BUSY WR 0" ->
  forallb (says_busy self) busy = true ->
  says_idle self idle = true ->
  length busy < fuel ->
  exists out,
    _home fuel self =
    Return tt
      (says out
         (set_moving false
            (answered
               (frame (device_address self) "home"
                :: repeat (frame (device_address self) "") (S (length busy)))
               rest self))).
Proof.
  unfold _home.
  destruct self as [nm vb vv ? ? ? ? [t0 r0 d0] ? ? addr ? ? ? ? ? ? ? o].
  intros R D W P B I F. fields. subst r0 d0. run. fields.
  destruct vb; cbv beta iota; fields;
    send_by _send_reply l (busy ++ idle :: rest); rewrite P;
    change (String.eqb "0 OK BUSY WR 0" "0 OK BUSY WR 0") with true;
    cbv beta iota; fields; wait_by _finish_moving_polls _finish_moving busy idle rest; assoc;
    eexists; reflexivity.
Qed.

Lemma check_warnings_and_home_replies (fuel : nat)
    (status w1 home w2 idle t : string) (busy rest : list string)
    (self : Controller) :
  rx (port self) = "" ->
  device (port self) =
    status :: w1 ::
    home_script (needs_homing (payload w1)) home busy idle ++ w2 :: rest ->
  reply self status = true ->
  state_of status = Some t ->
  reply self w1 = true ->
  reply self w2 = true ->
  (needs_homing (payload w1) = true ->
   reply self home = true /\ payload home = "0 OK BUSY WR 0" /\
   forallb (says_busy self) busy = true /\ says_idle self idle = true /\
   length busy < fuel) ->
  exists out,
    check_warnings_and_home fuel self =
    (if healthy (payload w2) then Return tt
     else Raise (Exception_warnings_not_recognised (payload w2)))
      (says out
         (set_moving
            (if needs_homing (payload w1) then false
             else String.eqb t "BUSY")
            (answered
               ([frame (device_address self) "";
                 frame (device_address self) "warnings"]
                ++ home_commands (needs_homing (payload w1))
                     (device_address self) busy
                ++ [frame (device_address self) "warnings"])
               rest self))).
Proof.
  unfold check_warnings_and_home, needs_homing, healthy, home_script,
    home_commands.
  intros R D Ws T W1 W2 H.
  unfold bind at 1.
  destruct (_get_status_reply status t _ self R D Ws T) as [o1 E1].
  rewrite E1. clear E1.
  destruct self as [nm vb vv ? ? ? ? [t0 r0 d0] ? ? addr ? ? ? ? ? ? ? o].
  fields. subst r0 d0. unfold says, answered. fields. unfold bind at 1.
  match goal with |- context [_get_warnings ?s] =>
    destruct (_get_warnings_reply w1
                ((if String.eqb (payload w1) "0 OK IDLE WR 01 WR"
                  then home :: busy ++ [idle] else []) ++ w2 :: rest) s)
      as [o2 E2]; [reflexivity | reflexivity | assumption | rewrite E2; clear E2]
  end.
  unfold says, answered. fields.
  destruct (String.eqb (payload w1) "0 OK IDLE WR 01 WR").
  - destruct H as (Wh & Ph & B & I & F); [reflexivity|].
    unfold bind at 1. unfold when.
    match goal with |- context [_home fuel ?s] =>
      destruct (_home_reply home idle busy (w2 :: rest) fuel s)
        as [o3 E3];
        [ reflexivity | fields; cbn [app]; rewrite <- app_assoc; reflexivity
        | assumption | assumption | assumption | assumption | assumption
        | rewrite E3; clear E3 ]
    end.
    unfold says, answered. fields. unfold bind at 1.
    match goal with |- context [_get_warnings ?s] =>
      destruct (_get_warnings_reply w2 rest s) as [o4 E4];
        [reflexivity | reflexivity | assumption | rewrite E4; clear E4]
    end.
    unfold says, answered. fields.
    destruct (Py.mem (payload w2) _); cbn [negb]; unfold ret, raise;
      assoc; eexists; reflexivity.
  - unfold bind at 1. unfold when, ret. unfold bind at 1.
    match goal with |- context [_get_warnings ?s] =>
      destruct (_get_warnings_reply w2 rest s) as [o4 E4];
        [reflexivity | reflexivity | assumption | rewrite E4; clear E4]
    end.
    unfold says, answered. fields.
    destruct (Py.mem (payload w2) _); cbn [negb]; unfold ret, raise;
      assoc; eexists; reflexivity.
Qed.

Section Startup.

Variable py_str : float -> string.
Variable py_float : string -> option float.
Variable py_round3 : float -> float.

(** C6. In the startup block that resolves warnings, with a stage that
    answers every command: the [home] command and its wait are written
    exactly when the first warnings reply is [0 OK IDLE WR 01 WR]; the
    warnings are then asked again, and the block raises its exception
    exactly when that second reply is neither [0 OK IDLE -- 00] nor
    [0 OK IDLE NI 01 NI], which makes [__init__] raise it. *)
Theorem C6_warning_resolution (fuel : nat)
    (status w1 home w2 idle t : string) (busy rest : list string)
    (self : Controller) :
  rx (port self) = "" ->
  device (port self) =
    status :: w1 ::
    home_script (needs_homing (payload w1)) home busy idle ++ w2 :: rest ->
  reply self status = true ->
  state_of status = Some t ->
  reply self w1 = true ->
  reply self w2 = true ->
  (needs_homing (payload w1) = true ->
   reply self home = true /\ payload home = "0 OK BUSY WR 0" /\
   forallb (says_busy self) busy = true /\ says_idle self idle = true /\
   length busy < fuel) ->
  (exists out,
     check_warnings_and_home fuel self =
     (if healthy (payload w2) then Return tt
      else Raise (Exception_warnings_not_recognised (payload w2)))
       (says out
          (set_moving
             (if needs_homing (payload w1) then false
              else String.eqb t "BUSY")
             (answered
                ([frame (device_address self) "";
                  frame (device_address self) "warnings"]
                 ++ home_commands (needs_homing (payload w1))
                      (device_address self) busy
                 ++ [frame (device_address self) "warnings"])
                rest self)))) /\
  (needs_homing (payload w1) = true <-> payload w1 = "0 OK IDLE WR 01 WR") /\
  (healthy (payload w2) = true <->
   payload w2 = "0 OK IDLE -- 00" \/ payload w2 = "0 OK IDLE NI 01 NI") /\
  (forall (which_port : option Serial) (name' : string)
          (verbose' very_verbose' : bool)
          (x_limits_mm y_limits_mm maxspeed_mmps : float * float),
     (legalize_axis_limits x_limits_mm y_limits_mm ;;
      open_serial_port which_port ;;
      check_device_id_and_address) (fresh name' verbose' very_verbose')
       = Return tt self ->
     healthy (payload w2) = false ->
     exists self',
       __init__ py_str py_float py_round3 fuel which_port name' verbose'
         very_verbose' x_limits_mm y_limits_mm maxspeed_mmps =
       Raise (Exception_warnings_not_recognised (payload w2)) self').
Proof.
  intros R D Ws T W1 W2 H.
  destruct (check_warnings_and_home_replies fuel status w1 home w2 idle t
              busy rest self R D Ws T W1 W2 H) as [out E].
  split; [exists out; exact E|].
  split; [apply String.eqb_eq|].
  split; [apply mem_two|].
  intros which_port name' verbose' very_verbose' xl yl ms P U.
  rewrite U in E. unfold __init__.
  apply bind_returns in P. destruct P as (? & s1 & P1 & P).
  apply bind_returns in P. destruct P as (? & s2 & P2 & P3).
  rewrite (bind_Return _ _ _ _ _ P1), (bind_Return _ _ _ _ _ P2),
    (bind_Return _ _ _ _ _ P3).
  unfold bind. rewrite E. eexists. reflexivity.
Qed.

End Startup.

(** The stage asks for homing, homes through one busy poll, and reports
    the NI warning afterwards: the block returns with ["home"] written. *)
Lemma C6_warning_resolution_witness :
  exists out,
    check_warnings_and_home 2
      (bench true false
         [line "@01 0 OK IDLE WR 0"; line "@01 0 OK IDLE WR 01 WR";
          line "@01 0 OK BUSY WR 0"; line "@01 0 OK BUSY -- 0";
          line "@01 0 OK IDLE NI 0"; line "@01 0 OK IDLE NI 01 NI"]) =
    Return tt
      (says out
         (answered
            [frame "01" ""; frame "01" "warnings"; frame "01" "home";
             frame "01" ""; frame "01" ""; frame "01" "warnings"] []
            (bench true false
               [line "@01 0 OK IDLE WR 0"; line "@01 0 OK IDLE WR 01 WR";
                line "@01 0 OK BUSY WR 0"; line "@01 0 OK BUSY -- 0";
                line "@01 0 OK IDLE NI 0"; line "@01 0 OK IDLE NI 01 NI"]))).
Proof.
  destruct
    (proj1
       (C6_warning_resolution CPython.py_str CPython.py_float
          CPython.py_round3 2
          (line "@01 0 OK IDLE WR 0") (line "@01 0 OK IDLE WR 01 WR")
          (line "@01 0 OK BUSY WR 0") (line "@01 0 OK IDLE NI 01 NI")
          (line "@01 0 OK IDLE NI 0") "IDLE" [line "@01 0 OK BUSY -- 0"] []
          (bench true false
             [line "@01 0 OK IDLE WR 0"; line "@01 0 OK IDLE WR 01 WR";
              line "@01 0 OK BUSY WR 0"; line "@01 0 OK BUSY -- 0";
              line "@01 0 OK IDLE NI 0"; line "@01 0 OK IDLE NI 01 NI"])
          eq_refl eq_refl eq_refl eq_refl eq_refl eq_refl
          (fun _ => conj eq_refl (conj eq_refl (conj eq_refl (conj eq_refl
                      (le_n 2)))))))
    as [out E].
  exists out. rewrite E. vm_compute. reflexivity.
Defined.

(* ================================================================== *)
(** * A session on the bench *)
(* ================================================================== *)

Example session_runs :
  exists self,
    run_session = Return (65%float, 50%float) self /\
    tx (port self) =
      [("/get device.id" ++ String Py.LF "")%string;
       frame "01" ""; frame "01" "warnings";
       frame "01" "warnings"; frame "01" "1"; frame "01" "2";
       frame "01" "get pos";
       frame "01" "1 set maxspeed 163840000.0";
       frame "01" "2 set maxspeed 163840000.0";
       frame "01" "get maxspeed";
       frame "01" "1 move abs 65000000.0";
       frame "01" "2 move abs 50000000.0";
       frame "01" ""; frame "01" ""; frame "01" "get pos"] /\
    (x_mm self, y_mm self) = (65%float, 50%float) /\
    (_moving self, _moving_x self, _moving_y self) = (false, false, false).
Proof. eexists. vm_compute. repeat split. Qed.

(* ================================================================== *)
(** * What a call does to the object, however it ends *)
(* ================================================================== *)

Section Ends.

Context {R : Controller -> Controller -> Prop}.
Hypothesis R_refl : forall s, R s s.
Hypothesis R_trans : forall a b c, R a b -> R b c -> R a c.

Lemma ends_ret {A} (a : A) (s : Controller) : ends_in R (ret a) s.
Proof. apply R_refl. Qed.

Lemma ends_raise {A} (e : PyError) (s : Controller) :
  ends_in R (@raise A e) s.
Proof. apply R_refl. Qed.

Lemma ends_bind {A B} (m : M A) (k : A -> M B) (s : Controller) :
  ends_in R m s ->
  (forall a s1, R s s1 -> ends_in R (k a) s1) ->
  ends_in R (bind m k) s.
Proof.
  unfold ends_in, bind. intros Hm Hk.
  destruct (m s) as [a s1|e s1|]; auto.
  specialize (Hk a s1 Hm). destruct (k a s1); eauto.
Qed.

Lemma ends_get_bind {B} (k : Controller -> M B) (s : Controller) :
  ends_in R (k s) s -> ends_in R (bind get k) s.
Proof. unfold ends_in, bind, get. auto. Qed.

Lemma ends_modify (f : Controller -> Controller) (s : Controller) :
  R s (f s) -> ends_in R (modify f) s.
Proof. auto. Qed.

Lemma ends_when (b : bool) (m : M unit) (s : Controller) :
  ends_in R m s -> ends_in R (when b m) s.
Proof. destruct b; [auto | intros _; apply ends_ret]. Qed.

Lemma ends_assert (b : bool) (a : Assertion) (s : Controller) :
  ends_in R (assert b a) s.
Proof. destruct b; [apply ends_ret | apply ends_raise]. Qed.

Lemma ends_try {A} (o : option A) (e : PyError) (s : Controller) :
  ends_in R (try o e) s.
Proof. destruct o; [apply ends_ret | apply ends_raise]. Qed.

Lemma ends_decode_ascii (b : string) (s : Controller) :
  ends_in R (decode_ascii b) s.
Proof.
  unfold decode_ascii. destruct (Py.is_ascii b);
    [apply ends_ret | apply ends_raise].
Qed.

Lemma ends_port_in_waiting (s : Controller) : ends_in R port_in_waiting s.
Proof. apply R_refl. Qed.

(** For an [R] that does not look at the console or at the bytes
    received. *)
Hypothesis R_print : forall s o, R s (set_stdout o s).
Hypothesis R_read : forall s p, tx p = tx (port s) -> R s (set_port p s).

Lemma ends_print (m : Msg) (s : Controller) : ends_in R (print m) s.
Proof. apply R_print. Qed.

Lemma ends_port_readline (s : Controller) : ends_in R port_readline s.
Proof.
  unfold ends_in, port_readline, Port.readline.
  destruct (Port.cut_line (rx (port s))). apply R_read. reflexivity.
Qed.

Lemma ends_weaken {A} (Q : Controller -> Controller -> Prop) (m : M A)
    (s : Controller) :
  (forall s', Q s s' -> R s s') -> ends_in Q m s -> ends_in R m s.
Proof. unfold ends_in. intros H. destruct (m s); auto. Qed.

End Ends.

(** ** Commands written and positions kept *)

Lemma same_config_refl (a : Controller) : same_config a a.
Proof. repeat split. Qed.

Lemma same_config_sym (a b : Controller) : same_config a b -> same_config b a.
Proof. unfold same_config. intuition congruence. Qed.

Lemma same_config_trans (a b c : Controller) :
  same_config a b -> same_config b c -> same_config a c.
Proof. unfold same_config. intuition congruence. Qed.

Lemma keeps_legal_same (a b : Controller) :
  same_config a b -> x_mm b = x_mm a -> y_mm b = y_mm a -> keeps_legal a b.
Proof.
  intros C X Y. split; [exact C|].
  unfold x_legal, y_legal. rewrite X, Y.
  destruct C as (_ & _ & _ & -> & -> & -> & -> & _). auto.
Qed.

Lemma keeps_legal_trans (a b c : Controller) :
  keeps_legal a b -> keeps_legal b c -> keeps_legal a c.
Proof.
  intros (C1 & X1 & Y1) (C2 & X2 & Y2).
  split; [eapply same_config_trans; eauto | auto].
Qed.

Section Safely.

Variable ok : Controller -> string -> Prop.
Hypothesis ok_config : by_config ok.

Lemma wrote_refl (a : Controller) : wrote ok a a.
Proof.
  split; [apply same_config_refl|]. exists []. cbn. rewrite app_nil_r. auto.
Qed.

Lemma wrote_trans (a b c : Controller) :
  wrote ok a b -> wrote ok b c -> wrote ok a c.
Proof.
  intros (C1 & l1 & T1 & F1) (C2 & l2 & T2 & F2).
  split; [eapply same_config_trans; eauto|].
  exists (l1 ++ l2). split.
  - rewrite T2, T1, map_app, <- app_assoc.
    replace (device_address b) with (device_address a); [reflexivity|].
    apply C1.
  - apply Forall_app. split; [exact F1|].
    eapply Forall_impl; [|exact F2]. intros cmd.
    apply ok_config. now apply same_config_sym.
Qed.

Lemma wrote_same (a b : Controller) :
  same_config a b -> tx (port b) = tx (port a) -> wrote ok a b.
Proof.
  intros C T. split; [exact C|]. exists []. cbn. rewrite app_nil_r. auto.
Qed.

Lemma safely_refl (a : Controller) : safely ok a a.
Proof.
  split; [apply wrote_refl | apply keeps_legal_same; auto using same_config_refl].
Qed.

Lemma safely_trans (a b c : Controller) :
  safely ok a b -> safely ok b c -> safely ok a c.
Proof.
  intros [W1 K1] [W2 K2].
  split; [eapply wrote_trans | eapply keeps_legal_trans]; eauto.
Qed.

(** A step that keeps configuration, commands written and positions. *)
Lemma safely_same (a b : Controller) :
  same_config a b -> tx (port b) = tx (port a) ->
  x_mm b = x_mm a -> y_mm b = y_mm a -> safely ok a b.
Proof.
  intros. split; [now apply wrote_same | now apply keeps_legal_same].
Qed.

Lemma safely_print (s : Controller) (o : list Msg) :
  safely ok s (set_stdout o s).
Proof. destruct s. apply safely_same; repeat split. Qed.

Lemma safely_read (s : Controller) (p : Serial) :
  tx p = tx (port s) -> safely ok s (set_port p s).
Proof. destruct s. intros T. apply safely_same; repeat split. exact T. Qed.

Lemma safely_set_moving (b : bool) (s : Controller) :
  safely ok s (set_moving b s).
Proof. destruct s. apply safely_same; repeat split. Qed.

Lemma safely_set_moving_x (b : bool) (s : Controller) :
  safely ok s (set_moving_x b s).
Proof. destruct s. apply safely_same; repeat split. Qed.

Lemma safely_set_moving_y (b : bool) (s : Controller) :
  safely ok s (set_moving_y b s).
Proof. destruct s. apply safely_same; repeat split. Qed.

Lemma safely_set_x_mmps (v : float) (s : Controller) :
  safely ok s (set_x_mmps v s).
Proof. destruct s. apply safely_same; repeat split. Qed.

Lemma safely_set_y_mmps (v : float) (s : Controller) :
  safely ok s (set_y_mmps v s).
Proof. destruct s. apply safely_same; repeat split. Qed.

(** Caching a position within the limits of its axis. *)
Lemma safely_set_x_mm (t : float) (s : Controller) :
  within (x_min_mm s) t (x_max_mm s) = true -> safely ok s (set_x_mm t s).
Proof.
  destruct s. intros L. split.
  - apply wrote_same; repeat split.
  - split; [repeat split|]. split; intros H; [exact L | exact H].
Qed.

Lemma safely_set_y_mm (t : float) (s : Controller) :
  within (y_min_mm s) t (y_max_mm s) = true -> safely ok s (set_y_mm t s).
Proof.
  destruct s. intros L. split.
  - apply wrote_same; repeat split.
  - split; [repeat split|]. split; intros H; [exact H | exact L].
Qed.

(** Writing an allowed command, framed with the address read at [a]. *)
Lemma safely_write (a s : Controller) (cmd : string) :
  safely ok a s -> ok a cmd ->
  safely ok s
    (set_port (Port.write (frame (device_address a) cmd) (port s)) s).
Proof.
  intros [[C _] _] O. split.
  - split; [destruct s; repeat split|].
    exists [cmd]. split.
    + cbn [map]. replace (device_address s) with (device_address a)
        by apply C.
      destruct s as [? ? ? ? ? ? ? p ? ? ? ? ? ? ? ? ? ? ?]. cbn.
      unfold Port.write. destruct (device p); reflexivity.
    + constructor; [|constructor]. now apply (ok_config a s).
  - destruct s. apply keeps_legal_same; repeat split.
Qed.

End Safely.

Section Footprints.

Variable ok : Controller -> string -> Prop.
Hypothesis ok_config : by_config ok.

Lemma safely_port_write (a s : Controller) (cmd : string) :
  safely ok a s -> ok a cmd ->
  ends_in (safely ok) (port_write (frame (device_address a) cmd)) s.
Proof. intros H O. now apply safely_write. Qed.

Lemma ok_later (a s : Controller) (cmd : string) :
  safely ok a s -> ok a cmd -> ok s cmd.
Proof. intros [[C _] _]. now apply ok_config. Qed.

#[local] Hint Resolve ends_ret ends_raise ends_assert ends_try
  ends_decode_ascii ends_port_in_waiting ends_print ends_port_readline
  ends_modify safely_refl safely_trans safely_print safely_read
  safely_set_moving safely_set_moving_x safely_set_moving_y
  safely_set_x_mmps safely_set_y_mmps safely_port_write ok_later : ends.

Lemma safely_send (cmd response_type : string) (s : Controller) :
  ok s cmd -> ends_in (safely ok) (_send cmd response_type) s.
Proof.
  intros O. unfold _send, when.
  chain (@ends_get_bind (safely ok))
        (@ends_bind (safely ok) (safely_trans ok ok_config));
    eauto 6 with ends.
Qed.

#[local] Hint Resolve safely_send : ends.

Lemma safely_get_status (s : Controller) :
  ok s "" -> ends_in (safely ok) _get_status s.
Proof.
  intros O. unfold _get_status, when.
  chain (@ends_get_bind (safely ok))
        (@ends_bind (safely ok) (safely_trans ok ok_config));
    eauto 6 with ends.
Qed.

Lemma safely_get_warnings (s : Controller) :
  ok s "warnings" -> ends_in (safely ok) _get_warnings s.
Proof.
  intros O. unfold _get_warnings, when.
  chain (@ends_get_bind (safely ok))
        (@ends_bind (safely ok) (safely_trans ok ok_config));
    eauto 6 with ends.
Qed.

Lemma safely_get_status_x (s : Controller) :
  ok s "1" -> ends_in (safely ok) _get_status_x s.
Proof.
  intros O. unfold _get_status_x, when.
  chain (@ends_get_bind (safely ok))
        (@ends_bind (safely ok) (safely_trans ok ok_config));
    eauto 6 with ends.
Qed.

Lemma safely_get_status_y (s : Controller) :
  ok s "2" -> ends_in (safely ok) _get_status_y s.
Proof.
  intros O. unfold _get_status_y, when.
  chain (@ends_get_bind (safely ok))
        (@ends_bind (safely ok) (safely_trans ok ok_config));
    eauto 6 with ends.
Qed.

#[local] Hint Resolve safely_get_status safely_get_warnings
  safely_get_status_x safely_get_status_y : ends.

Lemma safely_finish_moving (fuel : nat) :
  forall s, ok s "" -> ends_in (safely ok) (_finish_moving fuel) s.
Proof.
  induction fuel as [|fuel IH]; intros s O; unfold ends_in;
    cbn [_finish_moving]; destruct (_moving s).
  - exact I.
  - apply (ends_when (safely_refl ok)). eauto with ends.
  - apply (ends_bind (safely_trans ok ok_config)); eauto with ends.
  - apply (ends_when (safely_refl ok)). eauto with ends.
Qed.

Lemma safely_finish_moving_x (fuel : nat) :
  forall s, ok s "1" -> ends_in (safely ok) (_finish_moving_x fuel) s.
Proof.
  induction fuel as [|fuel IH]; intros s O; unfold ends_in;
    cbn [_finish_moving_x]; destruct (_moving_x s).
  - exact I.
  - apply (ends_when (safely_refl ok)). eauto with ends.
  - apply (ends_bind (safely_trans ok ok_config)); eauto with ends.
  - apply (ends_when (safely_refl ok)). eauto with ends.
Qed.

Lemma safely_finish_moving_y (fuel : nat) :
  forall s, ok s "2" -> ends_in (safely ok) (_finish_moving_y fuel) s.
Proof.
  induction fuel as [|fuel IH]; intros s O; unfold ends_in;
    cbn [_finish_moving_y]; destruct (_moving_y s).
  - exact I.
  - apply (ends_when (safely_refl ok)). eauto with ends.
  - apply (ends_bind (safely_trans ok ok_config)); eauto with ends.
  - apply (ends_when (safely_refl ok)). eauto with ends.
Qed.

#[local] Hint Resolve safely_finish_moving safely_finish_moving_x
  safely_finish_moving_y : ends.

Lemma safely_home (fuel : nat) (s : Controller) :
  ok s "home" -> ok s "" -> ends_in (safely ok) (_home fuel) s.
Proof.
  intros O1 O2. unfold _home, when.
  chain (@ends_get_bind (safely ok))
        (@ends_bind (safely ok) (safely_trans ok ok_config));
    eauto 8 with ends.
Qed.

Lemma safely_stop_x (s : Controller) :
  ok s "1 stop" -> ends_in (safely ok) _stop_x s.
Proof.
  intros O. unfold _stop_x, when.
  chain (@ends_get_bind (safely ok))
        (@ends_bind (safely ok) (safely_trans ok ok_config));
    eauto 6 with ends.
Qed.

Lemma safely_stop_y (s : Controller) :
  ok s "2 stop" -> ends_in (safely ok) _stop_y s.
Proof.
  intros O. unfold _stop_y, when.
  chain (@ends_get_bind (safely ok))
        (@ends_bind (safely ok) (safely_trans ok ok_config));
    eauto 6 with ends.
Qed.

Lemma limits_later (a b : Controller) :
  safely ok a b ->
  x_min_mm b = x_min_mm a /\ x_max_mm b = x_max_mm a /\
  y_min_mm b = y_min_mm a /\ y_max_mm b = y_max_mm a.
Proof.
  intros [[C _] _]. unfold same_config in C. intuition congruence.
Qed.

#[local] Hint Resolve safely_send safely_get_status safely_get_warnings
  safely_get_status_x safely_get_status_y safely_finish_moving
  safely_finish_moving_x safely_finish_moving_y : ends.

Lemma safely_move_x (py_str : float -> string) (fuel : nat) (v : float)
    (relative block : bool) (s : Controller) :
  ok s "1" ->
  (forall t, within (x_min_mm s) t (x_max_mm s) = true ->
             ok s ("1 move abs " ++ py_str (1e6 * t)%float)) ->
  ends_in (safely ok) (_move_x py_str fuel v relative block) s.
Proof.
  intros O M. unfold _move_x, when.
  apply ends_get_bind.
  apply (ends_bind (safely_trans ok ok_config));
    [destruct (_moving_x s); eauto with ends | intros ? s1 H1].
  apply (ends_bind (safely_trans ok ok_config));
    [destruct (very_verbose s); eauto with ends | intros ? s2 H2].
  apply ends_get_bind. cbv zeta.
  pose proof (safely_trans ok ok_config _ _ _ H1 H2) as H.
  destruct (limits_later _ _ H) as (Lx0 & Lx1 & Ly0 & Ly1).
  match goal with |- context [negb ?b] => destruct b eqn:L end; cbn [negb].
  - rewrite ?Lx0, ?Lx1, ?Ly0, ?Ly1 in L.
    apply (ends_bind (safely_trans ok ok_config));
      [apply safely_send; eauto with ends | intros ? s3 H3].
    apply (ends_bind (safely_trans ok ok_config));
      [eauto with ends | intros ? s4 H4].
    pose proof (safely_trans ok ok_config _ _ _ H3 H4) as H34.
    pose proof (safely_trans ok ok_config _ _ _ H H34) as H04.
    destruct (limits_later _ _ H04) as (Kx0 & Kx1 & Ky0 & Ky1).
    apply (ends_bind (safely_trans ok ok_config)).
    + apply (ends_modify (R := safely ok)). apply safely_set_x_mm.
      rewrite Kx0, Kx1. exact L.
    + intros ? s5 H5.
      pose proof (safely_trans ok ok_config _ _ _ H04 H5) as H05.
      destruct block; eauto with ends.
  - destruct (verbose s2); eauto with ends.
Qed.

Lemma safely_move_y (py_str : float -> string) (fuel : nat) (v : float)
    (relative block : bool) (s : Controller) :
  ok s "2" ->
  (forall t, within (y_min_mm s) t (y_max_mm s) = true ->
             ok s ("2 move abs " ++ py_str (1e6 * t)%float)) ->
  ends_in (safely ok) (_move_y py_str fuel v relative block) s.
Proof.
  intros O M. unfold _move_y, when.
  apply ends_get_bind.
  apply (ends_bind (safely_trans ok ok_config));
    [destruct (_moving_y s); eauto with ends | intros ? s1 H1].
  apply (ends_bind (safely_trans ok ok_config));
    [destruct (very_verbose s); eauto with ends | intros ? s2 H2].
  apply ends_get_bind. cbv zeta.
  pose proof (safely_trans ok ok_config _ _ _ H1 H2) as H.
  destruct (limits_later _ _ H) as (Lx0 & Lx1 & Ly0 & Ly1).
  match goal with |- context [negb ?b] => destruct b eqn:L end; cbn [negb].
  - rewrite ?Lx0, ?Lx1, ?Ly0, ?Ly1 in L.
    apply (ends_bind (safely_trans ok ok_config));
      [apply safely_send; eauto with ends | intros ? s3 H3].
    apply (ends_bind (safely_trans ok ok_config));
      [eauto with ends | intros ? s4 H4].
    pose proof (safely_trans ok ok_config _ _ _ H3 H4) as H34.
    pose proof (safely_trans ok ok_config _ _ _ H H34) as H04.
    destruct (limits_later _ _ H04) as (Kx0 & Kx1 & Ky0 & Ky1).
    apply (ends_bind (safely_trans ok ok_config)).
    + apply (ends_modify (R := safely ok)). apply safely_set_y_mm.
      rewrite Ky0, Ky1. exact L.
    + intros ? s5 H5.
      pose proof (safely_trans ok ok_config _ _ _ H04 H5) as H05.
      destruct block; eauto with ends.
  - destruct (verbose s2); eauto with ends.
Qed.

Lemma safely_move_mm (py_str : float -> string) (fuel : nat) (x y : float)
    (relative block : bool) (s : Controller) :
  ok s "1" -> ok s "2" -> ok s "" ->
  (forall t, within (x_min_mm s) t (x_max_mm s) = true ->
             ok s ("1 move abs " ++ py_str (1e6 * t)%float)) ->
  (forall t, within (y_min_mm s) t (y_max_mm s) = true ->
             ok s ("2 move abs " ++ py_str (1e6 * t)%float)) ->
  ends_in (safely ok) (move_mm py_str fuel x y relative block) s.
Proof.
  intros O1 O2 O0 Mx My. unfold move_mm, when.
  apply ends_get_bind.
  apply (ends_bind (safely_trans ok ok_config)).
  { destruct (verbose s); [|eauto with ends].
    apply (ends_bind (safely_trans ok ok_config)); eauto with ends. }
  intros ? s1 H1.
  destruct (limits_later _ _ H1) as (Lx0 & Lx1 & Ly0 & Ly1).
  apply (ends_bind (safely_trans ok ok_config)).
  { apply safely_move_x; [eauto with ends|].
    intros t. rewrite Lx0, Lx1. eauto with ends. }
  intros ? s2 H2.
  pose proof (safely_trans ok ok_config _ _ _ H1 H2) as H02.
  destruct (limits_later _ _ H02) as (Kx0 & Kx1 & Ky0 & Ky1).
  apply (ends_bind (safely_trans ok ok_config)).
  { apply safely_move_y; [eauto with ends|].
    intros t. rewrite Ky0, Ky1. eauto with ends. }
  intros ? s3 H3.
  pose proof (safely_trans ok ok_config _ _ _ H02 H3) as H03.
  apply (ends_bind (safely_trans ok ok_config)); [eauto with ends|].
  intros ? s4 H4.
  pose proof (safely_trans ok ok_config _ _ _ H03 H4) as H04.
  destruct block; [|eauto with ends].
  apply (ends_bind (safely_trans ok ok_config)); [eauto with ends|].
  intros ? s5 H5.
  apply (ends_bind (safely_trans ok ok_config)); eauto with ends.
Qed.

Lemma safely_floats_of (py_float : string -> option float)
    (f : float -> float) (fields : list string) :
  forall s, ends_in (safely ok) (floats_of py_float f fields) s.
Proof.
  induction fields as [|p rest IH]; intros s; cbn [floats_of].
  - eauto with ends.
  - apply (ends_bind (safely_trans ok ok_config)); [eauto with ends|].
    intros v s1 _.
    apply (ends_bind (safely_trans ok ok_config)); eauto with ends.
Qed.

Lemma safely_unpack2 (values : list float) (s : Controller) :
  ends_in (safely ok) (unpack2 values) s.
Proof.
  destruct values as [|a [|b [|c rest]]]; cbn [unpack2]; eauto with ends.
Qed.

#[local] Hint Resolve safely_floats_of safely_unpack2 : ends.

Lemma safely_get_maxspeed (py_float : string -> option float)
    (py_round3 : float -> float) (s : Controller) :
  ok s "get maxspeed" ->
  ends_in (safely ok) (get_maxspeed py_float py_round3) s.
Proof.
  intros O. unfold get_maxspeed, when.
  chain (@ends_get_bind (safely ok))
        (@ends_bind (safely ok) (safely_trans ok ok_config));
    eauto 6 with ends.
Qed.

Lemma ends_assert_bind {B} (R : Controller -> Controller -> Prop)
    (b : bool) (a : Assertion) (k : unit -> M B) (s : Controller) :
  R s s -> (b = true -> ends_in R (k tt) s) ->
  ends_in R (bind (assert b a) k) s.
Proof.
  intros Hr Hk. unfold ends_in, bind, assert. destruct b; cbn.
  - now apply Hk.
  - exact Hr.
Qed.

Lemma safely_set_maxspeed (py_str : float -> string)
    (py_float : string -> option float) (py_round3 : float -> float)
    (x y : option float) (s : Controller) :
  ok s "get maxspeed" ->
  (forall v, within 0.01 v 750 = true ->
             ok s ("1 set maxspeed " ++ py_str (wire_of_speed v)) /\
             ok s ("2 set maxspeed " ++ py_str (wire_of_speed v))) ->
  ends_in (safely ok) (set_maxspeed py_str py_float py_round3 x y) s.
Proof.
  intros O V. unfold set_maxspeed, when.
  apply ends_get_bind. cbv zeta.
  apply (ends_bind (safely_trans ok ok_config)).
  { destruct (verbose s); [|eauto with ends].
    apply (ends_bind (safely_trans ok ok_config)); eauto with ends. }
  intros ? s1 H1.
  apply ends_assert_bind; [apply safely_refl|]. intros E.
  apply andb_prop in E. destruct E as [Ex Ey].
  apply (ends_bind (safely_trans ok ok_config)).
  { apply safely_send. apply (ok_later _ _ _ H1). now apply V. }
  intros ? s2 H2.
  pose proof (safely_trans ok ok_config _ _ _ H1 H2) as H02.
  apply (ends_bind (safely_trans ok ok_config)).
  { apply safely_send. apply (ok_later _ _ _ H02). now apply V. }
  intros ? s3 H3.
  pose proof (safely_trans ok ok_config _ _ _ H02 H3) as H03.
  apply (ends_bind (safely_trans ok ok_config)).
  { apply safely_get_maxspeed. eauto with ends. }
  intros ? s4 H4.
  apply (ends_bind (safely_trans ok ok_config)); [eauto with ends|].
  intros ? s5 H5. destruct (verbose s); eauto with ends.
Qed.

End Footprints.

Section Written.

Variable ok : Controller -> string -> Prop.
Hypothesis ok_config : by_config ok.

Lemma wrote_print (s : Controller) (o : list Msg) :
  wrote ok s (set_stdout o s).
Proof. destruct s. apply wrote_same; repeat split. Qed.

Lemma wrote_read (s : Controller) (p : Serial) :
  tx p = tx (port s) -> wrote ok s (set_port p s).
Proof. destruct s. intros T. apply wrote_same; [repeat split | exact T]. Qed.

Lemma wrote_set_x_mm (v : float) (s : Controller) :
  wrote ok s (set_x_mm v s).
Proof. destruct s. apply wrote_same; repeat split. Qed.

Lemma wrote_set_y_mm (v : float) (s : Controller) :
  wrote ok s (set_y_mm v s).
Proof. destruct s. apply wrote_same; repeat split. Qed.

Lemma wrote_later (a s : Controller) (cmd : string) :
  wrote ok a s -> ok a cmd -> ok s cmd.
Proof. intros [C _]. now apply ok_config. Qed.

Lemma wrote_send (cmd response_type : string) (s : Controller) :
  ok s cmd -> ends_in (wrote ok) (_send cmd response_type) s.
Proof.
  intros O. apply (ends_weaken (safely ok)); [intros s' H; apply H|].
  now apply safely_send.
Qed.

#[local] Hint Resolve ends_ret ends_raise ends_assert ends_try ends_print
  ends_modify wrote_refl wrote_trans wrote_print wrote_read wrote_set_x_mm
  wrote_set_y_mm wrote_later wrote_send : ends.

Lemma wrote_floats_of (py_float : string -> option float)
    (f : float -> float) (fields : list string) :
  forall s, ends_in (wrote ok) (floats_of py_float f fields) s.
Proof.
  induction fields as [|p rest IH]; intros s; cbn [floats_of].
  - eauto with ends.
  - apply (ends_bind (wrote_trans ok ok_config)); [eauto with ends|].
    intros v s1 _.
    apply (ends_bind (wrote_trans ok ok_config)); eauto with ends.
Qed.

Lemma wrote_unpack2 (values : list float) (s : Controller) :
  ends_in (wrote ok) (unpack2 values) s.
Proof.
  destruct values as [|a [|b [|c rest]]]; cbn [unpack2]; eauto with ends.
Qed.

#[local] Hint Resolve wrote_floats_of wrote_unpack2 : ends.

Lemma wrote_get_position_mm (py_float : string -> option float)
    (s : Controller) :
  ok s "get pos" -> ends_in (wrote ok) (get_position_mm py_float) s.
Proof.
  intros O. unfold get_position_mm, when.
  chain (@ends_get_bind (wrote ok))
        (@ends_bind (wrote ok) (wrote_trans ok ok_config));
    eauto 6 with ends.
Qed.

Lemma wrote_get_position_x (py_float : string -> option float)
    (s : Controller) :
  ok s "1 get pos" -> ends_in (wrote ok) (_get_position_x py_float) s.
Proof.
  intros O. unfold _get_position_x, when.
  chain (@ends_get_bind (wrote ok))
        (@ends_bind (wrote ok) (wrote_trans ok ok_config));
    eauto 6 with ends.
Qed.

Lemma wrote_get_position_y (py_float : string -> option float)
    (s : Controller) :
  ok s "2 get pos" -> ends_in (wrote ok) (_get_position_y py_float) s.
Proof.
  intros O. unfold _get_position_y, when.
  chain (@ends_get_bind (wrote ok))
        (@ends_bind (wrote ok) (wrote_trans ok ok_config));
    eauto 6 with ends.
Qed.

End Written.

Lemma only_by_config (cmd : string) : by_config (only cmd).
Proof. intros a b c _ H. exact H. Qed.

Lemma either_by_config (p q : Controller -> string -> Prop) :
  by_config p -> by_config q -> by_config (either p q).
Proof. intros P Q a b c C [H|H]; [left; eapply P | right; eapply Q]; eauto. Qed.

Lemma x_commands_by_config (py_str : float -> string) :
  by_config (x_commands py_str).
Proof.
  intros a b c C. unfold x_commands.
  destruct C as (_ & _ & _ & -> & -> & _). auto.
Qed.

Lemma y_commands_by_config (py_str : float -> string) :
  by_config (y_commands py_str).
Proof.
  intros a b c C. unfold y_commands.
  destruct C as (_ & _ & _ & _ & _ & -> & -> & _). auto.
Qed.

Lemma speed_commands_by_config (py_str : float -> string) :
  by_config (speed_commands py_str).
Proof. intros a b c _ H. exact H. Qed.

(** X1. Whatever the stage answers and however the call ends, a status
    poll, a warnings query, a wait loop, a stop and the homing sequence
    keep the configuration and the cached positions within their limits,
    and write nothing but their own command: the status query of their
    axis, [warnings], [N stop], and for homing [home] and combined status
    polls. *)
Theorem X1_status_calls_write_their_command :
  always (safely (only "")) _get_status /\
  always (safely (only "warnings")) _get_warnings /\
  always (safely (only "1")) _get_status_x /\
  always (safely (only "2")) _get_status_y /\
  (forall fuel, always (safely (only "")) (_finish_moving fuel)) /\
  (forall fuel, always (safely (only "1")) (_finish_moving_x fuel)) /\
  (forall fuel, always (safely (only "2")) (_finish_moving_y fuel)) /\
  always (safely (only "1 stop")) _stop_x /\
  always (safely (only "2 stop")) _stop_y /\
  (forall fuel,
     always (safely (either (only "home") (only ""))) (_home fuel)).
Proof.
  repeat match goal with |- _ /\ _ => split end; unfold always; intros.
  - apply safely_get_status; [apply only_by_config | reflexivity].
  - apply safely_get_warnings; [apply only_by_config | reflexivity].
  - apply safely_get_status_x; [apply only_by_config | reflexivity].
  - apply safely_get_status_y; [apply only_by_config | reflexivity].
  - apply safely_finish_moving; [apply only_by_config | reflexivity].
  - apply safely_finish_moving_x; [apply only_by_config | reflexivity].
  - apply safely_finish_moving_y; [apply only_by_config | reflexivity].
  - apply safely_stop_x; [apply only_by_config | reflexivity].
  - apply safely_stop_y; [apply only_by_config | reflexivity].
  - apply safely_home;
      [ apply either_by_config; apply only_by_config
      | left; reflexivity | right; reflexivity ].
Qed.

Section FootprintClaims.

Variable py_str : float -> string.
Variable py_float : string -> option float.
Variable py_round3 : float -> float.

(** X2. However they end, the position queries keep the configuration
    and write only [get pos], [1 get pos] or [2 get pos], and
    [get_maxspeed] writes only [get maxspeed] and leaves the cached
    positions as they are within their limits. *)
Theorem X2_reads_write_their_query :
  always (wrote (only "get pos")) (get_position_mm py_float) /\
  always (wrote (only "1 get pos")) (_get_position_x py_float) /\
  always (wrote (only "2 get pos")) (_get_position_y py_float) /\
  always (safely (only "get maxspeed")) (get_maxspeed py_float py_round3).
Proof.
  repeat match goal with |- _ /\ _ => split end; intros s.
  - apply wrote_get_position_mm; [apply only_by_config | reflexivity].
  - apply wrote_get_position_x; [apply only_by_config | reflexivity].
  - apply wrote_get_position_y; [apply only_by_config | reflexivity].
  - apply safely_get_maxspeed; [apply only_by_config | reflexivity].
Qed.

(** X3. Whatever the stage answers and however the call ends, a move
    writes only status polls and [move abs] commands whose target is
    within the limits of its axis, keeps the configuration, and leaves a
    cached position that was within its limits within them.  [_move_x]
    writes for x only, [_move_y] for y only, [move_mm] for both and the
    combined status. *)
Theorem X3_moves_stay_within_limits (fuel : nat) (x y : float)
    (relative block : bool) :
  always (safely (x_commands py_str))
         (_move_x py_str fuel x relative block) /\
  always (safely (y_commands py_str))
         (_move_y py_str fuel y relative block) /\
  always (safely (either (either (x_commands py_str) (y_commands py_str))
                         (only "")))
         (move_mm py_str fuel x y relative block).
Proof.
  repeat match goal with |- _ /\ _ => split end; intros s.
  - apply safely_move_x; [apply x_commands_by_config | left; reflexivity|].
    intros t L. right. exists t. split; [exact L | reflexivity].
  - apply safely_move_y; [apply y_commands_by_config | left; reflexivity|].
    intros t L. right. exists t. split; [exact L | reflexivity].
  - apply safely_move_mm.
    + apply either_by_config; [apply either_by_config|];
        [ apply x_commands_by_config | apply y_commands_by_config
        | apply only_by_config ].
    + left; left; left; reflexivity.
    + left; right; left; reflexivity.
    + right; reflexivity.
    + intros t L. left; left; right. exists t.
      split; [exact L | reflexivity].
    + intros t L. left; right; right. exists t.
      split; [exact L | reflexivity].
Qed.

End FootprintClaims.

(* ================================================================== *)
(** * Exchanges that fail *)
(* ================================================================== *)

(** X5. A call of [_send], whether it returns or raises, has written
    exactly one command line, the framed command, and has changed nothing
    of the object but the port and the console; it never waits in a
    loop. *)
Theorem X5_send_writes_one_line (cmd response_type : string)
    (self : Controller) :
  tx (snd (exchanged cmd self)) =
    tx (port self) ++ [frame (device_address self) cmd] /\
  exists out,
    match _send cmd response_type self with
    | Return _ self' | Raise _ self' =>
        self' = says out (set_port (snd (exchanged cmd self)) self)
    | OutOfFuel => False
    end.
Proof.
  split; [apply exchanged_tx|].
  rewrite _send_eq. unfold decode, after_io, says.
  destruct self as [nm vb vv ? ? ? ? p ? ? addr ? ? ? ? ? ? ? o]. fields.
  destruct (negb (Py.endswith _ _)); [eexists; reflexivity|].
  destruct (negb (Py.is_ascii _)); [eexists; reflexivity|].
  destruct (String.get 0 _) as [c|]; [|eexists; reflexivity].
  destruct (lookup _ _) as [e|]; [|eexists; reflexivity].
  destruct (negb (Ascii.eqb c e)); [eexists; reflexivity|].
  destruct (negb (String.eqb _ addr)); [eexists; reflexivity|].
  cbv zeta. fields.
  destruct vb.
  - destruct (status_of _) as [st|]; [|eexists; reflexivity].
    destruct (negb (String.eqb st "OK")); fields;
      destruct (Nat.eqb _ 0); assoc; eexists; reflexivity.
  - destruct (Nat.eqb _ 0); eexists; reflexivity.
Qed.

Lemma _send_silent (cmd response_type : string) (self : Controller) :
  rx (port self) = "" ->
  device (port self) = [] ->
  _send cmd response_type self =
  Raise (AssertionError unexpected_response_terminator) (after_io cmd self).
Proof.
  intros R D. rewrite _send_eq.
  assert (E : received cmd self = "").
  { unfold received, exchanged, Port.write, Port.readline.
    rewrite D. cbn [rx]. rewrite R. reflexivity. }
  rewrite E. reflexivity.
Qed.

(** X6. A stage that has gone silent (nothing buffered, nothing more to
    come) cannot hang the controller: the read times out with an empty
    line, so [_send] raises its terminator assertion, and a wait loop
    entered with its flag set raises it on its first poll. *)
Theorem X6_silent_stage_raises (cmd response_type : string) (fuel : nat)
    (self : Controller) :
  rx (port self) = "" ->
  device (port self) = [] ->
  _send cmd response_type self =
    Raise (AssertionError unexpected_response_terminator)
          (after_io cmd self) /\
  (_moving self = true ->
   exists self',
     _finish_moving (S fuel) self =
     Raise (AssertionError unexpected_response_terminator) self') /\
  (_moving_x self = true ->
   exists self',
     _finish_moving_x (S fuel) self =
     Raise (AssertionError unexpected_response_terminator) self') /\
  (_moving_y self = true ->
   exists self',
     _finish_moving_y (S fuel) self =
     Raise (AssertionError unexpected_response_terminator) self').
Proof.
  intros R D. split; [now apply _send_silent|].
  repeat split; intros Mv.
  - cbn [_finish_moving]. rewrite Mv. unfold _get_status.
    destruct self as [nm vb vv ? ? ? ? [t0 r0 d0] ? ? addr ? ? ? ? ? ? ? o].
    fields. subst. run. fields.
    destruct vv; cbv beta iota; fields;
      (rewrite _send_silent by reflexivity); eexists; reflexivity.
  - cbn [_finish_moving_x]. rewrite Mv. unfold _get_status_x.
    destruct self as [nm vb vv ? ? ? ? [t0 r0 d0] ? ? addr ? ? ? ? ? ? ? o].
    fields. subst. run. fields.
    destruct vv; cbv beta iota; fields;
      (rewrite _send_silent by reflexivity); eexists; reflexivity.
  - cbn [_finish_moving_y]. rewrite Mv. unfold _get_status_y.
    destruct self as [nm vb vv ? ? ? ? [t0 r0 d0] ? ? addr ? ? ? ? ? ? ? o].
    fields. subst. run. fields.
    destruct vv; cbv beta iota; fields;
      (rewrite _send_silent by reflexivity); eexists; reflexivity.
Qed.

(** A controller that waits for x on a line that has gone dead. *)
Lemma X6_silent_stage_raises_witness :
  exists self',
    _finish_moving_x 1 (set_moving_x true (bench true false [])) =
    Raise (AssertionError unexpected_response_terminator) self'.
Proof.
  apply (X6_silent_stage_raises "" "reply" 0
           (set_moving_x true (bench true false [])));
    reflexivity.
Defined.

(* ================================================================== *)
(** * What a call leaves alone *)
(* ================================================================== *)

Lemma keeps_refl {T} (f : Controller -> T) (s : Controller) : keeps f s s.
Proof. reflexivity. Qed.

Lemma keeps_trans {T} (f : Controller -> T) (a b c : Controller) :
  keeps f a b -> keeps f b c -> keeps f a c.
Proof. unfold keeps. congruence. Qed.

Lemma ends_in_returns {A} (R : Controller -> Controller -> Prop) (m : M A)
    (a : A) (s s' : Controller) :
  ends_in R m s -> m s = Return a s' -> R s s'.
Proof. unfold ends_in. intros H E. now rewrite E in H. Qed.

Section Keeps.

Context {T : Type} (f : Controller -> T).

(** What [f] may be asked not to look at. *)
Hypothesis f_stdout : forall o s, keeps f s (set_stdout o s).
Hypothesis f_port : forall p s, keeps f s (set_port p s).
Hypothesis f_moving : forall b s, keeps f s (set_moving b s).
Hypothesis f_moving_x : forall b s, keeps f s (set_moving_x b s).
Hypothesis f_moving_y : forall b s, keeps f s (set_moving_y b s).
Hypothesis f_x_mm : forall v s, keeps f s (set_x_mm v s).
Hypothesis f_y_mm : forall v s, keeps f s (set_y_mm v s).
Hypothesis f_x_mmps : forall v s, keeps f s (set_x_mmps v s).
Hypothesis f_y_mmps : forall v s, keeps f s (set_y_mmps v s).

Lemma keeps_stdout (s : Controller) (o : list Msg) :
  keeps f s (set_stdout o s).
Proof. apply f_stdout. Qed.

Lemma keeps_read (s : Controller) (p : Serial) :
  tx p = tx (port s) -> keeps f s (set_port p s).
Proof. intros _. apply f_port. Qed.

Lemma keeps_port_write (c : string) (s : Controller) :
  ends_in (keeps f) (port_write c) s.
Proof. apply f_port. Qed.

#[local] Hint Resolve ends_ret ends_raise ends_assert ends_try
  ends_decode_ascii ends_port_in_waiting ends_print ends_port_readline
  ends_modify keeps_refl keeps_trans keeps_stdout keeps_read
  keeps_port_write : ends.

Ltac keeps_chain :=
  chain (@ends_get_bind (keeps f)) (@ends_bind (keeps f) (keeps_trans f));
  eauto 6 with ends.

Lemma keeps_send (cmd response_type : string) (s : Controller) :
  ends_in (keeps f) (_send cmd response_type) s.
Proof. unfold _send, when. keeps_chain. Qed.

#[local] Hint Resolve keeps_send : ends.

Lemma keeps_get_warnings (s : Controller) : ends_in (keeps f) _get_warnings s.
Proof. unfold _get_warnings, when. keeps_chain. Qed.

Lemma keeps_stop_x (s : Controller) : ends_in (keeps f) _stop_x s.
Proof. unfold _stop_x, when. keeps_chain. Qed.

Lemma keeps_stop_y (s : Controller) : ends_in (keeps f) _stop_y s.
Proof. unfold _stop_y, when. keeps_chain. Qed.

Lemma keeps_floats_of (py_float : string -> option float)
    (g : float -> float) (fields : list string) :
  forall s, ends_in (keeps f) (floats_of py_float g fields) s.
Proof.
  induction fields as [|p rest IH]; intros s; cbn [floats_of].
  - eauto with ends.
  - apply (ends_bind (keeps_trans f)); [eauto with ends|].
    intros v s1 _.
    apply (ends_bind (keeps_trans f)); eauto with ends.
Qed.

Lemma keeps_unpack2 (values : list float) (s : Controller) :
  ends_in (keeps f) (unpack2 values) s.
Proof.
  destruct values as [|a [|b [|c rest]]]; cbn [unpack2]; eauto with ends.
Qed.

#[local] Hint Resolve keeps_floats_of keeps_unpack2 : ends.

Lemma keeps_get_status (s : Controller) : ends_in (keeps f) _get_status s.
Proof. unfold _get_status, when. keeps_chain. Qed.

Lemma keeps_get_status_x (s : Controller) : ends_in (keeps f) _get_status_x s.
Proof. unfold _get_status_x, when. keeps_chain. Qed.

Lemma keeps_get_status_y (s : Controller) : ends_in (keeps f) _get_status_y s.
Proof. unfold _get_status_y, when. keeps_chain. Qed.

#[local] Hint Resolve keeps_get_status keeps_get_status_x
  keeps_get_status_y : ends.

Lemma keeps_finish_moving (fuel : nat) :
  forall s, ends_in (keeps f) (_finish_moving fuel) s.
Proof.
  induction fuel as [|fuel IH]; intros s; unfold ends_in;
    cbn [_finish_moving]; destruct (_moving s).
  - exact I.
  - apply (ends_when (keeps_refl f)). eauto with ends.
  - apply (ends_bind (keeps_trans f)); eauto with ends.
  - apply (ends_when (keeps_refl f)). eauto with ends.
Qed.

Lemma keeps_finish_moving_x (fuel : nat) :
  forall s, ends_in (keeps f) (_finish_moving_x fuel) s.
Proof.
  induction fuel as [|fuel IH]; intros s; unfold ends_in;
    cbn [_finish_moving_x]; destruct (_moving_x s).
  - exact I.
  - apply (ends_when (keeps_refl f)). eauto with ends.
  - apply (ends_bind (keeps_trans f)); eauto with ends.
  - apply (ends_when (keeps_refl f)). eauto with ends.
Qed.

Lemma keeps_finish_moving_y (fuel : nat) :
  forall s, ends_in (keeps f) (_finish_moving_y fuel) s.
Proof.
  induction fuel as [|fuel IH]; intros s; unfold ends_in;
    cbn [_finish_moving_y]; destruct (_moving_y s).
  - exact I.
  - apply (ends_when (keeps_refl f)). eauto with ends.
  - apply (ends_bind (keeps_trans f)); eauto with ends.
  - apply (ends_when (keeps_refl f)). eauto with ends.
Qed.

#[local] Hint Resolve keeps_finish_moving keeps_finish_moving_x
  keeps_finish_moving_y : ends.

Lemma keeps_home (fuel : nat) (s : Controller) :
  ends_in (keeps f) (_home fuel) s.
Proof.
  unfold _home, when.
  chain (@ends_get_bind (keeps f)) (@ends_bind (keeps f) (keeps_trans f));
    eauto 8 with ends.
Qed.

Lemma keeps_get_position_x (py_float : string -> option float)
    (s : Controller) :
  ends_in (keeps f) (_get_position_x py_float) s.
Proof. unfold _get_position_x, when. keeps_chain. Qed.

Lemma keeps_get_position_y (py_float : string -> option float)
    (s : Controller) :
  ends_in (keeps f) (_get_position_y py_float) s.
Proof. unfold _get_position_y, when. keeps_chain. Qed.

Lemma keeps_get_position_mm (py_float : string -> option float)
    (s : Controller) :
  ends_in (keeps f) (get_position_mm py_float) s.
Proof. unfold get_position_mm, when. keeps_chain. Qed.

Lemma keeps_get_maxspeed (py_float : string -> option float)
    (py_round3 : float -> float) (s : Controller) :
  ends_in (keeps f) (get_maxspeed py_float py_round3) s.
Proof. unfold get_maxspeed, when. keeps_chain. Qed.

#[local] Hint Resolve keeps_get_maxspeed : ends.

Lemma keeps_set_maxspeed (py_str : float -> string)
    (py_float : string -> option float) (py_round3 : float -> float)
    (x y : option float) (s : Controller) :
  ends_in (keeps f) (set_maxspeed py_str py_float py_round3 x y) s.
Proof.
  unfold set_maxspeed, when.
  chain (@ends_get_bind (keeps f)) (@ends_bind (keeps f) (keeps_trans f));
    eauto 8 with ends.
Qed.

Lemma keeps_move_x (py_str : float -> string) (fuel : nat) (v : float)
    (relative block : bool) (s : Controller) :
  ends_in (keeps f) (_move_x py_str fuel v relative block) s.
Proof.
  unfold _move_x, when.
  chain (@ends_get_bind (keeps f)) (@ends_bind (keeps f) (keeps_trans f));
    eauto 8 with ends.
Qed.

Lemma keeps_move_y (py_str : float -> string) (fuel : nat) (v : float)
    (relative block : bool) (s : Controller) :
  ends_in (keeps f) (_move_y py_str fuel v relative block) s.
Proof.
  unfold _move_y, when.
  chain (@ends_get_bind (keeps f)) (@ends_bind (keeps f) (keeps_trans f));
    eauto 8 with ends.
Qed.

#[local] Hint Resolve keeps_move_x keeps_move_y : ends.

Lemma keeps_move_mm (py_str : float -> string) (fuel : nat) (x y : float)
    (relative block : bool) (s : Controller) :
  ends_in (keeps f) (move_mm py_str fuel x y relative block) s.
Proof.
  unfold move_mm, when.
  chain (@ends_get_bind (keeps f)) (@ends_bind (keeps f) (keeps_trans f));
    eauto 8 with ends.
Qed.

#[local] Hint Resolve keeps_get_warnings keeps_home keeps_get_position_mm
  keeps_set_maxspeed : ends.

Lemma keeps_check_warnings_and_home (fuel : nat) (s : Controller) :
  ends_in (keeps f) (check_warnings_and_home fuel) s.
Proof.
  unfold check_warnings_and_home, when.
  chain (@ends_get_bind (keeps f)) (@ends_bind (keeps f) (keeps_trans f));
    eauto 8 with ends.
Qed.

Lemma keeps_get_status_position_and_set_maxspeed
    (py_str : float -> string) (py_float : string -> option float)
    (py_round3 : float -> float) (maxspeed_mmps : float * float)
    (s : Controller) :
  ends_in (keeps f)
    (get_status_position_and_set_maxspeed py_str py_float py_round3
       maxspeed_mmps) s.
Proof.
  unfold get_status_position_and_set_maxspeed.
  chain (@ends_get_bind (keeps f)) (@ends_bind (keeps f) (keeps_trans f));
    eauto 8 with ends.
Qed.

End Keeps.


Lemma keeps_when_print {T} (f : Controller -> T) (b : bool) (m : Msg)
    (s : Controller) :
  (forall o s, keeps f s (set_stdout o s)) ->
  ends_in (keeps f) (when b (print m)) s.
Proof.
  intros H. apply (ends_when (keeps_refl f)). apply ends_print.
  intros. apply H.
Qed.

(** X7. Polling, waiting, stopping and homing never write the cached
    position or the cached speeds, however the call ends: after a stop or
    a homing run the cache still holds what was stored before. *)
Theorem X7_polls_leave_the_cache :
  always (keeps cached) _get_status /\
  always (keeps cached) _get_warnings /\
  always (keeps cached) _get_status_x /\
  always (keeps cached) _get_status_y /\
  (forall fuel, always (keeps cached) (_finish_moving fuel)) /\
  (forall fuel, always (keeps cached) (_finish_moving_x fuel)) /\
  (forall fuel, always (keeps cached) (_finish_moving_y fuel)) /\
  always (keeps cached) _stop_x /\
  always (keeps cached) _stop_y /\
  (forall fuel, always (keeps cached) (_home fuel)).
Proof.
  repeat match goal with |- _ /\ _ => split end; unfold always; intros.
  - apply keeps_get_status; untouched.
  - apply keeps_get_warnings; untouched.
  - apply keeps_get_status_x; untouched.
  - apply keeps_get_status_y; untouched.
  - apply keeps_finish_moving; untouched.
  - apply keeps_finish_moving_x; untouched.
  - apply keeps_finish_moving_y; untouched.
  - apply keeps_stop_x; untouched.
  - apply keeps_stop_y; untouched.
  - apply keeps_home; untouched.
Qed.

(** ** What a call that returns has done *)

Lemma _finish_moving_clears (fuel : nat) :
  forall s s', _finish_moving fuel s = Return tt s' -> _moving s' = false.
Proof.
  induction fuel as [|fuel IH]; intros s s'; cbn [_finish_moving];
    destruct (_moving s) eqn:Mv.
  - discriminate.
  - destruct (verbose s); intros H; injection H as <-; destruct s; exact Mv.
  - intros H. apply bind_returns in H. destruct H as (a & s1 & _ & H).
    eauto.
  - destruct (verbose s); intros H; injection H as <-; destruct s; exact Mv.
Qed.

Lemma _finish_moving_x_clears (fuel : nat) :
  forall s s', _finish_moving_x fuel s = Return tt s' -> _moving_x s' = false.
Proof.
  induction fuel as [|fuel IH]; intros s s'; cbn [_finish_moving_x];
    destruct (_moving_x s) eqn:Mv.
  - discriminate.
  - destruct (very_verbose s); intros H; injection H as <-; destruct s; exact Mv.
  - intros H. apply bind_returns in H. destruct H as (a & s1 & _ & H).
    eauto.
  - destruct (very_verbose s); intros H; injection H as <-; destruct s; exact Mv.
Qed.

Lemma _finish_moving_y_clears (fuel : nat) :
  forall s s', _finish_moving_y fuel s = Return tt s' -> _moving_y s' = false.
Proof.
  induction fuel as [|fuel IH]; intros s s'; cbn [_finish_moving_y];
    destruct (_moving_y s) eqn:Mv.
  - discriminate.
  - destruct (very_verbose s); intros H; injection H as <-; destruct s; exact Mv.
  - intros H. apply bind_returns in H. destruct H as (a & s1 & _ & H).
    eauto.
  - destruct (very_verbose s); intros H; injection H as <-; destruct s; exact Mv.
Qed.

Lemma _home_clears (fuel : nat) (s s' : Controller) :
  _home fuel s = Return tt s' -> _moving s' = false.
Proof.
  unfold _home. intros H.
  apply bind_returns in H. destruct H as (? & ? & _ & H).
  apply bind_returns in H. destruct H as (? & ? & _ & H).
  apply bind_returns in H. destruct H as (? & ? & _ & H).
  apply bind_returns in H. destruct H as (? & ? & _ & H).
  apply bind_returns in H. destruct H as (? & ? & _ & H).
  apply bind_returns in H. destruct H as ([] & s1 & W & H).
  apply _finish_moving_clears in W.
  assert (K : keeps _moving s1 s').
  { eapply ends_in_returns; [|exact H].
    apply keeps_when_print. untouched. }
  unfold keeps in K. congruence.
Qed.

(** X8. A wait that returns has found its flag cleared: after
    [_finish_moving], [_finish_moving_x], [_finish_moving_y] and [_home]
    the flag the call waited on is [False]. *)
Theorem X8_wait_returns_with_flag_clear (fuel : nat) (self self' : Controller) :
  (_finish_moving fuel self = Return tt self' -> _moving self' = false) /\
  (_finish_moving_x fuel self = Return tt self' -> _moving_x self' = false) /\
  (_finish_moving_y fuel self = Return tt self' -> _moving_y self' = false) /\
  (_home fuel self = Return tt self' -> _moving self' = false).
Proof.
  repeat split.
  - apply _finish_moving_clears.
  - apply _finish_moving_x_clears.
  - apply _finish_moving_y_clears.
  - apply _home_clears.
Qed.

(** Homing a stage that is busy for one poll. *)
Lemma X8_wait_returns_with_flag_clear_witness :
  exists self',
    _home 2 (bench true false
               [line "@01 0 OK BUSY WR 0"; line "@01 0 OK BUSY WR 0";
                line "@01 0 OK IDLE -- 0"]) = Return tt self' /\
    _moving self' = false.
Proof.
  eexists. split; [vm_compute; reflexivity|].
  apply (X8_wait_returns_with_flag_clear 2
           (bench true false
               [line "@01 0 OK BUSY WR 0"; line "@01 0 OK BUSY WR 0";
                line "@01 0 OK IDLE -- 0"])).
  vm_compute. reflexivity.
Defined.

Section Results.

Variable py_str : float -> string.
Variable py_float : string -> option float.
Variable py_round3 : float -> float.

Lemma _move_x_result (fuel : nat) (x : float) (relative block : bool)
    (s s' : Controller) :
  _move_x py_str fuel x relative block s = Return tt s' ->
  let t := target relative (x_mm s) x in
  if within (x_min_mm s) t (x_max_mm s)
  then x_mm s' = t /\ _moving_x s' = negb block
  else x_mm s' = x_mm s /\ _moving_x s' = false.
Proof.
  unfold _move_x, target. intros H.
  apply bind_returns in H. destruct H as (? & ? & G & H).
  injection G as <- <-.
  apply bind_returns in H. destruct H as ([] & s1 & W & H).
  apply bind_returns in H. destruct H as ([] & s2 & P & H).
  apply bind_returns in H. destruct H as (? & ? & G & H).
  injection G as <- <-. cbv zeta in H |- *.
  set (g := fun c => (x_mm c, x_min_mm c, x_max_mm c)).
  assert (F1 : _moving_x s1 = false).
  { unfold when in W. destruct (_moving_x s) eqn:Mv.
    - now apply _finish_moving_x_clears in W.
    - injection W as <-. exact Mv. }
  assert (K1 : keeps g s s1).
  { eapply ends_in_returns; [|exact W].
    apply (ends_when (keeps_refl g)).
    apply keeps_finish_moving_x; untouched. }
  assert (K2 : keeps (fun c => (g c, _moving_x c)) s1 s2).
  { eapply ends_in_returns; [|exact P].
    apply keeps_when_print. untouched. }
  unfold keeps, g in K1, K2.
  injection K1 as X1 L1 U1. injection K2 as X2 L2 U2 F2.
  rewrite X2, X1, L2, L1, U2, U1 in H.
  destruct (within (x_min_mm s) (if relative then (x_mm s + x)%float else x)
              (x_max_mm s)) eqn:L; cbn [negb] in H.
  - apply bind_returns in H. destruct H as (? & s3 & S & H).
    apply bind_returns in H. destruct H as ([] & s4 & M1 & H).
    apply bind_returns in H. destruct H as ([] & s5 & M2 & H).
    injection M1 as <-. injection M2 as <-.
    destruct block; cbn [when negb] in H |- *.
    + split; [|now apply _finish_moving_x_clears in H].
      assert (K : keeps x_mm (set_x_mm (if relative then (x_mm s + x)%float else x)
                                (set_moving_x true s3)) s').
      { eapply ends_in_returns; [|exact H].
        apply keeps_finish_moving_x; untouched. }
      unfold keeps in K. rewrite K. destruct s3. reflexivity.
    + injection H as <-. destruct s3. split; reflexivity.
  - assert (K : keeps (fun c => (x_mm c, _moving_x c)) s2 s').
    { eapply ends_in_returns; [|exact H].
      apply keeps_when_print. untouched. }
    unfold keeps in K. injection K as -> ->. split; congruence.
Qed.

Lemma _move_y_result (fuel : nat) (y : float) (relative block : bool)
    (s s' : Controller) :
  _move_y py_str fuel y relative block s = Return tt s' ->
  let t := target relative (y_mm s) y in
  if within (y_min_mm s) t (y_max_mm s)
  then y_mm s' = t /\ _moving_y s' = negb block
  else y_mm s' = y_mm s /\ _moving_y s' = false.
Proof.
  unfold _move_y, target. intros H.
  apply bind_returns in H. destruct H as (? & ? & G & H).
  injection G as <- <-.
  apply bind_returns in H. destruct H as ([] & s1 & W & H).
  apply bind_returns in H. destruct H as ([] & s2 & P & H).
  apply bind_returns in H. destruct H as (? & ? & G & H).
  injection G as <- <-. cbv zeta in H |- *.
  set (g := fun c => (y_mm c, y_min_mm c, y_max_mm c)).
  assert (F1 : _moving_y s1 = false).
  { unfold when in W. destruct (_moving_y s) eqn:Mv.
    - now apply _finish_moving_y_clears in W.
    - injection W as <-. exact Mv. }
  assert (K1 : keeps g s s1).
  { eapply ends_in_returns; [|exact W].
    apply (ends_when (keeps_refl g)).
    apply keeps_finish_moving_y; untouched. }
  assert (K2 : keeps (fun c => (g c, _moving_y c)) s1 s2).
  { eapply ends_in_returns; [|exact P].
    apply keeps_when_print. untouched. }
  unfold keeps, g in K1, K2.
  injection K1 as X1 L1 U1. injection K2 as X2 L2 U2 F2.
  rewrite X2, X1, L2, L1, U2, U1 in H.
  destruct (within (y_min_mm s) (if relative then (y_mm s + y)%float else y)
              (y_max_mm s)) eqn:L; cbn [negb] in H.
  - apply bind_returns in H. destruct H as (? & s3 & S & H).
    apply bind_returns in H. destruct H as ([] & s4 & M1 & H).
    apply bind_returns in H. destruct H as ([] & s5 & M2 & H).
    injection M1 as <-. injection M2 as <-.
    destruct block; cbn [when negb] in H |- *.
    + split; [|now apply _finish_moving_y_clears in H].
      assert (K : keeps y_mm (set_y_mm (if relative then (y_mm s + y)%float else y)
                                (set_moving_y true s3)) s').
      { eapply ends_in_returns; [|exact H].
        apply keeps_finish_moving_y; untouched. }
      unfold keeps in K. rewrite K. destruct s3. reflexivity.
    + injection H as <-. destruct s3. split; reflexivity.
  - assert (K : keeps (fun c => (y_mm c, _moving_y c)) s2 s').
    { eapply ends_in_returns; [|exact H].
      apply keeps_when_print. untouched. }
    unfold keeps in K. injection K as -> ->. split; congruence.
Qed.

Lemma move_mm_result (fuel : nat) (x y : float) (relative block : bool)
    (s s' : Controller) :
  move_mm py_str fuel x y relative block s = Return tt s' ->
  let tx := target relative (x_mm s) x in
  let ty := target relative (y_mm s) y in
  let mx := within (x_min_mm s) tx (x_max_mm s) in
  let my := within (y_min_mm s) ty (y_max_mm s) in
  x_mm s' = (if mx then tx else x_mm s) /\
  y_mm s' = (if my then ty else y_mm s) /\
  flags s' = (if block then (false, false, false) else (true, mx, my)).
Proof.
  unfold move_mm. intros H.
  apply bind_returns in H. destruct H as (? & ? & G & H).
  injection G as <- <-.
  apply bind_returns in H. destruct H as ([] & s1 & P & H).
  apply bind_returns in H. destruct H as ([] & s2 & Mx & H).
  apply bind_returns in H. destruct H as ([] & s3 & My & H).
  apply bind_returns in H. destruct H as ([] & s4 & Mv & H).
  injection Mv as <-.
  assert (K1 : keeps (fun c => (x_mm c, y_mm c, limits c)) s s1).
  { eapply ends_in_returns; [|exact P].
    apply ends_when; [apply keeps_refl|].
    apply (ends_bind (keeps_trans _)); [|intros ? ? _];
      apply ends_print; intros; apply keeps_stdout; untouched. }
  assert (K2 : keeps (fun c => (y_mm c, limits c)) s1 s2).
  { eapply ends_in_returns; [|exact Mx]. apply keeps_move_x; untouched. }
  assert (K3 : keeps (fun c => (x_mm c, _moving_x c)) s2 s3).
  { eapply ends_in_returns; [|exact My]. apply keeps_move_y; untouched. }
  apply _move_x_result in Mx. apply _move_y_result in My.
  unfold keeps, limits in K1, K2, K3. cbv zeta in Mx, My |- *.
  injection K1 as X1 Y1 Lx1 Ux1 Ly1 Uy1.
  injection K2 as Y2 Lx2 Ux2 Ly2 Uy2.
  injection K3 as X3 F3.
  rewrite X1, Lx1, Ux1 in Mx.
  rewrite Y2, Y1, Ly2, Ly1, Uy2, Uy1 in My.
  cbn [negb] in Mx, My.
  assert (Ex : x_mm s3 = (if within (x_min_mm s) (target relative (x_mm s) x)
                               (x_max_mm s)
                          then target relative (x_mm s) x else x_mm s) /\
               _moving_x s3 = within (x_min_mm s) (target relative (x_mm s) x)
                                (x_max_mm s)).
  { rewrite X3, F3. destruct (within (x_min_mm s) _ (x_max_mm s));
      destruct Mx as [-> ->]; split; congruence. }
  assert (Ey : y_mm s3 = (if within (y_min_mm s) (target relative (y_mm s) y)
                               (y_max_mm s)
                          then target relative (y_mm s) y else y_mm s) /\
               _moving_y s3 = within (y_min_mm s) (target relative (y_mm s) y)
                                (y_max_mm s)).
  { destruct (within (y_min_mm s) _ (y_max_mm s));
      destruct My as [-> ->]; split; congruence. }
  destruct Ex as [Ex Fx], Ey as [Ey Fy].
  destruct block; cbn [when] in H.
  - apply bind_returns in H. destruct H as ([] & s5 & W & H).
    apply bind_returns in H. destruct H as ([] & s6 & M1 & H).
    injection M1 as <-. injection H as <-.
    assert (K : keeps (fun c => (x_mm c, y_mm c)) (set_moving true s3) s5).
    { eapply ends_in_returns; [|exact W].
      apply keeps_finish_moving; untouched. }
    apply _finish_moving_clears in W.
    unfold keeps in K. injection K as Kx Ky.
    replace (x_mm (set_moving true s3)) with (x_mm s3) in Kx
      by (destruct s3; reflexivity).
    replace (y_mm (set_moving true s3)) with (y_mm s3) in Ky
      by (destruct s3; reflexivity).
    split; [|split].
    + transitivity (x_mm s5); [destruct s5; reflexivity | congruence].
    + transitivity (y_mm s5); [destruct s5; reflexivity | congruence].
    + unfold flags. rewrite <- W. destruct s5. reflexivity.
  - injection H as <-. split; [|split].
    + transitivity (x_mm s3); [destruct s3; reflexivity | exact Ex].
    + transitivity (y_mm s3); [destruct s3; reflexivity | exact Ey].
    + unfold flags. rewrite <- Fx, <- Fy. destruct s3. reflexivity.
Qed.

(** X9. What a move that returns has done, with [t] the absolute target
    computed from the cached position: when [t] is within the limits of
    the axis the cache holds [t] and the flag of the axis is set exactly
    when the call did not block; when it is not, the cache is unchanged
    and the flag is [False]. *)
Theorem X9_move_result (fuel : nat) (v : float) (relative block : bool)
    (self self' : Controller) :
  (_move_x py_str fuel v relative block self = Return tt self' ->
   let t := target relative (x_mm self) v in
   if within (x_min_mm self) t (x_max_mm self)
   then x_mm self' = t /\ _moving_x self' = negb block
   else x_mm self' = x_mm self /\ _moving_x self' = false) /\
  (_move_y py_str fuel v relative block self = Return tt self' ->
   let t := target relative (y_mm self) v in
   if within (y_min_mm self) t (y_max_mm self)
   then y_mm self' = t /\ _moving_y self' = negb block
   else y_mm self' = y_mm self /\ _moving_y self' = false).
Proof.
  split; [apply _move_x_result | apply _move_y_result].
Qed.

(** X10. What [move_mm] has done when it returns: each axis whose target
    is within its limits has the target cached, the other keeps its cached
    position; a blocking call leaves the three flags [False]; a call that
    does not block leaves [_moving] set, also when both targets were
    refused, and the flag of an axis set exactly when its target was
    sent. *)
Theorem X10_move_mm_result (fuel : nat) (x y : float) (relative block : bool)
    (self self' : Controller) :
  move_mm py_str fuel x y relative block self = Return tt self' ->
  let tx := target relative (x_mm self) x in
  let ty := target relative (y_mm self) y in
  let mx := within (x_min_mm self) tx (x_max_mm self) in
  let my := within (y_min_mm self) ty (y_max_mm self) in
  x_mm self' = (if mx then tx else x_mm self) /\
  y_mm self' = (if my then ty else y_mm self) /\
  flags self' = (if block then (false, false, false) else (true, mx, my)).
Proof. apply move_mm_result. Qed.

End Results.

(** A blocking move of x to 65 mm, busy for one poll. *)
Lemma X9_move_result_witness :
  exists self',
    _move_x CPython.py_str 2 65 false true
      (bench true false
         [line "@01 1 OK BUSY -- 0"; line "@01 1 OK BUSY -- 0";
          line "@01 1 OK IDLE -- 0"]) = Return tt self' /\
    x_mm self' = 65%float /\ _moving_x self' = false.
Proof.
  eexists. split; [vm_compute; reflexivity|].
  apply (X9_move_result CPython.py_str 2 65 false true
           (bench true false
              [line "@01 1 OK BUSY -- 0"; line "@01 1 OK BUSY -- 0";
               line "@01 1 OK IDLE -- 0"])).
  vm_compute. reflexivity.
Defined.

(** A move that does not block, to x = 131 mm (refused) and y = 50 mm
    (sent): [_moving] and [_moving_y] are set, [_moving_x] is not. *)
Lemma X10_move_mm_result_witness :
  exists self',
    move_mm CPython.py_str 0 131 50 false false
      (bench true false [line "@01 2 OK BUSY -- 0"]) = Return tt self' /\
    x_mm self' = 66%float /\ y_mm self' = 50%float /\
    flags self' = (true, false, true).
Proof.
  eexists. split; [vm_compute; reflexivity|].
  apply (X10_move_mm_result CPython.py_str 0 131 50 false false
           (bench true false [line "@01 2 OK BUSY -- 0"])).
  vm_compute. reflexivity.
Defined.

Section Frames.

Variable py_str : float -> string.
Variable py_float : string -> option float.
Variable py_round3 : float -> float.

(** X11. Stopping an axis, reading warnings, position or speed, and
    setting the speed never write a moving flag, however the call ends:
    in particular [_stop_x] and [_stop_y] leave the flag of their axis as
    it was, so a flag set by a move that did not block is still set after
    the stop. *)
Theorem X11_stops_and_reads_leave_the_flags :
  always (keeps flags) _stop_x /\
  always (keeps flags) _stop_y /\
  always (keeps flags) _get_warnings /\
  always (keeps flags) (get_position_mm py_float) /\
  always (keeps flags) (_get_position_x py_float) /\
  always (keeps flags) (_get_position_y py_float) /\
  always (keeps flags) (get_maxspeed py_float py_round3) /\
  (forall x y,
     always (keeps flags) (set_maxspeed py_str py_float py_round3 x y)).
Proof.
  repeat match goal with |- _ /\ _ => split end; unfold always; intros.
  - apply keeps_stop_x; untouched.
  - apply keeps_stop_y; untouched.
  - apply keeps_get_warnings; untouched.
  - apply keeps_get_position_mm; untouched.
  - apply keeps_get_position_x; untouched.
  - apply keeps_get_position_y; untouched.
  - apply keeps_get_maxspeed; untouched.
  - apply keeps_set_maxspeed; untouched.
Qed.

(** X12. The axes are independent, however a call ends: a move, poll,
    wait or position read on x leaves the cached position and the flag of
    y, the flag of the stage and the cached speeds alone, and the same
    with x and y exchanged; [move_mm] and [get_position_mm] leave the
    cached speeds alone, and [get_maxspeed] and [set_maxspeed] the cached
    position. *)
Theorem X12_axes_are_independent :
  (forall fuel v relative block,
     always (keeps beside_x) (_move_x py_str fuel v relative block)) /\
  always (keeps beside_x) _get_status_x /\
  (forall fuel, always (keeps beside_x) (_finish_moving_x fuel)) /\
  always (keeps beside_x) (_get_position_x py_float) /\
  (forall fuel v relative block,
     always (keeps beside_y) (_move_y py_str fuel v relative block)) /\
  always (keeps beside_y) _get_status_y /\
  (forall fuel, always (keeps beside_y) (_finish_moving_y fuel)) /\
  always (keeps beside_y) (_get_position_y py_float) /\
  (forall fuel x y relative block,
     always (keeps speeds) (move_mm py_str fuel x y relative block)) /\
  always (keeps speeds) (get_position_mm py_float) /\
  always (keeps position) (get_maxspeed py_float py_round3) /\
  (forall x y,
     always (keeps position) (set_maxspeed py_str py_float py_round3 x y)).
Proof.
  repeat match goal with |- _ /\ _ => split end; unfold always; intros.
  - apply keeps_move_x; untouched.
  - apply keeps_get_status_x; untouched.
  - apply keeps_finish_moving_x; untouched.
  - apply keeps_get_position_x; untouched.
  - apply keeps_move_y; untouched.
  - apply keeps_get_status_y; untouched.
  - apply keeps_finish_moving_y; untouched.
  - apply keeps_get_position_y; untouched.
  - apply keeps_move_mm; untouched.
  - apply keeps_get_position_mm; untouched.
  - apply keeps_get_maxspeed; untouched.
  - apply keeps_set_maxspeed; untouched.
Qed.

(** X4. However it ends, [set_maxspeed] writes only [get maxspeed] and
    [set maxspeed] commands that carry a speed within [0.01, 750] mm/s
    (as [str(1e6 * 1.6384 * v)]), keeps the configuration, and leaves the
    cached position [x_mm], [y_mm] as it was. *)
Theorem X4_speeds_stay_within_range (x y : option float) :
  always (safely (speed_commands py_str))
         (set_maxspeed py_str py_float py_round3 x y) /\
  always (keeps position) (set_maxspeed py_str py_float py_round3 x y).
Proof.
  split; intros s.
  - apply safely_set_maxspeed.
    + apply speed_commands_by_config.
    + left; reflexivity.
    + intros v V. split; right; exists v; auto.
  - apply keeps_set_maxspeed; untouched.
Qed.

End Frames.

Lemma assert_returns (b : bool) (a : Assertion) (s s' : Controller) :
  assert b a s = Return tt s' -> b = true /\ s' = s.
Proof.
  unfold assert. destruct b; [|discriminate].
  intros H. injection H as <-. auto.
Qed.

Section SpeedResult.

Variable py_str : float -> string.
Variable py_float : string -> option float.
Variable py_round3 : float -> float.

Lemma get_maxspeed_stores (back : float * float) (s s' : Controller) :
  get_maxspeed py_float py_round3 s = Return back s' -> speeds s' = back.
Proof.
  unfold get_maxspeed. intros H.
  apply bind_returns in H. destruct H as (? & ? & G & H).
  injection G as <- <-.
  apply bind_returns in H. destruct H as (? & s1 & _ & H).
  apply bind_returns in H. destruct H as (r & s2 & _ & H).
  apply bind_returns in H. destruct H as (values & s3 & _ & H).
  apply bind_returns in H. destruct H as (xy & s4 & _ & H).
  apply bind_returns in H. destruct H as ([] & s5 & E1 & H).
  apply bind_returns in H. destruct H as ([] & s6 & E2 & H).
  apply bind_returns in H. destruct H as ([] & s7 & P & H).
  injection H as <- <-. injection E1 as <-. injection E2 as <-.
  assert (K : keeps speeds (set_y_mmps (snd xy) (set_x_mmps (fst xy) s4)) s7).
  { eapply ends_in_returns; [|exact P]. apply keeps_when_print. untouched. }
  unfold keeps in K. rewrite K. destruct s4, xy. reflexivity.
Qed.

Lemma set_maxspeed_result (x y : option float) (s s' : Controller) :
  set_maxspeed py_str py_float py_round3 x y s = Return tt s' ->
  let vx := or_cached x (x_mmps s) in
  let vy := or_cached y (y_mmps s) in
  within 0.01 vx 750 = true /\ within 0.01 vy 750 = true /\
  PrimFloat.eqb (x_mmps s') vx = true /\
  PrimFloat.eqb (y_mmps s') vy = true.
Proof.
  unfold set_maxspeed. intros H.
  apply bind_returns in H. destruct H as (? & ? & G & H).
  injection G as <- <-. cbv zeta in H |- *.
  change (match x with Some v => v | None => x_mmps s end)
    with (or_cached x (x_mmps s)) in H.
  change (match y with Some v => v | None => y_mmps s end)
    with (or_cached y (y_mmps s)) in H.
  apply bind_returns in H. destruct H as ([] & s1 & _ & H).
  apply bind_returns in H. destruct H as ([] & s2 & A1 & H).
  apply assert_returns in A1. destruct A1 as [A1 _].
  apply andb_prop in A1. destruct A1 as [Ax Ay].
  apply bind_returns in H. destruct H as (? & s3 & _ & H).
  apply bind_returns in H. destruct H as (? & s4 & _ & H).
  apply bind_returns in H. destruct H as (back & s5 & Gm & H).
  apply bind_returns in H. destruct H as ([] & s6 & A2 & H).
  apply assert_returns in A2. destruct A2 as [A2 ->].
  apply andb_prop in A2. destruct A2 as [Bx By].
  apply get_maxspeed_stores in Gm.
  assert (K : keeps speeds s5 s').
  { eapply ends_in_returns; [|exact H]. apply keeps_when_print. untouched. }
  unfold keeps, speeds in K, Gm. rewrite <- Gm in Bx, By.
  injection K as -> ->. auto.
Qed.

(** X13. When [set_maxspeed] returns, the speeds asked for (the cached
    ones for omitted arguments) were within [0.01, 750] mm/s and the
    cached speeds are equal to them: the cache holds the speeds the stage
    reported after the change, and they compared equal to the request. *)
Theorem X13_set_maxspeed_result (x y : option float)
    (self self' : Controller) :
  set_maxspeed py_str py_float py_round3 x y self = Return tt self' ->
  let vx := or_cached x (x_mmps self) in
  let vy := or_cached y (y_mmps self) in
  within 0.01 vx 750 = true /\ within 0.01 vy 750 = true /\
  PrimFloat.eqb (x_mmps self') vx = true /\
  PrimFloat.eqb (y_mmps self') vy = true.
Proof. apply set_maxspeed_result. Qed.

End SpeedResult.

(** Setting the speed of x to 200 mm/s and leaving y at the cached
    100 mm/s. *)
Lemma X13_set_maxspeed_result_witness :
  exists self',
    set_maxspeed CPython.py_str CPython.py_float CPython.py_round3
      (Some 200%float) None
      (bench true false
         [line "@01 0 OK IDLE -- 0"; line "@01 0 OK IDLE -- 0";
          line "@01 0 OK IDLE -- 327680000 163840000"]) = Return tt self' /\
    PrimFloat.eqb (x_mmps self') 200 = true /\
    PrimFloat.eqb (y_mmps self') 100 = true.
Proof.
  eexists. split; [vm_compute; reflexivity|].
  apply (X13_set_maxspeed_result CPython.py_str CPython.py_float
           CPython.py_round3 (Some 200%float) None
           (bench true false
              [line "@01 0 OK IDLE -- 0"; line "@01 0 OK IDLE -- 0";
               line "@01 0 OK IDLE -- 327680000 163840000"])).
  vm_compute. reflexivity.
Defined.

(* ================================================================== *)
(** * Reading the position *)
(* ================================================================== *)

Section PositionReads.

Variable py_float : string -> option float.

Lemma get_position_mm_reply (l : string) (rest : list string)
    (self : Controller) :
  rx (port self) = "" ->
  device (port self) = l :: rest ->
  reply self l = true ->
  exists out,
    get_position_mm py_float self =
    match map py_float (position_fields l) with
    | [Some nx; Some ny] =>
        Return (mm_of_wire nx, mm_of_wire ny)
          (says out
             (set_y_mm (mm_of_wire ny)
                (set_x_mm (mm_of_wire nx)
                   (answered [frame (device_address self) "get pos"]
                             rest self))))
    | _ =>
        Raise ValueError
          (says out
             (answered [frame (device_address self) "get pos"] rest self))
    end.
Proof.
  unfold position_fields, get_position_mm, mm_of_wire.
  destruct self as [nm vb vv ? ? ? ? p ? ? addr ? ? ? ? ? ? ? o].
  intros R D W. fields. run. fields.
  pose proof (firstn_le_length 2 (skipn 4 (Py.split (payload l)))) as Len.
  destruct vb; cbv beta iota; fields; send_by _send_reply l rest;
    destruct (firstn 2 (skipn 4 (Py.split (payload l))))
      as [|a [|b [|c r]]];
    try (cbn [length] in Len; lia);
    cbn [floats_of map]; run;
    try destruct (py_float a); try destruct (py_float b);
    cbv beta iota; cbn [unpack2]; run; fields; assoc; eexists; reflexivity.
Qed.

Lemma _get_position_x_reply (l : string) (rest : list string)
    (self : Controller) :
  rx (port self) = "" ->
  device (port self) = l :: rest ->
  reply self l = true ->
  exists out,
    _get_position_x py_float self =
    match position_field l with
    | None =>
        Raise IndexError
          (says out
             (answered [frame (device_address self) "1 get pos"] rest self))
    | Some p =>
        match py_float p with
        | None =>
            Raise ValueError
              (says out
                 (answered [frame (device_address self) "1 get pos"]
                           rest self))
        | Some nm =>
            Return (mm_of_wire nm)
              (says out
                 (set_x_mm (mm_of_wire nm)
                    (answered [frame (device_address self) "1 get pos"]
                              rest self)))
        end
    end.
Proof.
  unfold position_field, _get_position_x, mm_of_wire.
  destruct self as [nm vb vv ? ? ? ? p ? ? addr ? ? ? ? ? ? ? o].
  intros R D W. fields. run. fields.
  destruct vv; cbv beta iota; fields; send_by _send_reply l rest;
    destruct (nth_error (Py.split (payload l)) 4) as [a|];
    cbv beta iota; try destruct (py_float a); cbv beta iota; fields; assoc;
    eexists; reflexivity.
Qed.

Lemma _get_position_y_reply (l : string) (rest : list string)
    (self : Controller) :
  rx (port self) = "" ->
  device (port self) = l :: rest ->
  reply self l = true ->
  exists out,
    _get_position_y py_float self =
    match position_field l with
    | None =>
        Raise IndexError
          (says out
             (answered [frame (device_address self) "2 get pos"] rest self))
    | Some p =>
        match py_float p with
        | None =>
            Raise ValueError
              (says out
                 (answered [frame (device_address self) "2 get pos"]
                           rest self))
        | Some nm =>
            Return (mm_of_wire nm)
              (says out
                 (set_y_mm (mm_of_wire nm)
                    (answered [frame (device_address self) "2 get pos"]
                              rest self)))
        end
    end.
Proof.
  unfold position_field, _get_position_y, mm_of_wire.
  destruct self as [nm vb vv ? ? ? ? p ? ? addr ? ? ? ? ? ? ? o].
  intros R D W. fields. run. fields.
  destruct vv; cbv beta iota; fields; send_by _send_reply l rest;
    destruct (nth_error (Py.split (payload l)) 4) as [a|];
    cbv beta iota; try destruct (py_float a); cbv beta iota; fields; assoc;
    eexists; reflexivity.
Qed.

(** X14. [get_position_mm] on a reply that [_send] takes: with two
    position fields that both parse as floats it returns the pair
    converted from nm to mm and caches both; in every other case (a field
    that does not parse, or fewer than two fields) it raises [ValueError]
    with the cached position as it was, so the two cached coordinates are
    written together or not at all. *)
Theorem X14_get_position_mm (l : string) (rest : list string)
    (self : Controller) :
  rx (port self) = "" ->
  device (port self) = l :: rest ->
  reply self l = true ->
  exists out,
    get_position_mm py_float self =
    match map py_float (position_fields l) with
    | [Some nx; Some ny] =>
        Return (mm_of_wire nx, mm_of_wire ny)
          (says out
             (set_y_mm (mm_of_wire ny)
                (set_x_mm (mm_of_wire nx)
                   (answered [frame (device_address self) "get pos"]
                             rest self))))
    | _ =>
        Raise ValueError
          (says out
             (answered [frame (device_address self) "get pos"] rest self))
    end.
Proof. apply get_position_mm_reply. Qed.

(** X15. [_get_position_x] and [_get_position_y] on a reply that [_send]
    takes: the fifth field of the payload, converted from nm to mm, is
    returned and cached for the axis; a payload with fewer than five
    fields raises [IndexError] and a field that does not parse raises
    [ValueError], both with the cache as it was. *)
Theorem X15_get_position_of_an_axis (l : string) (rest : list string)
    (self : Controller) :
  rx (port self) = "" ->
  device (port self) = l :: rest ->
  reply self l = true ->
  (exists out,
     _get_position_x py_float self =
     match position_field l with
     | None =>
         Raise IndexError
           (says out
              (answered [frame (device_address self) "1 get pos"] rest self))
     | Some p =>
         match py_float p with
         | None =>
             Raise ValueError
               (says out
                  (answered [frame (device_address self) "1 get pos"]
                            rest self))
         | Some nm =>
             Return (mm_of_wire nm)
               (says out
                  (set_x_mm (mm_of_wire nm)
                     (answered [frame (device_address self) "1 get pos"]
                               rest self)))
         end
     end) /\
  (exists out,
     _get_position_y py_float self =
     match position_field l with
     | None =>
         Raise IndexError
           (says out
              (answered [frame (device_address self) "2 get pos"] rest self))
     | Some p =>
         match py_float p with
         | None =>
             Raise ValueError
               (says out
                  (answered [frame (device_address self) "2 get pos"]
                            rest self))
         | Some nm =>
             Return (mm_of_wire nm)
               (says out
                  (set_y_mm (mm_of_wire nm)
                     (answered [frame (device_address self) "2 get pos"]
                               rest self)))
         end
     end).
Proof.
  intros R D W. split;
    [now apply _get_position_x_reply | now apply _get_position_y_reply].
Qed.

End PositionReads.

(** A stage at (65, 50) mm. *)
Lemma X14_get_position_mm_witness :
  exists out,
    get_position_mm CPython.py_float
      (bench true false [line "@01 0 OK IDLE -- 65000000 50000000"]) =
    Return (65, 50)%float
      (says out
         (set_y_mm 50
            (set_x_mm 65
               (answered [frame "01" "get pos"] []
                  (bench true false
                     [line "@01 0 OK IDLE -- 65000000 50000000"]))))).
Proof.
  destruct (X14_get_position_mm CPython.py_float
              (line "@01 0 OK IDLE -- 65000000 50000000") []
              (bench true false [line "@01 0 OK IDLE -- 65000000 50000000"])
              eq_refl eq_refl eq_refl) as [out E].
  exists out. rewrite E. vm_compute. reflexivity.
Defined.

(** A reply to [1 get pos] that stops after the warning flag: there is no
    fifth field. *)
Lemma X15_get_position_of_an_axis_witness :
  exists out,
    _get_position_x CPython.py_float
      (bench true false [line "@01 1 OK IDLE --"]) =
    Raise IndexError
      (says out
         (answered [frame "01" "1 get pos"] []
            (bench true false [line "@01 1 OK IDLE --"]))).
Proof.
  destruct (X15_get_position_of_an_axis CPython.py_float
              (line "@01 1 OK IDLE --") []
              (bench true false [line "@01 1 OK IDLE --"])
              eq_refl eq_refl eq_refl) as [[out E] _].
  exists out. rewrite E. vm_compute. reflexivity.
Defined.

(* ================================================================== *)
(** * Construction *)
(* ================================================================== *)

Section Construction.

Variable py_str : float -> string.
Variable py_float : string -> option float.
Variable py_round3 : float -> float.

Lemma legalize_axis_limits_legal (x_limits_mm y_limits_mm : float * float)
    (s : Controller) :
  legal_limits 130 x_limits_mm && legal_limits 100 y_limits_mm = true ->
  legalize_axis_limits x_limits_mm y_limits_mm s =
  Return tt (set_limits x_limits_mm y_limits_mm s).
Proof.
  unfold legal_limits, legalize_axis_limits. intros H.
  apply andb_prop in H. destruct H as [Hx Hy].
  apply andb_prop in Hx. destruct Hx as [Hx X3].
  apply andb_prop in Hx. destruct Hx as [X1 X2].
  apply andb_prop in Hy. destruct Hy as [Hy Y3].
  apply andb_prop in Hy. destruct Hy as [Y1 Y2].
  run. rewrite X1, X2, X3, Y1, Y2, Y3. reflexivity.
Qed.

Lemma legalize_axis_limits_illegal (x_limits_mm y_limits_mm : float * float)
    (s : Controller) :
  legal_limits 130 x_limits_mm && legal_limits 100 y_limits_mm = false ->
  exists a,
    legalize_axis_limits x_limits_mm y_limits_mm s =
    Raise (AssertionError a) s /\
    if legal_limits 130 x_limits_mm
    then In a [y_limit_out_of_range; y_min_not_below_y_max]
    else In a [x_limit_out_of_range; x_min_not_below_x_max].
Proof.
  unfold legal_limits, legalize_axis_limits. run.
  destruct (within 0 (fst x_limits_mm) 130);
    [|intros _; eexists; split; [reflexivity | cbn; auto]].
  destruct (within 0 (snd x_limits_mm) 130);
    [|intros _; eexists; split; [reflexivity | cbn; auto]].
  destruct (PrimFloat.ltb (fst x_limits_mm) (snd x_limits_mm));
    [|intros _; eexists; split; [reflexivity | cbn; auto]].
  destruct (within 0 (fst y_limits_mm) 100);
    [|intros _; eexists; split; [reflexivity | cbn; auto]].
  destruct (within 0 (snd y_limits_mm) 100);
    [|intros _; eexists; split; [reflexivity | cbn; auto]].
  destruct (PrimFloat.ltb (fst y_limits_mm) (snd y_limits_mm));
    [|intros _; eexists; split; [reflexivity | cbn; auto]].
  discriminate.
Qed.

(** X16. [__init__] refuses before it touches the port: with limits that
    are not legal (an end outside the travel of its axis, 130 mm for x and
    100 mm for y, or a lower end not below the upper one) it raises the
    assertion on the limits, those of x first, with no attribute set but
    [name] and the verbosity, nothing printed and no port opened; with
    legal limits and a port that does not open it raises [IOError] with
    the limits stored and nothing written. *)
Theorem X16_init_refuses_before_io (fuel : nat) (which_port : option Serial)
    (name' : string) (verbose' very_verbose' : bool)
    (x_limits_mm y_limits_mm maxspeed_mmps : float * float) :
  (legal_limits 130 x_limits_mm && legal_limits 100 y_limits_mm = false ->
   exists a,
     __init__ py_str py_float py_round3 fuel which_port name' verbose'
       very_verbose' x_limits_mm y_limits_mm maxspeed_mmps =
     Raise (AssertionError a) (fresh name' verbose' very_verbose') /\
     if legal_limits 130 x_limits_mm
     then In a [y_limit_out_of_range; y_min_not_below_y_max]
     else In a [x_limit_out_of_range; x_min_not_below_x_max]) /\
  (legal_limits 130 x_limits_mm && legal_limits 100 y_limits_mm = true ->
   __init__ py_str py_float py_round3 fuel None name' verbose'
     very_verbose' x_limits_mm y_limits_mm maxspeed_mmps =
   Raise IOError_no_connection
     (says (if verbose' then [opening] else [])
        (set_limits x_limits_mm y_limits_mm
           (fresh name' verbose' very_verbose')))).
Proof.
  split; intros H; unfold __init__.
  - destruct (legalize_axis_limits_illegal x_limits_mm y_limits_mm
                (fresh name' verbose' very_verbose') H) as (a & E & I).
    exists a. split; [|exact I].
    unfold bind at 1. rewrite E. reflexivity.
  - unfold bind at 1.
    rewrite (legalize_axis_limits_legal _ _ _ H).
    unfold open_serial_port, says, fresh. run. fields.
    destruct verbose'; reflexivity.
Qed.

End Construction.

(** Limits of x given upper end first. *)
Lemma X16_init_refuses_before_io_witness :
  exists a,
    __init__ CPython.py_str CPython.py_float CPython.py_round3 0 None
      "X-ADR130" true false (130, 0)%float (0, 100)%float (100, 100)%float =
    Raise (AssertionError a) (fresh "X-ADR130" true false) /\
    In a [x_limit_out_of_range; x_min_not_below_x_max].
Proof.
  apply (X16_init_refuses_before_io CPython.py_str CPython.py_float
           CPython.py_round3 0 None "X-ADR130" true false
           (130, 0)%float (0, 100)%float (100, 100)%float).
  vm_compute. reflexivity.
Defined.

(* ================================================================== *)
(** * A move on both axes *)
(* ================================================================== *)

Section TwoAxisMove.

Variable py_str : float -> string.

Lemma move_mm_in_limits (fuel : nat) (x y : float) (relative block : bool)
    (busy_x busy_y busy : list string) (idle_x idle_y idle l_x l_y : string)
    (rest : list string) (self : Controller) :
  let t_x := target relative (x_mm self) x in
  let t_y := target relative (y_mm self) y in
  rx (port self) = "" ->
  device (port self) =
    wait_script (_moving_x self) busy_x idle_x ++
    l_x :: wait_script (_moving_y self) busy_y idle_y ++
    l_y :: wait_script block busy idle ++ rest ->
  waits (_moving_x self) self busy_x idle_x fuel = true ->
  reply self l_x = true ->
  waits (_moving_y self) self busy_y idle_y fuel = true ->
  reply self l_y = true ->
  waits block self busy idle fuel = true ->
  within (x_min_mm self) t_x (x_max_mm self) = true ->
  within (y_min_mm self) t_y (y_max_mm self) = true ->
  exists out,
    move_mm py_str fuel x y relative block self =
    Return tt
      (says out
         (set_moving_y (negb block)
            (set_moving_x (negb block)
               (set_moving (negb block)
                  (set_y_mm t_y
                     (set_x_mm t_x
                        (answered
                           (wait_polls (_moving_x self) (device_address self)
                                       "1" busy_x
                            ++ [frame (device_address self)
                                  ("1 move abs " ++ py_str (1e6 * t_x)%float)]
                            ++ wait_polls (_moving_y self)
                                 (device_address self) "2" busy_y
                            ++ [frame (device_address self)
                                  ("2 move abs " ++ py_str (1e6 * t_y)%float)]
                            ++ wait_polls block (device_address self) ""
                                 busy)
                           rest self))))))).
Proof.
  unfold move_mm.
  destruct self as [nm vb vv ? ? ? ? [t0 r0 d0] ? ? addr ? mx my cx cy ? ? o].
  intros R D Wx Lx Wy Ly W Ix Iy. fields. subst r0 d0.
  run. fields.
  destruct vb; cbv beta iota; fields;
    (match goal with |- context [_move_x py_str ?f ?a ?r false ?s] =>
       let E := fresh "E" in
       destruct (_move_x_in_limits py_str f a r false busy_x [] idle_x "" l_x
                   (wait_script my busy_y idle_y ++
                    l_y :: wait_script block busy idle ++ rest) s) as [? E];
       [ reflexivity | reflexivity | assumption | assumption | reflexivity
       | assumption | rewrite E; clear E ]
     end; cbv beta iota; unfold says, answered; fields;
     match goal with |- context [_move_y py_str ?f ?a ?r false ?s] =>
       let E := fresh "E" in
       destruct (_move_y_in_limits py_str f a r false busy_y [] idle_y "" l_y
                   (wait_script block busy idle ++ rest) s) as [? E];
       [ reflexivity | reflexivity | assumption | assumption | reflexivity
       | assumption | rewrite E; clear E ]
     end; cbv beta iota; unfold says, answered; fields;
     destruct block; cbv beta iota; unfold wait_script, wait_polls in *;
     [ apply waits_true in W; destruct W as (B1 & I1 & F1);
       wait_by _finish_moving_polls _finish_moving busy idle rest
     | ];
     assoc; rewrite ?app_nil_r; assoc; eexists; reflexivity).
Qed.

(** X17. [move_mm] with both targets within limits and a stage that
    answers: a wait still pending on x is run first, the move of x is
    written, then the same for y; with [block] the stage is then polled
    with the empty command until it is idle (the axes themselves are not
    polled again) and the three flags end [False]; without [block]
    nothing more is written and the three flags end [True].  Both targets
    are cached. *)
Theorem X17_move_mm_in_limits (fuel : nat) (x y : float)
    (relative block : bool) (busy_x busy_y busy : list string)
    (idle_x idle_y idle l_x l_y : string) (rest : list string)
    (self : Controller) :
  let t_x := target relative (x_mm self) x in
  let t_y := target relative (y_mm self) y in
  rx (port self) = "" ->
  device (port self) =
    wait_script (_moving_x self) busy_x idle_x ++
    l_x :: wait_script (_moving_y self) busy_y idle_y ++
    l_y :: wait_script block busy idle ++ rest ->
  waits (_moving_x self) self busy_x idle_x fuel = true ->
  reply self l_x = true ->
  waits (_moving_y self) self busy_y idle_y fuel = true ->
  reply self l_y = true ->
  waits block self busy idle fuel = true ->
  within (x_min_mm self) t_x (x_max_mm self) = true ->
  within (y_min_mm self) t_y (y_max_mm self) = true ->
  exists out,
    move_mm py_str fuel x y relative block self =
    Return tt
      (says out
         (set_moving_y (negb block)
            (set_moving_x (negb block)
               (set_moving (negb block)
                  (set_y_mm t_y
                     (set_x_mm t_x
                        (answered
                           (wait_polls (_moving_x self) (device_address self)
                                       "1" busy_x
                            ++ [frame (device_address self)
                                  ("1 move abs " ++ py_str (1e6 * t_x)%float)]
                            ++ wait_polls (_moving_y self)
                                 (device_address self) "2" busy_y
                            ++ [frame (device_address self)
                                  ("2 move abs " ++ py_str (1e6 * t_y)%float)]
                            ++ wait_polls block (device_address self) ""
                                 busy)
                           rest self))))))).
Proof.
  intros t_x t_y R D Wx Lx Wy Ly W Ix Iy.
  now apply (move_mm_in_limits fuel x y relative block busy_x busy_y busy
               idle_x idle_y idle l_x l_y rest self).
Qed.

End TwoAxisMove.

(** A relative move by (1, 1) mm after a move that did not block: both
    axes are polled once before their command, and the stage is busy for
    one poll afterwards. *)
Lemma X17_move_mm_in_limits_witness :
  exists out,
    move_mm CPython.py_str 2 1 1 true true
      (set_moving_y true
         (set_moving_x true
            (bench true false
               [line "@01 1 OK IDLE -- 0"; line "@01 1 OK BUSY -- 0";
                line "@01 2 OK IDLE -- 0"; line "@01 2 OK BUSY -- 0";
                line "@01 0 OK BUSY -- 0"; line "@01 0 OK IDLE -- 0"]))) =
    Return tt
      (says out
         (set_y_mm 52
            (set_x_mm 67
               (answered
                  [frame "01" "1"; frame "01" "1 move abs 67000000.0";
                   frame "01" "2"; frame "01" "2 move abs 52000000.0";
                   frame "01" ""; frame "01" ""]
                  [] (bench true false []))))).
Proof.
  destruct (X17_move_mm_in_limits CPython.py_str 2 1 1 true true
              [] [] [line "@01 0 OK BUSY -- 0"]
              (line "@01 1 OK IDLE -- 0") (line "@01 2 OK IDLE -- 0")
              (line "@01 0 OK IDLE -- 0")
              (line "@01 1 OK BUSY -- 0") (line "@01 2 OK BUSY -- 0") []
              (set_moving_y true
                 (set_moving_x true
                    (bench true false
                       [line "@01 1 OK IDLE -- 0"; line "@01 1 OK BUSY -- 0";
                        line "@01 2 OK IDLE -- 0"; line "@01 2 OK BUSY -- 0";
                        line "@01 0 OK BUSY -- 0"; line "@01 0 OK IDLE -- 0"])))
              eq_refl eq_refl eq_refl eq_refl eq_refl eq_refl eq_refl
              eq_refl eq_refl) as [out E].
  exists out. rewrite E. vm_compute. reflexivity.
Defined.

(* ================================================================== *)
(** * Identification of the device *)
(* ================================================================== *)

Lemma check_device_id_and_address_eq (self : Controller) :
  let r := fst (identified self) in
  exists out,
    check_device_id_and_address self =
    if Nat.eqb (String.length r) 0 then
      Raise Exception_no_response (after_id self)
    else if negb (Py.is_ascii r) then
      Raise UnicodeDecodeError (after_id self)
    else
      match last_item (Py.split r) with
      | None => Raise IndexError (after_id self)
      | Some id =>
          if String.eqb id "50998" then
            Return tt
              (says out
                 (set_device_address (Py.slice 1 3 r)
                    (set_device_name "X-ADR130B100B-SAE53D12"
                       (set_device_id id (after_id self)))))
          else
            Raise (Exception_device_id_not_recognised id)
              (says out (set_device_id id (after_id self)))
      end.
Proof.
  unfold check_device_id_and_address, after_id, id_echo, identified, says,
    id_query.
  destruct self as [nm vb vv ? ? ? ? p ? ? addr ? ? ? ? ? ? ? o].
  cbv zeta. run. fields.
  destruct vb, vv; cbv beta iota zeta; fields;
    destruct (Port.readline
                (Port.write ("/get device.id" ++ String Py.LF "") p))
      as [r p'];
    cbn [fst snd]; cbv beta iota zeta; fields;
    destruct (Nat.eqb (String.length r) 0); cbv beta iota; fields;
    try destruct (Py.is_ascii r); cbv beta iota; cbn [negb]; fields;
    try destruct (last_item (Py.split r)) as [id|]; cbv beta iota; fields;
    try destruct (String.eqb id "50998"); cbv beta iota; fields;
    first
      [ eexists; rewrite <- ?app_assoc; cbn [app]; reflexivity
      | exists []; rewrite <- ?app_assoc, ?app_nil_r; cbn [app];
        rewrite ?app_nil_r; reflexivity ].
Qed.

Lemma identified_tx (self : Controller) :
  tx (snd (identified self)) = tx (port self) ++ [id_query].
Proof.
  unfold identified, Port.readline, Port.write.
  destruct (device (port self)); cbn [rx tx device];
    match goal with |- context [Port.cut_line ?b] =>
      destruct (Port.cut_line b) end; reflexivity.
Qed.

(** X18. How [__init__] identifies the device.  It writes the one query
    [/get device.id] and reads one line.  An empty line (the read timed
    out) raises [Exception] for no response; a line that is not ASCII
    raises [UnicodeDecodeError]; a line of white space raises
    [IndexError]; otherwise the last field of the line is stored as
    [device_id], and unless it is [50998] the constructor raises
    [Exception] for an unrecognised device.  For [50998] the device name
    is set and the address is characters 1 and 2 of the line as it was
    read: neither the terminator of the line nor its first character is
    looked at. *)
Theorem X18_identification (self : Controller) :
  let r := fst (identified self) in
  tx (port (after_id self)) = tx (port self) ++ [id_query] /\
  exists out,
    check_device_id_and_address self =
    if Nat.eqb (String.length r) 0 then
      Raise Exception_no_response (after_id self)
    else if negb (Py.is_ascii r) then
      Raise UnicodeDecodeError (after_id self)
    else
      match last_item (Py.split r) with
      | None => Raise IndexError (after_id self)
      | Some id =>
          if String.eqb id "50998" then
            Return tt
              (says out
                 (set_device_address (Py.slice 1 3 r)
                    (set_device_name "X-ADR130B100B-SAE53D12"
                       (set_device_id id (after_id self)))))
          else
            Raise (Exception_device_id_not_recognised id)
              (says out (set_device_id id (after_id self)))
      end.
Proof.
  intros r. split.
  - unfold after_id, says. rewrite <- identified_tx.
    destruct self. reflexivity.
  - apply check_device_id_and_address_eq.
Qed.

(** A line with no terminator and no reply character is taken: the
    address becomes [AB]. *)
Example identification_takes_an_unframed_line :
  exists self',
    check_device_id_and_address
      (bench false false ["xAB 50998"]) = Return tt self' /\
    device_address self' = "AB".
Proof. eexists. vm_compute. split; reflexivity. Qed.

Lemma check_device_id_and_address_returns (s s' : Controller) :
  check_device_id_and_address s = Return tt s' ->
  device_id s' = "50998" /\ device_name s' = "X-ADR130B100B-SAE53D12" /\
  name s' = name s /\ verbose s' = verbose s /\
  very_verbose s' = very_verbose s /\ limits s' = limits s.
Proof.
  destruct (check_device_id_and_address_eq s) as [out E]. rewrite E. clear E.
  destruct (Nat.eqb _ 0); [discriminate|].
  destruct (negb _); [discriminate|].
  destruct (last_item _) as [id|]; [|discriminate].
  destruct (String.eqb id "50998") eqn:Id; [|discriminate].
  apply String.eqb_eq in Id. subst id.
  intros H. injection H as <-.
  unfold after_id, says. destruct s. repeat split.
Qed.

(* ================================================================== *)
(** * The constructed object *)
(* ================================================================== *)

Section Constructed.

Variable py_str : float -> string.
Variable py_float : string -> option float.
Variable py_round3 : float -> float.

Lemma open_serial_port_returns (which_port : option Serial)
    (s s' : Controller) :
  open_serial_port which_port s = Return tt s' ->
  which_port <> None /\
  name s' = name s /\ verbose s' = verbose s /\
  very_verbose s' = very_verbose s /\ limits s' = limits s.
Proof.
  unfold open_serial_port. run.
  destruct which_port as [p|]; destruct (verbose s) eqn:V;
    cbv beta iota; try discriminate;
    intros H; injection H as <-; destruct s; fields; rewrite ?V;
    (split; [discriminate | repeat split]).
Qed.

Lemma __init___result (fuel : nat) (which_port : option Serial)
    (name' : string) (verbose' very_verbose' : bool)
    (x_limits_mm y_limits_mm maxspeed_mmps : float * float)
    (self : Controller) :
  __init__ py_str py_float py_round3 fuel which_port name' verbose'
    very_verbose' x_limits_mm y_limits_mm maxspeed_mmps = Return tt self ->
  which_port <> None /\
  legal_limits 130 x_limits_mm = true /\
  legal_limits 100 y_limits_mm = true /\
  name self = name' /\ verbose self = verbose' /\
  very_verbose self = very_verbose' /\
  limits self =
    (fst x_limits_mm, snd x_limits_mm, fst y_limits_mm, snd y_limits_mm) /\
  device_id self = "50998" /\
  device_name self = "X-ADR130B100B-SAE53D12" /\
  within 0.01 (fst maxspeed_mmps) 750 = true /\
  within 0.01 (snd maxspeed_mmps) 750 = true /\
  PrimFloat.eqb (x_mmps self) (fst maxspeed_mmps) = true /\
  PrimFloat.eqb (y_mmps self) (snd maxspeed_mmps) = true.
Proof.
  unfold __init__. intros H.
  apply bind_returns in H. destruct H as ([] & s1 & L & H).
  apply bind_returns in H. destruct H as ([] & s2 & O & H).
  apply bind_returns in H. destruct H as ([] & s3 & I & H).
  apply bind_returns in H. destruct H as ([] & s4 & W & H).
  destruct (legal_limits 130 x_limits_mm && legal_limits 100 y_limits_mm)
    eqn:Legal.
  2:{ destruct (legalize_axis_limits_illegal x_limits_mm y_limits_mm
                  (fresh name' verbose' very_verbose') Legal) as (a & E & _).
      rewrite E in L. discriminate. }
  rewrite (legalize_axis_limits_legal _ _ _ Legal) in L. injection L as <-.
  apply andb_prop in Legal. destruct Legal as [Lx Ly].
  apply open_serial_port_returns in O.
  destruct O as (P & O1 & O2 & O3 & O4).
  apply check_device_id_and_address_returns in I.
  destruct I as (I1 & I2 & I3 & I4 & I5 & I6).
  set (g := fun c => (name c, verbose c, very_verbose c, limits c,
                      (device_id c, device_name c))).
  assert (K4 : keeps g s3 s4).
  { eapply ends_in_returns; [|exact W].
    apply keeps_check_warnings_and_home; untouched. }
  assert (K5 : keeps g s4 self).
  { eapply ends_in_returns; [|exact H].
    apply keeps_get_status_position_and_set_maxspeed; untouched. }
  unfold get_status_position_and_set_maxspeed in H.
  apply bind_returns in H. destruct H as (? & s5 & _ & H).
  apply bind_returns in H. destruct H as (? & s6 & _ & H).
  apply bind_returns in H. destruct H as (? & s7 & _ & H).
  apply (set_maxspeed_result py_str py_float py_round3) in H.
  cbn [or_cached] in H. destruct H as (Vx & Vy & Ex & Ey).
  unfold keeps, g in K4, K5. clear g. unfold limits in *.
  injection K4 as N4 V4 VV4 A4 B4 C4 D4 I4' J4.
  injection K5 as N5 V5 VV5 A5 B5 C5 D5 I5' J5.
  unfold fresh in O1, O2, O3, O4.
  cbn [name verbose very_verbose x_min_mm x_max_mm y_min_mm y_max_mm
       set_limits] in O1, O2, O3, O4.
  injection O4 as A2 B2 C2 D2. injection I6 as A3 B3 C3 D3.
  repeat split; try assumption; congruence.
Qed.

(** X19. What holds of every object [__init__] returns: the port opened;
    the limits passed in were legal and are the limits of the object;
    name and verbosity are as passed; the device is the one the adaptor
    knows ([50998], [X-ADR130B100B-SAE53D12]); and the speeds passed in
    were within [0.01, 750] mm/s and are, as the stage reported them
    back, the cached speeds. *)
Theorem X19_constructed_object (fuel : nat) (which_port : option Serial)
    (name' : string) (verbose' very_verbose' : bool)
    (x_limits_mm y_limits_mm maxspeed_mmps : float * float)
    (self : Controller) :
  __init__ py_str py_float py_round3 fuel which_port name' verbose'
    very_verbose' x_limits_mm y_limits_mm maxspeed_mmps = Return tt self ->
  which_port <> None /\
  legal_limits 130 x_limits_mm = true /\
  legal_limits 100 y_limits_mm = true /\
  name self = name' /\ verbose self = verbose' /\
  very_verbose self = very_verbose' /\
  limits self =
    (fst x_limits_mm, snd x_limits_mm, fst y_limits_mm, snd y_limits_mm) /\
  device_id self = "50998" /\
  device_name self = "X-ADR130B100B-SAE53D12" /\
  within 0.01 (fst maxspeed_mmps) 750 = true /\
  within 0.01 (snd maxspeed_mmps) 750 = true /\
  PrimFloat.eqb (x_mmps self) (fst maxspeed_mmps) = true /\
  PrimFloat.eqb (y_mmps self) (snd maxspeed_mmps) = true.
Proof. apply __init___result. Qed.

End Constructed.

(** The constructor run against the stage of [session]. *)
Lemma X19_constructed_object_witness :
  exists self,
    __init__ CPython.py_str CPython.py_float CPython.py_round3 2
      (Some (mkSerial [] "" session)) "X-ADR130" true false
      (0, 130)%float (0, 100)%float (100, 100)%float = Return tt self /\
    limits self = (0, 130, 0, 100)%float /\
    device_id self = "50998" /\
    device_name self = "X-ADR130B100B-SAE53D12" /\
    within 0.01 100 750 = true /\
    within 0.01 100 750 = true /\
    PrimFloat.eqb (x_mmps self) 100 = true /\
    PrimFloat.eqb (y_mmps self) 100 = true.
Proof.
  eexists. split; [vm_compute; reflexivity|].
  apply (X19_constructed_object CPython.py_str CPython.py_float
           CPython.py_round3 2 (Some (mkSerial [] "" session)) "X-ADR130"
           true false (0, 130)%float (0, 100)%float (100, 100)%float).
  vm_compute. reflexivity.
Defined.

(* ================================================================== *)
(** * Replies the adaptor does not expect *)
(* ================================================================== *)

Lemma _home_refused (l : string) (rest : list string) (fuel : nat)
    (self : Controller) :
  rx (port self) = "" ->
  device (port self) = l :: rest ->
  reply self l = true ->
  String.eqb (payload l) "0 OK BUSY WR 0" = false ->
  exists out,
    _home fuel self =
    Raise (AssertionError home_acknowledgment)
      (says out (answered [frame (device_address self) "home"] rest self)).
Proof.
  unfold _home.
  destruct self as [nm vb vv ? ? ? ? [t0 r0 d0] ? ? addr ? ? ? ? ? ? ? o].
  intros R D W P. fields. subst r0 d0. run. fields.
  destruct vb; cbv beta iota; fields; send_by _send_reply l rest; rewrite P;
    cbv beta iota; fields; assoc; eexists; reflexivity.
Qed.

(** X20. [_home] takes one acknowledgment only, [0 OK BUSY WR 0]: on any
    other reply that [_send] accepts (one without the [WR] flag, say,
    from a stage that was homed already) it raises its assertion with the
    [home] command written, no poll sent and [_moving] as it was,
    whatever the stage is doing. *)
Theorem X20_home_acknowledgment (l : string) (rest : list string)
    (fuel : nat) (self : Controller) :
  rx (port self) = "" ->
  device (port self) = l :: rest ->
  reply self l = true ->
  String.eqb (payload l) "0 OK BUSY WR 0" = false ->
  exists out,
    _home fuel self =
    Raise (AssertionError home_acknowledgment)
      (says out (answered [frame (device_address self) "home"] rest self)).
Proof. intros R D W P. now apply (_home_refused l rest fuel self). Qed.

(** A stage that acknowledges [home] without the [WR] flag. *)
Lemma X20_home_acknowledgment_witness :
  exists out,
    _home 0 (bench true false [line "@01 0 OK BUSY -- 0"]) =
    Raise (AssertionError home_acknowledgment)
      (says out
         (answered [frame "01" "home"] []
            (bench true false [line "@01 0 OK BUSY -- 0"]))).
Proof.
  apply (X20_home_acknowledgment (line "@01 0 OK BUSY -- 0") [] 0
           (bench true false [line "@01 0 OK BUSY -- 0"]));
    reflexivity.
Defined.

Lemma _get_status_short (l : string) (rest : list string)
    (self : Controller) :
  rx (port self) = "" ->
  device (port self) = l :: rest ->
  reply self l = true ->
  state_of l = None ->
  exists out,
    _get_status self =
    Raise IndexError
      (says out
         (set_moving false
            (answered [frame (device_address self) ""] rest self))).
Proof.
  unfold state_of, _get_status.
  destruct self as [nm vb vv ? ? ? ? p ? ? addr ? ? ? ? ? ? ? out].
  intros R D W T. run. fields.
  destruct vv; cbv beta iota; fields; send_by _send_reply l rest; rewrite T;
    cbv beta iota; fields; assoc; eexists; reflexivity.
Qed.

Lemma _get_status_x_short (l : string) (rest : list string)
    (self : Controller) :
  rx (port self) = "" ->
  device (port self) = l :: rest ->
  reply self l = true ->
  state_of l = None ->
  exists out,
    _get_status_x self =
    Raise IndexError
      (says out
         (set_moving_x false
            (answered [frame (device_address self) "1"] rest self))).
Proof.
  unfold state_of, _get_status_x.
  destruct self as [nm vb vv ? ? ? ? p ? ? addr ? ? ? ? ? ? ? out].
  intros R D W T. run. fields.
  destruct vv; cbv beta iota; fields; send_by _send_reply l rest; rewrite T;
    cbv beta iota; fields; assoc; eexists; reflexivity.
Qed.

Lemma _get_status_y_short (l : string) (rest : list string)
    (self : Controller) :
  rx (port self) = "" ->
  device (port self) = l :: rest ->
  reply self l = true ->
  state_of l = None ->
  exists out,
    _get_status_y self =
    Raise IndexError
      (says out
         (set_moving_y false
            (answered [frame (device_address self) "2"] rest self))).
Proof.
  unfold state_of, _get_status_y.
  destruct self as [nm vb vv ? ? ? ? p ? ? addr ? ? ? ? ? ? ? out].
  intros R D W T. run. fields.
  destruct vv; cbv beta iota; fields; send_by _send_reply l rest; rewrite T;
    cbv beta iota; fields; assoc; eexists; reflexivity.
Qed.

Lemma bind_Raise {A B} (m : M A) (k : A -> M B) (s s' : Controller)
    (e : PyError) :
  m s = Raise e s' -> bind m k s = Raise e s'.
Proof. unfold bind. now intros ->. Qed.

(** X21. A status reply that [_send] accepts but whose payload has fewer
    than three fields: the poll raises [IndexError], and since the flag is
    cleared before the state field is read, it raises with the flag
    [False].  A wait that meets such a reply on its first poll ends the
    same way. *)
Theorem X21_short_status_reply (l : string) (rest : list string)
    (fuel : nat) (self : Controller) :
  rx (port self) = "" ->
  device (port self) = l :: rest ->
  reply self l = true ->
  state_of l = None ->
  (exists out,
     _get_status self =
     Raise IndexError
       (says out
          (set_moving false
             (answered [frame (device_address self) ""] rest self)))) /\
  (exists out,
     _get_status_x self =
     Raise IndexError
       (says out
          (set_moving_x false
             (answered [frame (device_address self) "1"] rest self)))) /\
  (exists out,
     _get_status_y self =
     Raise IndexError
       (says out
          (set_moving_y false
             (answered [frame (device_address self) "2"] rest self)))) /\
  (_moving self = true ->
   exists out,
     _finish_moving (S fuel) self =
     Raise IndexError
       (says out
          (set_moving false
             (answered [frame (device_address self) ""] rest self)))) /\
  (_moving_x self = true ->
   exists out,
     _finish_moving_x (S fuel) self =
     Raise IndexError
       (says out
          (set_moving_x false
             (answered [frame (device_address self) "1"] rest self)))) /\
  (_moving_y self = true ->
   exists out,
     _finish_moving_y (S fuel) self =
     Raise IndexError
       (says out
          (set_moving_y false
             (answered [frame (device_address self) "2"] rest self)))).
Proof.
  intros R D W T.
  destruct (_get_status_short l rest self R D W T) as [o0 E0].
  destruct (_get_status_x_short l rest self R D W T) as [o1 E1].
  destruct (_get_status_y_short l rest self R D W T) as [o2 E2].
  repeat match goal with |- _ /\ _ => split end; eauto.
  - intros Mv. exists o0. cbn [_finish_moving]. rewrite Mv.
    now apply bind_Raise.
  - intros Mv. exists o1. cbn [_finish_moving_x]. rewrite Mv.
    now apply bind_Raise.
  - intros Mv. exists o2. cbn [_finish_moving_y]. rewrite Mv.
    now apply bind_Raise.
Qed.

(** A wait on x that is answered [@01 1 OK]. *)
Lemma X21_short_status_reply_witness :
  exists out,
    _finish_moving_x 1
      (set_moving_x true (bench true false [line "@01 1 OK"])) =
    Raise IndexError
      (says out
         (set_moving_x false
            (answered [frame "01" "1"] []
               (set_moving_x true (bench true false [line "@01 1 OK"]))))).
Proof.
  apply (X21_short_status_reply (line "@01 1 OK") [] 0
           (set_moving_x true (bench true false [line "@01 1 OK"])));
    reflexivity.
Defined.

(* ================================================================== *)
(** * Not a number *)
(* ================================================================== *)

Lemma is_nan_Prim2SF (v : float) :
  PrimFloat.is_nan v = true -> Prim2SF v = S754_nan.
Proof. unfold Prim2SF. now intros ->. Qed.

Lemma leb_nan_l (v w : float) :
  PrimFloat.is_nan v = true -> PrimFloat.leb v w = false.
Proof.
  intros H. rewrite leb_spec, (is_nan_Prim2SF v H). reflexivity.
Qed.

Lemma leb_nan_r (v w : float) :
  PrimFloat.is_nan w = true -> PrimFloat.leb v w = false.
Proof.
  intros H. rewrite leb_spec, (is_nan_Prim2SF w H).
  destruct (Prim2SF v); reflexivity.
Qed.

Lemma within_nan (lo v hi : float) :
  PrimFloat.is_nan v = true -> within lo v hi = false.
Proof.
  intros H. unfold within. now rewrite (leb_nan_r lo v H).
Qed.

Lemma add_nan (c v : float) :
  PrimFloat.is_nan v = true -> PrimFloat.is_nan (c + v)%float = true.
Proof.
  intros H. unfold PrimFloat.is_nan at 1.
  rewrite FloatAxioms.eqb_spec, add_spec, (is_nan_Prim2SF v H).
  unfold SF64add, SFadd. destruct (Prim2SF c); reflexivity.
Qed.

Lemma target_nan (relative : bool) (c v : float) :
  PrimFloat.is_nan v = true ->
  PrimFloat.is_nan (target relative c v) = true.
Proof.
  intros H. destruct relative; cbn [target]; [now apply add_nan | exact H].
Qed.

Section NotANumber.

Variable py_str : float -> string.
Variable py_float : string -> option float.
Variable py_round3 : float -> float.

(** X22. Not-a-number never reaches the stage.  A move of an idle axis to
    a NaN target, absolute or relative, fails the limit test (every
    comparison with NaN is false): the call returns with the warning
    printed and nothing written; and [set_maxspeed] with a NaN speed
    raises its range assertion before it writes. *)
Theorem X22_nan_is_refused (fuel : nat) (v : float) (relative block : bool)
    (other : option float) (self : Controller) :
  PrimFloat.is_nan v = true ->
  (_moving_x self = false ->
   _move_x py_str fuel v relative block self =
   Return tt (says (x_refusal self v relative) self)) /\
  (_moving_y self = false ->
   _move_y py_str fuel v relative block self =
   Return tt (says (y_refusal self v relative) self)) /\
  set_maxspeed py_str py_float py_round3 (Some v) other self =
    Raise (AssertionError maxspeed_out_of_range)
      (says (speed_notice self v (or_cached other (y_mmps self))) self) /\
  set_maxspeed py_str py_float py_round3 other (Some v) self =
    Raise (AssertionError maxspeed_out_of_range)
      (says (speed_notice self (or_cached other (x_mmps self)) v) self).
Proof.
  intros N. repeat split.
  - intros Mv. apply _move_x_idle_out_of_limits; [exact Mv|].
    apply within_nan. now apply target_nan.
  - intros Mv. apply _move_y_idle_out_of_limits; [exact Mv|].
    apply within_nan. now apply target_nan.
  - apply (set_maxspeed_out_of_range py_str py_float py_round3 (Some v) other).
    cbn [or_cached]. now rewrite (within_nan 0.01 v 750 N).
  - apply (set_maxspeed_out_of_range py_str py_float py_round3 other (Some v)).
    cbn [or_cached]. rewrite (within_nan 0.01 v 750 N).
    apply andb_false_r.
Qed.

End NotANumber.

(** A relative move of x by NaN. *)
Lemma X22_nan_is_refused_witness :
  _move_x CPython.py_str 0 nan true true (bench true false []) =
  Return tt (says [x_out_of_limits] (bench true false [])).
Proof.
  apply (X22_nan_is_refused CPython.py_str CPython.py_float
           CPython.py_round3 0 nan true true None (bench true false []));
    reflexivity.
Defined.

(* ================================================================== *)
(** * Reading the speed *)
(* ================================================================== *)

Section SpeedReads.

Variable py_float : string -> option float.
Variable py_round3 : float -> float.

Lemma get_maxspeed_any_reply (l : string) (rest : list string)
    (self : Controller) :
  rx (port self) = "" ->
  device (port self) = l :: rest ->
  reply self l = true ->
  exists out,
    get_maxspeed py_float py_round3 self =
    match map py_float (speed_fields l) with
    | [Some wx; Some wy] =>
        Return (speed_of_wire py_round3 wx, speed_of_wire py_round3 wy)
          (says out
             (set_y_mmps (speed_of_wire py_round3 wy)
                (set_x_mmps (speed_of_wire py_round3 wx)
                   (answered [frame (device_address self) "get maxspeed"]
                             rest self))))
    | _ =>
        Raise ValueError
          (says out
             (answered [frame (device_address self) "get maxspeed"]
                       rest self))
    end.
Proof.
  unfold speed_fields, get_maxspeed, speed_of_wire.
  destruct self as [nm vb vv ? ? ? ? p ? ? addr ? ? ? ? ? ? ? o].
  intros R D W. fields. run. fields.
  pose proof (firstn_le_length 2 (skipn 4 (Py.split (payload l)))) as Len.
  destruct vb; cbv beta iota; fields; send_by _send_reply l rest;
    destruct (firstn 2 (skipn 4 (Py.split (payload l))))
      as [|a [|b [|c r]]];
    try (cbn [length] in Len; lia);
    cbn [floats_of map]; run;
    try destruct (py_float a); try destruct (py_float b);
    cbv beta iota; cbn [unpack2]; run; fields; assoc; eexists; reflexivity.
Qed.

(** X23. [get_maxspeed] on a reply that [_send] takes: with two speed
    fields that both parse as floats it returns, and caches, the pair
    [round(1e-6 * field / 1.6384, 3)]; in every other case (a field that
    does not parse, or fewer than two fields, as in the reply for one
    axis) it raises [ValueError] with the cached speeds as they were. *)
Theorem X23_get_maxspeed (l : string) (rest : list string)
    (self : Controller) :
  rx (port self) = "" ->
  device (port self) = l :: rest ->
  reply self l = true ->
  exists out,
    get_maxspeed py_float py_round3 self =
    match map py_float (speed_fields l) with
    | [Some wx; Some wy] =>
        Return (speed_of_wire py_round3 wx, speed_of_wire py_round3 wy)
          (says out
             (set_y_mmps (speed_of_wire py_round3 wy)
                (set_x_mmps (speed_of_wire py_round3 wx)
                   (answered [frame (device_address self) "get maxspeed"]
                             rest self))))
    | _ =>
        Raise ValueError
          (says out
             (answered [frame (device_address self) "get maxspeed"]
                       rest self))
    end.
Proof. apply get_maxspeed_any_reply. Qed.

End SpeedReads.

(** A stage that reports the speed of one axis only. *)
Lemma X23_get_maxspeed_witness :
  exists out,
    get_maxspeed CPython.py_float CPython.py_round3
      (bench true false [line "@01 0 OK IDLE -- 163840000"]) =
    Raise ValueError
      (says out
         (answered [frame "01" "get maxspeed"] []
            (bench true false [line "@01 0 OK IDLE -- 163840000"]))).
Proof.
  destruct (X23_get_maxspeed CPython.py_float CPython.py_round3
              (line "@01 0 OK IDLE -- 163840000") []
              (bench true false [line "@01 0 OK IDLE -- 163840000"])
              eq_refl eq_refl eq_refl) as [out E].
  exists out. rewrite E. vm_compute. reflexivity.
Defined.

(* ================================================================== *)
(** * What the trace changes *)
(* ================================================================== *)

Lemma alike_fields (a b : Controller) :
  alike a b ->
  name b = name a /\ verbose b = verbose a /\
  x_min_mm b = x_min_mm a /\ x_max_mm b = x_max_mm a /\
  y_min_mm b = y_min_mm a /\ y_max_mm b = y_max_mm a /\
  port b = port a /\ device_id b = device_id a /\
  device_name b = device_name a /\ device_address b = device_address a /\
  _moving b = _moving a /\ _moving_x b = _moving_x a /\
  _moving_y b = _moving_y a /\ x_mm b = x_mm a /\ y_mm b = y_mm a /\
  x_mmps b = x_mmps a /\ y_mmps b = y_mmps a.
Proof.
  unfold alike, hush. intros H. injection H. intros.
  repeat split; symmetry; assumption.
Qed.

Lemma alike_refl (a : Controller) : alike a a.
Proof. reflexivity. Qed.

(** An assignment that writes neither [very_verbose] nor the console. *)
Lemma alike_set (f : Controller -> Controller) (s t : Controller) :
  (forall c, hush (f c) = f (hush c)) -> alike s t -> alike (f s) (f t).
Proof. unfold alike. intros C H. now rewrite !C, H. Qed.

Lemma alike_stdout (o1 o2 : list Msg) (s t : Controller) :
  alike s t -> alike (set_stdout o1 s) (set_stdout o2 t).
Proof. unfold alike. destruct s, t. exact (fun H => H). Qed.

Lemma agrees_ret {A} (a : A) (s t : Controller) :
  alike s t -> agrees (ret a) (ret a) s t.
Proof. intros H. split; [reflexivity | exact H]. Qed.

Lemma agrees_raise {A} (e : PyError) (s t : Controller) :
  alike s t -> agrees (@raise A e) (@raise A e) s t.
Proof. intros H. split; [reflexivity | exact H]. Qed.

Lemma agrees_bind {A B} (m1 m2 : M A) (k1 k2 : A -> M B) (s t : Controller) :
  agrees m1 m2 s t ->
  (forall a s' t', alike s' t' -> agrees (k1 a) (k2 a) s' t') ->
  agrees (bind m1 k1) (bind m2 k2) s t.
Proof.
  unfold agrees, bind. intros Hm Hk.
  destruct (m1 s) as [a s'|e s'|], (m2 t) as [b t'|e' t'|]; cbn in Hm;
    try contradiction; try exact I.
  - destruct Hm as [<- H]. now apply Hk.
  - exact Hm.
Qed.

Lemma agrees_get_bind {B} (k1 k2 : Controller -> M B) (s t : Controller) :
  agrees (k1 s) (k2 t) s t -> agrees (bind get k1) (bind get k2) s t.
Proof. exact (fun H => H). Qed.

Lemma agrees_modify (f : Controller -> Controller) (s t : Controller) :
  (forall c, hush (f c) = f (hush c)) -> alike s t ->
  agrees (modify f) (modify f) s t.
Proof. intros C H. split; [reflexivity | now apply alike_set]. Qed.

Lemma agrees_print (m1 m2 : Msg) (s t : Controller) :
  alike s t -> agrees (print m1) (print m2) s t.
Proof. intros H. split; [reflexivity | now apply alike_stdout]. Qed.

(** A message printed on one side, the other, both or neither. *)
Lemma agrees_when_print (b1 b2 : bool) (m1 m2 : Msg) (s t : Controller) :
  alike s t -> agrees (when b1 (print m1)) (when b2 (print m2)) s t.
Proof.
  intros H. destruct b1, b2; (split; [reflexivity|]); cbn [fst snd];
    unfold alike in *; destruct s, t; exact H.
Qed.

Lemma agrees_when (b : bool) (m1 m2 : M unit) (s t : Controller) :
  agrees m1 m2 s t -> alike s t -> agrees (when b m1) (when b m2) s t.
Proof. destruct b; [auto | intros _ H; now apply agrees_ret]. Qed.

Lemma agrees_assert (b : bool) (a : Assertion) (s t : Controller) :
  alike s t -> agrees (assert b a) (assert b a) s t.
Proof. destruct b; [apply agrees_ret | apply agrees_raise]. Qed.

Lemma agrees_try {A} (o : option A) (e : PyError) (s t : Controller) :
  alike s t -> agrees (try o e) (try o e) s t.
Proof. destruct o; [apply agrees_ret | apply agrees_raise]. Qed.

Lemma agrees_decode_ascii (b : string) (s t : Controller) :
  alike s t -> agrees (decode_ascii b) (decode_ascii b) s t.
Proof.
  unfold decode_ascii. destruct (Py.is_ascii b);
    [apply agrees_ret | apply agrees_raise].
Qed.

Lemma agrees_port_write (cmd : string) (s t : Controller) :
  alike s t -> agrees (port_write cmd) (port_write cmd) s t.
Proof. intros H. apply agrees_modify; [intros []; reflexivity | exact H]. Qed.

Lemma agrees_port_readline (s t : Controller) :
  alike s t -> agrees port_readline port_readline s t.
Proof.
  intros H. unfold agrees, port_readline.
  destruct (alike_fields s t H) as (_ & _ & _ & _ & _ & _ & -> & _).
  destruct (Port.readline (port s)) as [l p].
  split; [reflexivity|]. apply alike_set; [intros []; reflexivity | exact H].
Qed.

Lemma agrees_port_in_waiting (s t : Controller) :
  alike s t -> agrees port_in_waiting port_in_waiting s t.
Proof.
  intros H. unfold agrees, port_in_waiting.
  destruct (alike_fields s t H) as (_ & _ & _ & _ & _ & _ & -> & _).
  split; [reflexivity | exact H].
Qed.

(** Read the attributes of [t] off [s]. *)
Ltac same_self H :=
  let F := fresh "F" in
  pose proof (alike_fields _ _ H) as F;
  destruct F as (?F & ?F & ?F & ?F & ?F & ?F & ?F & ?F & ?F & ?F & ?F & ?F
                 & ?F & ?F & ?F & ?F & ?F);
  repeat match goal with
         | E : ?p ?t = ?p ?s |- context [?p ?t] => rewrite E
         end.

(** Follow two runs of a method side by side. *)
Ltac side_by_side methods :=
  repeat lazymatch goal with
         | H : alike ?s ?t |- agrees (bind get _) (bind get _) ?s ?t =>
             apply agrees_get_bind; cbv beta; same_self H
         | |- agrees (let _ := _ in _) _ _ _ => cbv zeta
         | |- agrees (when _ (print _)) (when _ (print _)) _ _ =>
             apply agrees_when_print; assumption
         | |- agrees (when ?b _) (when ?b _) _ _ =>
             apply agrees_when; [|assumption]
         | |- agrees (bind _ _) (bind _ _) _ _ =>
             apply agrees_bind; [|intros ? ? ? ?]
         | |- agrees (if ?b then _ else _) (if ?b then _ else _) _ _ =>
             destruct b
         | |- agrees (ret _) (ret _) _ _ => apply agrees_ret; assumption
         | |- agrees (raise _) (raise _) _ _ => apply agrees_raise; assumption
         | |- agrees (assert _ _) (assert _ _) _ _ =>
             apply agrees_assert; assumption
         | |- agrees (try _ _) (try _ _) _ _ => apply agrees_try; assumption
         | |- agrees (decode_ascii _) (decode_ascii _) _ _ =>
             apply agrees_decode_ascii; assumption
         | |- agrees (port_write _) (port_write _) _ _ =>
             apply agrees_port_write; assumption
         | |- agrees port_readline port_readline _ _ =>
             apply agrees_port_readline; assumption
         | |- agrees port_in_waiting port_in_waiting _ _ =>
             apply agrees_port_in_waiting; assumption
         | |- agrees (print _) (print _) _ _ => apply agrees_print; assumption
         | |- agrees (modify _) (modify _) _ _ =>
             apply agrees_modify; [intros []; reflexivity | assumption]
         | |- agrees _ _ _ _ => solve [methods]
         end.

Lemma traced_only_send (cmd response_type : string) :
  traced_only (_send cmd response_type).
Proof.
  intros s t H. unfold _send. side_by_side fail.
Qed.

Lemma traced_only_get_status : traced_only _get_status.
Proof.
  intros s t H. unfold _get_status.
  side_by_side ltac:(now apply traced_only_send).
Qed.

Lemma traced_only_get_warnings : traced_only _get_warnings.
Proof.
  intros s t H. unfold _get_warnings.
  side_by_side ltac:(now apply traced_only_send).
Qed.

Lemma traced_only_get_status_x : traced_only _get_status_x.
Proof.
  intros s t H. unfold _get_status_x.
  side_by_side ltac:(now apply traced_only_send).
Qed.

Lemma traced_only_get_status_y : traced_only _get_status_y.
Proof.
  intros s t H. unfold _get_status_y.
  side_by_side ltac:(now apply traced_only_send).
Qed.

Lemma traced_only_finish_moving (fuel : nat) : traced_only (_finish_moving fuel).
Proof.
  induction fuel as [|fuel IH]; intros s t H; unfold agrees;
    cbn [_finish_moving]; same_self H; destruct (_moving s).
  - exact I.
  - now apply agrees_when_print.
  - apply agrees_bind; [now apply traced_only_get_status|].
    intros ? s' t' H'. now apply IH.
  - now apply agrees_when_print.
Qed.

Lemma traced_only_finish_moving_x (fuel : nat) :
  traced_only (_finish_moving_x fuel).
Proof.
  induction fuel as [|fuel IH]; intros s t H; unfold agrees;
    cbn [_finish_moving_x]; same_self H; destruct (_moving_x s).
  - exact I.
  - now apply agrees_when_print.
  - apply agrees_bind; [now apply traced_only_get_status_x|].
    intros ? s' t' H'. now apply IH.
  - now apply agrees_when_print.
Qed.

Lemma traced_only_finish_moving_y (fuel : nat) :
  traced_only (_finish_moving_y fuel).
Proof.
  induction fuel as [|fuel IH]; intros s t H; unfold agrees;
    cbn [_finish_moving_y]; same_self H; destruct (_moving_y s).
  - exact I.
  - now apply agrees_when_print.
  - apply agrees_bind; [now apply traced_only_get_status_y|].
    intros ? s' t' H'. now apply IH.
  - now apply agrees_when_print.
Qed.

(** The calls a method makes, each closed by its own lemma. *)
Ltac callees :=
  first [ now apply traced_only_send
        | now apply traced_only_get_status
        | now apply traced_only_get_warnings
        | now apply traced_only_get_status_x
        | now apply traced_only_get_status_y
        | now apply traced_only_finish_moving
        | now apply traced_only_finish_moving_x
        | now apply traced_only_finish_moving_y ].

Lemma traced_only_home (fuel : nat) : traced_only (_home fuel).
Proof. intros s t H. unfold _home. side_by_side callees. Qed.

Lemma traced_only_stop_x : traced_only _stop_x.
Proof. intros s t H. unfold _stop_x. side_by_side callees. Qed.

Lemma traced_only_stop_y : traced_only _stop_y.
Proof. intros s t H. unfold _stop_y. side_by_side callees. Qed.

Section Trace.

Variable py_str : float -> string.
Variable py_float : string -> option float.
Variable py_round3 : float -> float.

Lemma traced_only_move_x (fuel : nat) (v : float) (relative block : bool) :
  traced_only (_move_x py_str fuel v relative block).
Proof. intros s t H. unfold _move_x. side_by_side callees. Qed.

Lemma traced_only_move_y (fuel : nat) (v : float) (relative block : bool) :
  traced_only (_move_y py_str fuel v relative block).
Proof. intros s t H. unfold _move_y. side_by_side callees. Qed.

Lemma traced_only_floats_of (f : float -> float) (l : list string) :
  traced_only (floats_of py_float f l).
Proof.
  induction l as [|p rest IH]; intros s t H; cbn [floats_of].
  - now apply agrees_ret.
  - apply agrees_bind; [now apply agrees_try|]. intros v s1 t1 H1.
    apply agrees_bind; [now apply IH|]. intros vs s2 t2 H2.
    now apply agrees_ret.
Qed.

Lemma traced_only_unpack2 (values : list float) : traced_only (unpack2 values).
Proof.
  intros s t H.
  destruct values as [|a [|b [|c rest]]]; cbn [unpack2];
    first [now apply agrees_ret | now apply agrees_raise].
Qed.

Ltac readers :=
  first [ callees
        | now apply traced_only_floats_of
        | now apply traced_only_unpack2 ].

Lemma traced_only_get_position_x : traced_only (_get_position_x py_float).
Proof. intros s t H. unfold _get_position_x. side_by_side readers. Qed.

Lemma traced_only_get_position_y : traced_only (_get_position_y py_float).
Proof. intros s t H. unfold _get_position_y. side_by_side readers. Qed.

Lemma traced_only_get_position_mm : traced_only (get_position_mm py_float).
Proof. intros s t H. unfold get_position_mm. side_by_side readers. Qed.

Lemma traced_only_get_maxspeed :
  traced_only (get_maxspeed py_float py_round3).
Proof. intros s t H. unfold get_maxspeed. side_by_side readers. Qed.

Lemma traced_only_set_maxspeed (x y : option float) :
  traced_only (set_maxspeed py_str py_float py_round3 x y).
Proof.
  intros s t H. unfold set_maxspeed.
  side_by_side ltac:(first [readers | now apply traced_only_get_maxspeed]).
Qed.

Lemma traced_only_move_mm (fuel : nat) (x y : float) (relative block : bool) :
  traced_only (move_mm py_str fuel x y relative block).
Proof.
  intros s t H. unfold move_mm.
  side_by_side ltac:(first [ callees
                           | now apply traced_only_move_x
                           | now apply traced_only_move_y ]).
Qed.

Lemma traced_only_legalize_axis_limits (x_limits_mm y_limits_mm : float * float) :
  traced_only (legalize_axis_limits x_limits_mm y_limits_mm).
Proof.
  intros s t H. unfold legalize_axis_limits. side_by_side fail.
Qed.

Lemma traced_only_open_serial_port (which_port : option Serial) :
  traced_only (open_serial_port which_port).
Proof.
  intros s t H. unfold open_serial_port.
  destruct which_port; side_by_side fail.
Qed.

Lemma traced_only_check_device_id_and_address :
  traced_only check_device_id_and_address.
Proof.
  intros s t H. unfold check_device_id_and_address. side_by_side fail.
Qed.

Lemma traced_only_check_warnings_and_home (fuel : nat) :
  traced_only (check_warnings_and_home fuel).
Proof.
  intros s t H. unfold check_warnings_and_home.
  side_by_side ltac:(first [callees | now apply traced_only_home]).
Qed.

Lemma traced_only_get_status_position_and_set_maxspeed
    (maxspeed_mmps : float * float) :
  traced_only
    (get_status_position_and_set_maxspeed py_str py_float py_round3
       maxspeed_mmps).
Proof.
  intros s t H. unfold get_status_position_and_set_maxspeed.
  side_by_side ltac:(first [ callees
                           | now apply traced_only_get_position_mm
                           | now apply traced_only_set_maxspeed ]).
Qed.

Lemma __init___traced_only (fuel : nat) (which_port : option Serial)
    (name' : string) (verbose' trace1 trace2 : bool)
    (x_limits_mm y_limits_mm maxspeed_mmps : float * float) :
  alike_outcome
    (__init__ py_str py_float py_round3 fuel which_port name' verbose'
       trace1 x_limits_mm y_limits_mm maxspeed_mmps)
    (__init__ py_str py_float py_round3 fuel which_port name' verbose'
       trace2 x_limits_mm y_limits_mm maxspeed_mmps).
Proof.
  unfold __init__.
  assert (H : alike (fresh name' verbose' trace1) (fresh name' verbose' trace2))
    by reflexivity.
  revert H. generalize (fresh name' verbose' trace1), (fresh name' verbose' trace2).
  intros s t H.
  change (agrees
            (legalize_axis_limits x_limits_mm y_limits_mm ;;
             open_serial_port which_port ;;
             check_device_id_and_address ;;
             check_warnings_and_home fuel ;;
             get_status_position_and_set_maxspeed py_str py_float py_round3
               maxspeed_mmps)
            (legalize_axis_limits x_limits_mm y_limits_mm ;;
             open_serial_port which_port ;;
             check_device_id_and_address ;;
             check_warnings_and_home fuel ;;
             get_status_position_and_set_maxspeed py_str py_float py_round3
               maxspeed_mmps) s t).
  side_by_side
    ltac:(first [ now apply traced_only_legalize_axis_limits
                | now apply traced_only_open_serial_port
                | now apply traced_only_check_device_id_and_address
                | now apply traced_only_check_warnings_and_home
                | now apply traced_only_get_status_position_and_set_maxspeed ]).
Qed.

(** X24. The trace changes the console only.  Two objects that differ at
    most in [very_verbose] and in what they have printed end every call
    the same way: the same value returned or the same exception raised,
    the same bytes written to and read from the port, and the same
    attributes, up to [very_verbose] and the console again; and a wait
    that does not end on one does not end on the other.  The same holds
    of two constructions that differ in [very_verbose]. *)
Theorem X24_trace_changes_the_console_only :
  (forall cmd response_type, traced_only (_send cmd response_type)) /\
  traced_only _get_status /\
  traced_only _get_warnings /\
  (forall fuel, traced_only (_finish_moving fuel)) /\
  (forall fuel, traced_only (_home fuel)) /\
  traced_only _get_status_x /\
  traced_only _get_status_y /\
  (forall fuel, traced_only (_finish_moving_x fuel)) /\
  (forall fuel, traced_only (_finish_moving_y fuel)) /\
  (forall fuel v relative block,
     traced_only (_move_x py_str fuel v relative block)) /\
  (forall fuel v relative block,
     traced_only (_move_y py_str fuel v relative block)) /\
  traced_only _stop_x /\
  traced_only _stop_y /\
  traced_only (_get_position_x py_float) /\
  traced_only (_get_position_y py_float) /\
  traced_only (get_position_mm py_float) /\
  (forall fuel x y relative block,
     traced_only (move_mm py_str fuel x y relative block)) /\
  traced_only (get_maxspeed py_float py_round3) /\
  (forall x y, traced_only (set_maxspeed py_str py_float py_round3 x y)) /\
  (forall fuel which_port name' verbose' trace1 trace2
          x_limits_mm y_limits_mm maxspeed_mmps,
     alike_outcome
       (__init__ py_str py_float py_round3 fuel which_port name' verbose'
          trace1 x_limits_mm y_limits_mm maxspeed_mmps)
       (__init__ py_str py_float py_round3 fuel which_port name' verbose'
          trace2 x_limits_mm y_limits_mm maxspeed_mmps)).
Proof.
  repeat match goal with |- _ /\ _ => split end; intros.
  - apply traced_only_send.
  - apply traced_only_get_status.
  - apply traced_only_get_warnings.
  - apply traced_only_finish_moving.
  - apply traced_only_home.
  - apply traced_only_get_status_x.
  - apply traced_only_get_status_y.
  - apply traced_only_finish_moving_x.
  - apply traced_only_finish_moving_y.
  - apply traced_only_move_x.
  - apply traced_only_move_y.
  - apply traced_only_stop_x.
  - apply traced_only_stop_y.
  - apply traced_only_get_position_x.
  - apply traced_only_get_position_y.
  - apply traced_only_get_position_mm.
  - apply traced_only_move_mm.
  - apply traced_only_get_maxspeed.
  - apply traced_only_set_maxspeed.
  - apply __init___traced_only.
Qed.

End Trace.
